(** * The Triage API client (python/triage/client.py), embedded in Rocq.

    Conventions of the embedding.
    - A Python [str] is a [string] holding the UTF-8 code units of the text,
      so [s.encode('utf-8')] is [list_ascii_of_string] and
      [s.encode('ascii')] fails exactly when a code unit is above 127.
    - Python [bytes] are [list ascii].
    - A decoded JSON document is a [json] tree; a JSON object keeps its
      members as an association list read by first match.
    - Python's [json] codec, [sys.version] and the network are not part of
      the repository: they are the Variables of Section [Triage].
    - A call that can raise returns a [result]; the requests handed to
      [urlopen] are logged in order, and the network answers a request
      knowing the requests made before it. *)

From Stdlib Require Import ZArith String Ascii DecimalString.
From stdpp Require Import base option list gmap strings.

Open Scope string_scope.
Open Scope list_scope.
Set Warnings "-register-all".

Abbreviation bytes := (list ascii).

(** ** Strings and bytes *)

Definition LF : ascii := "010".
Definition CR : ascii := "013".
Definition CRLF : string := String CR (String LF "").

Definition encode_utf8 (s : string) : bytes := list_ascii_of_string s.

Definition is_ascii (c : ascii) : bool := Nat.ltb (nat_of_ascii c) 128.

(** [s.encode('ascii')]: [None] stands for UnicodeEncodeError. *)
Definition encode_ascii (s : string) : option bytes :=
  let b := list_ascii_of_string s in
  if forallb is_ascii b then Some b else None.

Definition is_upper (c : ascii) : bool :=
  Nat.leb 65 (nat_of_ascii c) && Nat.leb (nat_of_ascii c) 90.
Definition is_lower (c : ascii) : bool :=
  Nat.leb 97 (nat_of_ascii c) && Nat.leb (nat_of_ascii c) 122.
Definition to_lower (c : ascii) : ascii :=
  if is_upper c then ascii_of_nat (nat_of_ascii c + 32) else c.
Definition to_upper (c : ascii) : ascii :=
  if is_lower c then ascii_of_nat (nat_of_ascii c - 32) else c.

Fixpoint map_string (f : ascii -> ascii) (s : string) : string :=
  match s with
  | EmptyString => EmptyString
  | String c s' => String (f c) (map_string f s')
  end.

(** [str.capitalize()], on ASCII text (header names are ASCII). *)
Definition capitalize (s : string) : string :=
  match s with
  | EmptyString => EmptyString
  | String c s' => String (to_upper c) (map_string to_lower s')
  end.

(** [needle in hay] for two strs. *)
Fixpoint contains (needle hay : string) : bool :=
  String.prefix needle hay
  || match hay with
     | EmptyString => false
     | String _ hay' => contains needle hay'
     end.

Fixpoint lstrip_by {A} (p : A -> bool) (l : list A) : list A :=
  match l with
  | [] => []
  | c :: l' => if p c then lstrip_by p l' else l
  end.

Definition rstrip_by {A} (p : A -> bool) (l : list A) : list A :=
  rev (lstrip_by p (rev l)).

(** [root_url.rstrip('/')] *)
Definition rstrip_slash (s : string) : string :=
  string_of_list_ascii
    (rstrip_by (Ascii.eqb "/") (list_ascii_of_string s)).

(** ASCII whitespace, as [bytes.strip()] understands it. *)
Definition is_space (c : ascii) : bool :=
  let n := nat_of_ascii c in
  Nat.eqb n 32 || (Nat.leb 9 n && Nat.leb n 13).

Definition strip (b : bytes) : bytes := rstrip_by is_space (lstrip_by is_space b).

Definition is_nil {A} (l : list A) : bool :=
  match l with [] => true | _ => false end.

(** [sys.version.split(' ')[0]] *)
Fixpoint first_word (s : string) : string :=
  match s with
  | EmptyString => EmptyString
  | String c s' => if Ascii.eqb c " " then EmptyString else String c (first_word s')
  end.

(** [str(n)] for an int. *)
Definition str_of_int (n : Z) : string := NilZero.string_of_int (Z.to_int n).

(** ** JSON values *)

Inductive json : Type :=
| JNull
| JBool (b : bool)
| JInt (n : Z)
| JFloat (repr : string)
| JStr (s : string)
| JArr (items : list json)
| JObj (members : list (string * json)).

Fixpoint assoc {V} (k : string) (kv : list (string * V)) : option V :=
  match kv with
  | [] => None
  | (k', v) :: kv' => if String.eqb k k' then Some v else assoc k kv'
  end.

(** ** Exceptions and results *)

(** class ServerError: the three attributes set by [__init__]. *)
Record ServerError : Type := {
  status : Z;
  kind : json;
  message : json
}.

Inductive exn : Type :=
| EHTTPError (code : Z) (body : bytes)
| EURLError
| EServerError (e : ServerError)
| EJSONDecodeError
| EKeyError (key : string)
| ETypeError
| EValueError (msg : string)
| EUnicodeEncodeError.

Inductive result (A : Type) : Type :=
| Ok (a : A)
| Raise (e : exn).
Arguments Ok {A} a.
Arguments Raise {A} e.

(** [v[key]] with a str key. *)
Definition getitem (v : json) (key : string) : result json :=
  match v with
  | JObj kv => match assoc key kv with
               | Some x => Ok x
               | None => Raise (EKeyError key)
               end
  | _ => Raise ETypeError
  end.

(** [v == s] for a str [s]. *)
Definition eq_str (v : json) (s : string) : bool :=
  match v with
  | JStr s' => String.eqb s' s
  | _ => false
  end.

(** [needle in v] for a str needle: substring of a str, element of a list,
    key of a dict; the other values are not containers. *)
Definition py_in (needle : string) (v : json) : result bool :=
  match v with
  | JStr s => Ok (contains needle s)
  | JArr l => Ok (existsb (fun x => eq_str x needle) l)
  | JObj kv => Ok (existsb (fun p => String.eqb (fst p) needle) kv)
  | _ => Raise ETypeError
  end.

(** [for t in v]: the elements visited. *)
Definition py_iter (v : json) : result (list json) :=
  match v with
  | JArr l => Ok l
  | JObj kv => Ok (map (fun p => JStr (fst p)) kv)
  | JStr s => Ok (map (fun c => JStr (String c "")) (list_ascii_of_string s))
  | _ => Raise ETypeError
  end.

(** ** Requests *)

Inductive body_data : Type :=
| TextBody (s : string)      (* a StringIO *)
| BytesBody (b : bytes).     (* a BytesIO *)

(** urllib.request.Request, as far as the client fills it in. *)
Record Request : Type := {
  method : string;
  full_url : string;
  headers : gmap string string;
  data : option body_data
}.

(** [Request.add_header]: urllib stores the name capitalized. *)
Definition add_header (key val : string) (r : Request) : Request :=
  {| method := method r;
     full_url := full_url r;
     headers := <[capitalize key := val]> (headers r);
     data := data r |}.

(** [Request(url, headers=..., data=..., method=...)]: every header goes
    through [add_header]. The url is taken to carry a scheme, as the
    constructor rejects one that does not. *)
Definition new_Request (url : string) (hs : list (string * string))
    (d : option body_data) (m : string) : Request :=
  fold_left (fun r kv => add_header (fst kv) (snd kv) r) hs
    {| method := m; full_url := url; headers := empty; data := d |}.

(** What the network answers to one request. *)
Inductive reply : Type :=
| Reply (code : Z) (body : bytes)
| NoReply.

(** A computation that may call the network: it extends the log of the
    requests sent so far. *)
Definition M (A : Type) : Type := list Request -> result A * list Request.

(** The complete run of a generator: the values it yields, then [None] when
    it is exhausted or the exception that ends it. *)
Definition run : Type := list json * option exn.

Definition yield (v : json) (r : run) : run := (v :: fst r, snd r).

Definition version : string := "alpha".

Record Client : Type := {
  token : string;
  root_url : string
}.

(** [Client.__init__] *)
Definition Client_init (tok url : string) : Client :=
  {| token := tok; root_url := rstrip_slash url |}.

Definition default_root_url : string := "https://api.tria.ge".

(** Results of pure code that may raise. *)
Definition rbind {A B} (r : result A) (k : A -> result B) : result B :=
  match r with
  | Ok a => k a
  | Raise e => Raise e
  end.

(** ** The multipart encoder *)

Definition DQ : string := String "034" "".

Definition hex_digit (n : nat) : ascii :=
  nth n (list_ascii_of_string "0123456789abcdef") "f"%char.

(** [binascii.hexlify] *)
Definition hexlify (b : bytes) : bytes :=
  flat_map (fun c => [hex_digit (nat_of_ascii c / 16);
                      hex_digit (nat_of_ascii c mod 16)]) b.

(** What [file.read()] returns: bytes, or a str for a file opened in text
    mode. *)
Inductive file_data : Type :=
| FileBytes (b : bytes)
| FileText (s : string).

(** A value of the [fields] dict: a 2-tuple [(filename, file)] or a scalar
    that is formatted into the part. *)
Inductive field_value : Type :=
| Scalar (value : string)
| Upload (filename : string) (file : file_data).

Definition file_head (boundary field filename : string) : string :=
  "--" +:+ boundary +:+ CRLF +:+ "Content-Disposition: form-data; "
  +:+ "filename=" +:+ DQ +:+ filename +:+ DQ +:+ "; name=" +:+ DQ +:+ field
  +:+ DQ +:+ CRLF +:+ CRLF.

Definition scalar_part (boundary field value : string) : string :=
  "--" +:+ boundary +:+ CRLF +:+ "Content-Disposition: form-data;"
  +:+ "name=" +:+ DQ +:+ field +:+ DQ +:+ CRLF +:+ CRLF +:+ value +:+ CRLF.

Definition file_bytes (file : file_data) : result bytes :=
  match file with
  | FileBytes b => Ok b
  | FileText s => match encode_ascii s with
                  | Some b => Ok b
                  | None => Raise EUnicodeEncodeError
                  end
  end.

(** One turn of the loop over [fields.items()]: the bytes written. *)
Definition encode_field (boundary field : string) (value : field_value)
    : result bytes :=
  match value with
  | Upload filename file =>
      rbind (file_bytes file) (fun b =>
        Ok (encode_utf8 (file_head boundary field filename)
            ++ b ++ encode_utf8 CRLF))
  | Scalar v => Ok (encode_utf8 (scalar_part boundary field v))
  end.

Fixpoint encode_fields (boundary : string)
    (fields : list (string * field_value)) : result bytes :=
  match fields with
  | [] => Ok []
  | (field, value) :: rest =>
      rbind (encode_field boundary field value) (fun part =>
        rbind (encode_fields boundary rest) (fun body => Ok (part ++ body)))
  end.

Definition trailer (boundary : string) : bytes :=
  encode_utf8 ("--" +:+ boundary +:+ "--" +:+ CRLF).

Definition new_boundary (entropy : bytes) : string :=
  string_of_list_ascii (hexlify entropy).

(** [encode_multipart_formdata(fields)]; [entropy] is what [os.urandom(16)]
    returns in this call, [fields] the dict in iteration order. *)
Definition encode_multipart_formdata (entropy : bytes)
    (fields : list (string * field_value)) : result (bytes * string) :=
  let boundary := new_boundary entropy in
  rbind (encode_fields boundary fields) (fun parts =>
    Ok (parts ++ trailer boundary,
        "multipart/form-data; boundary=" +:+ boundary)).

(** ** URL quoting, for [parse.urlencode] *)

Definition is_alnum (c : ascii) : bool :=
  let n := nat_of_ascii c in
  is_upper c || is_lower c || (Nat.leb 48 n && Nat.leb n 57).

Definition HEX_digit (n : nat) : ascii :=
  nth n (list_ascii_of_string "0123456789ABCDEF") "F"%char.

Definition quote_plus_char (c : ascii) : bytes :=
  if is_alnum c || existsb (Ascii.eqb c) (list_ascii_of_string "_.-~") then [c]
  else if Ascii.eqb c " " then ["+"%char]
  else ["%"%char; HEX_digit (nat_of_ascii c / 16);
        HEX_digit (nat_of_ascii c mod 16)].

Definition quote_plus (s : string) : string :=
  string_of_list_ascii (flat_map quote_plus_char (list_ascii_of_string s)).

(** [parse.urlencode({key: value})] for a single pair of strs. *)
Definition urlencode1 (key value : string) : string :=
  quote_plus key +:+ "=" +:+ quote_plus value.

(** ** Line framing of the streamed responses *)

(** [b.split(b"\n")] *)
Fixpoint split_lf (b : bytes) : list bytes :=
  match b with
  | [] => [[]]
  | c :: b' =>
      if Ascii.eqb c LF then [] :: split_lf b'
      else match split_lf b' with
           | h :: t => (c :: h) :: t
           | [] => [[c]]
           end
  end.

(** Iterating over a response: the lines, each with its terminator. *)
Fixpoint readlines (b : bytes) : list bytes :=
  match b with
  | [] => []
  | c :: b' =>
      if Ascii.eqb c LF then [c] :: readlines b'
      else match readlines b' with
           | h :: t => (c :: h) :: t
           | [] => [[c]]
           end
  end.

(** The object built by the list operations; its iteration lives in
    triage/pagination.py. *)
Record Paginator : Type := {
  pg_client : Client;
  pg_path : string;
  pg_max : nat
}.

(** ** class Client *)

(** The status codes for which [urlopen] returns the response. *)
Definition is_2xx (code : Z) : bool := Z.leb 200 code && Z.ltb code 300.

Section Triage.

(** [sys.version] of the interpreter. *)
Variable sys_version : string.
(** [json.loads] / [json.load]; [None] when decoding raises. *)
Variable json_loads : bytes -> option json.
(** [json.dumps] *)
Variable json_dumps : json -> string.
(** The remote end: the answer to a request, given the earlier ones. *)
Variable net : list Request -> Request -> reply.

(** [urlopen(r)]: the body of a 2xx answer; HTTPError otherwise. The
    answer is the one urllib ends with, after any redirect it follows. *)
Definition urlopen (r : Request) : M bytes := fun log =>
  (match net log r with
   | Reply code body =>
       if is_2xx code then Ok body
       else Raise (EHTTPError code body)
   | NoReply => Raise EURLError
   end, log ++ [r]).

Definition json_load (body : bytes) : result json :=
  match json_loads body with
  | Some v => Ok v
  | None => Raise EJSONDecodeError
  end.

(** [ServerError.__init__(http_error)] *)
Definition ServerError_init (code : Z) (body : bytes) : result ServerError :=
  rbind (json_load body) (fun b =>
    rbind (getitem b "error") (fun k =>
      rbind (getitem b "message") (fun m =>
        Ok {| status := code; kind := k; message := m |}))).

(** [raise ServerError(err)]: what reaches the caller. *)
Definition raise_ServerError {A} (code : Z) (body : bytes) : result A :=
  match ServerError_init code body with
  | Ok e => Raise (EServerError e)
  | Raise e => Raise e
  end.

Definition _new_request (self : Client) (meth path : string)
    (d : option body_data) : Request :=
  new_Request (root_url self +:+ path)
    [("Authorization", "Bearer " +:+ token self);
     ("User-Agent", "Triage Python Client/" +:+ version +:+ " Python/"
                    +:+ first_word sys_version)]
    d meth.

Definition _req_file (self : Client) (meth path : string) : M bytes :=
  urlopen (_new_request self meth path None).

(** The block [try: with urlopen(r) as f: return json.load(f)
    except HTTPError as err: raise ServerError(err)]. *)
Definition open_json (r : Request) : M json := fun log =>
  match urlopen r log with
  | (Ok body, log') => (json_load body, log')
  | (Raise (EHTTPError code body), log') => (raise_ServerError code body, log')
  | (Raise e, log') => (Raise e, log')
  end.

Definition _req_json (self : Client) (meth path : string)
    (d : option json) : M json :=
  let body := match d with
              | Some v => Some (TextBody (json_dumps v))
              | None => None
              end in
  let r := _new_request self meth path body in
  let r := match d with
           | Some _ => add_header "Content-Type" "application/json" r
           | None => r
           end in
  open_json r.

Definition submit_fields (filename : string) (file : file_data)
    (interactive : bool) (profiles : json) : list (string * field_value) :=
  [("_json", Scalar (json_dumps (JObj [("kind", JStr "file");
                                       ("interactive", JBool interactive);
                                       ("profiles", profiles)])));
   ("file", Upload filename file)].

Definition submit_sample_file (self : Client) (entropy : bytes)
    (filename : string) (file : file_data) (interactive : bool)
    (profiles : json) : M json := fun log =>
  match encode_multipart_formdata entropy
          (submit_fields filename file interactive profiles) with
  | Raise e => (Raise e, log)
  | Ok (body, content_type) =>
      let r := _new_request self "POST" "/v0/samples" (Some (BytesBody body)) in
      let r := add_header "Content-Type" content_type r in
      open_json r log
  end.

Definition submit_sample_url (self : Client) (url : string)
    (interactive : bool) (profiles : json) : M json :=
  _req_json self "POST" "/v0/samples"
    (Some (JObj [("kind", JStr "url"); ("url", JStr url);
                 ("interactive", JBool interactive);
                 ("profiles", profiles)])).

Definition set_sample_profile (self : Client) (sample_id : string)
    (profiles : json) : M json :=
  _req_json self "POST" ("/v0/samples/" +:+ sample_id +:+ "/profile")
    (Some (JObj [("auto", JBool false); ("profiles", profiles)])).

Definition set_sample_profile_automatically (self : Client)
    (sample_id : string) (pick : json) : M json :=
  _req_json self "POST" ("/v0/samples/" +:+ sample_id +:+ "/profile")
    (Some (JObj [("auto", JBool true); ("pick", pick)])).

Definition owned_samples (self : Client) (max : nat) : Paginator :=
  {| pg_client := self; pg_path := "/v0/samples?subset=owned"; pg_max := max |}.

Definition public_samples (self : Client) (max : nat) : Paginator :=
  {| pg_client := self; pg_path := "/v0/samples?subset=public"; pg_max := max |}.

Definition sample_by_id (self : Client) (sample_id : string) : M json :=
  _req_json self "GET" ("/v0/samples/" +:+ sample_id) None.

Definition delete_sample (self : Client) (sample_id : string) : M json :=
  _req_json self "DELETE" ("/v0/samples/" +:+ sample_id) None.

Definition search (self : Client) (query : string) (max : nat) : Paginator :=
  {| pg_client := self;
     pg_path := "/v0/search?" +:+ urlencode1 "query" query;
     pg_max := max |}.

Definition static_report (self : Client) (sample_id : string) : M json :=
  _req_json self "GET" ("/v0/samples/" +:+ sample_id +:+ "/reports/static") None.

Definition overview_report (self : Client) (sample_id : string) : M json :=
  _req_json self "GET" ("/v1/samples/" +:+ sample_id +:+ "/overview.json") None.

(** The [for ... else] loop of [kernel_report]. *)
Fixpoint find_task (tasks : list json) (task_id : string) : result json :=
  match tasks with
  | [] => Raise (EValueError "Task does not exist")
  | t :: rest =>
      rbind (getitem t "name") (fun n =>
        if eq_str n task_id then Ok t else find_task rest task_id)
  end.

(** The loop over [f.read().split(b"\n")]. *)
Fixpoint kernel_entries (entries : list bytes) : run :=
  match entries with
  | [] => ([], None)
  | entry :: rest =>
      if is_nil (strip entry) then ([], None)
      else match json_loads entry with
           | Some v => yield v (kernel_entries rest)
           | None => ([], Some EJSONDecodeError)
           end
  end.

Definition log_path (sample_id task_id file : string) : string :=
  "/v0/samples/" +:+ sample_id +:+ "/" +:+ task_id +:+ "/logs/" +:+ file.

(** The request of the platform branch, or the exception it raises. *)
Definition kernel_log_request (self : Client) (sample_id task_id : string)
    (task : json) : result Request :=
  rbind (getitem task "platform") (fun p =>
    rbind (py_in "windows" p) (fun w =>
      if w then
        Ok (_new_request self "GET" (log_path sample_id task_id "onemon.json") None)
      else
        rbind (getitem task "platform") (fun p' =>
          rbind (py_in "linux" p') (fun l =>
            if l then
              Ok (_new_request self "GET" (log_path sample_id task_id "stahp.json") None)
            else Raise (EValueError "Platform not supported"))))).

(** [kernel_report] is a generator: this is its run to the end. *)
Definition kernel_report (self : Client) (sample_id task_id : string)
    : list Request -> run * list Request := fun log =>
  match overview_report self sample_id log with
  | (Raise e, log1) => (([], Some e), log1)
  | (Ok overview, log1) =>
      match rbind (rbind (getitem overview "tasks") py_iter)
              (fun tasks => rbind (find_task tasks task_id)
                 (kernel_log_request self sample_id task_id)) with
      | Raise e => (([], Some e), log1)
      | Ok r =>
          match urlopen r log1 with
          | (Raise e, log2) => (([], Some e), log2)
          | (Ok body, log2) => (kernel_entries (split_lf body), log2)
          end
      end
  end.

Definition task_report (self : Client) (sample_id task_id : string) : M json :=
  _req_json self "GET"
    ("/v0/samples/" +:+ sample_id +:+ "/" +:+ task_id +:+ "/report_triage.json")
    None.

Definition sample_task_file (self : Client)
    (sample_id task_id filename : string) : M bytes :=
  _req_file self "GET"
    ("/v0/samples/" +:+ sample_id +:+ "/" +:+ task_id +:+ "/" +:+ filename).

Definition sample_archive_tar (self : Client) (sample_id : string) : M bytes :=
  _req_file self "GET" ("/v0/samples/" +:+ sample_id +:+ "/archive").

Definition sample_archive_zip (self : Client) (sample_id : string) : M bytes :=
  _req_file self "GET" ("/v0/samples/" +:+ sample_id +:+ "/archive.zip").

Definition create_profile (self : Client) (name : string)
    (tags network timeout : json) : M json :=
  _req_json self "POST" "/v0/profiles"
    (Some (JObj [("name", JStr name); ("tags", tags);
                 ("network", network); ("timeout", timeout)])).

Definition delete_profile (self : Client) (profile_id : string) : M json :=
  _req_json self "DELETE" ("/v0/profiles/" +:+ profile_id) None.

Definition profiles (self : Client) (max : nat) : Paginator :=
  {| pg_client := self; pg_path := "/v0/profiles"; pg_max := max |}.

(** The loop [for r in urlopen(events): yield json.loads(r)]. *)
Fixpoint event_lines (lines : list bytes) : run :=
  match lines with
  | [] => ([], None)
  | r :: rest =>
      match json_loads r with
      | Some v => yield v (event_lines rest)
      | None => ([], Some EJSONDecodeError)
      end
  end.

(** [sample_events] is a generator: this is its run to the end. *)
Definition sample_events (self : Client) (sample_id : string)
    : list Request -> run * list Request := fun log =>
  let events :=
    _new_request self "GET" ("/v0/samples/" +:+ sample_id +:+ "/events") None in
  match urlopen events log with
  | (Raise e, log') => (([], Some e), log')
  | (Ok body, log') => (event_lines (readlines body), log')
  end.

(** [ServerError.__str__]: [format] renders a str as itself and an int in
    decimal; [render] is [str()] on the other decoded values. *)
Definition format_value (render : json -> string) (v : json) : string :=
  match v with
  | JStr s => s
  | JInt n => str_of_int n
  | _ => render v
  end.

Definition ServerError_str (render : json -> string) (e : ServerError) : string :=
  "triage: " +:+ str_of_int (status e) +:+ " "
  +:+ format_value render (kind e) +:+ ": "
  +:+ format_value render (message e).

End Triage.

(** ** Paginator *)

(** Modelled from the spec: one answer of a list endpoint (section 4.3),
    the entries of the page and the cursor of the next page when the server
    embeds one; triage/pagination.py is not available. *)
Record page (item cursor : Type) : Type := {
  page_data : list item;
  page_next : option cursor
}.
Arguments page_data {item cursor} p.
Arguments page_next {item cursor} p.

(** Modelled from the spec: the state of a Paginator (section 4.3), absent
    with triage/pagination.py: the page buffer, the last cursor and the
    count of emitted items, with the count of page requests for the
    properties of section 8. *)
Record pg_state (item cursor : Type) : Type := {
  pg_buffer : list item;          (* the unread rest of the current page *)
  pg_cursor : option cursor;      (* the last cursor seen *)
  pg_done : bool;                 (* end of sequence reached *)
  pg_emitted : nat;               (* items produced so far *)
  pg_requests : nat               (* page requests issued so far *)
}.
Arguments pg_buffer {item cursor} p.
Arguments pg_cursor {item cursor} p.
Arguments pg_done {item cursor} p.
Arguments pg_emitted {item cursor} p.
Arguments pg_requests {item cursor} p.

Section Pagination.

Context {item cursor : Type}.
(** The GET of basePath extended with the cursor parameter. *)
Variable fetch : option cursor -> page item cursor.
Variable max : nat.

Definition pg_init : pg_state item cursor :=
  {| pg_buffer := []; pg_cursor := None; pg_done := false;
     pg_emitted := 0; pg_requests := 0 |}.

(** Modelled from the spec: the iteration of [Paginator], whose source
    (triage/pagination.py) is not available. Section 4.3: keep a page
    buffer; when it is exhausted fetch the page of the last cursor; stop
    on an empty page, on an absent cursor once its page is consumed, or
    when [max] items were produced; [max = 0] issues no request. *)
Definition pg_next (st : pg_state item cursor)
    : option item * pg_state item cursor :=
  if Nat.leb max (pg_emitted st) then (None, st)
  else match pg_buffer st with
       | x :: rest =>
           (Some x, {| pg_buffer := rest; pg_cursor := pg_cursor st;
                       pg_done := pg_done st;
                       pg_emitted := S (pg_emitted st);
                       pg_requests := pg_requests st |})
       | [] =>
           if pg_done st then (None, st)
           else
             let p := fetch (pg_cursor st) in
             match page_data p with
             | [] =>
                 (None, {| pg_buffer := []; pg_cursor := page_next p;
                           pg_done := true;
                           pg_emitted := pg_emitted st;
                           pg_requests := S (pg_requests st) |})
             | x :: rest =>
                 (Some x, {| pg_buffer := rest; pg_cursor := page_next p;
                             pg_done := negb (bool_decide (is_Some (page_next p)));
                             pg_emitted := S (pg_emitted st);
                             pg_requests := S (pg_requests st) |})
             end
       end.

(** Modelled from the spec: a Paginator consumed to its end
    (triage/pagination.py is not available), the items until [pg_next]
    answers [None]. *)
Fixpoint pg_drain (fuel : nat) (st : pg_state item cursor)
    : list item * pg_state item cursor :=
  match fuel with
  | 0 => ([], st)
  | S fuel' =>
      match pg_next st with
      | (None, st') => ([], st')
      | (Some x, st') =>
          let (xs, st'') := pg_drain fuel' st' in (x :: xs, st'')
      end
  end.

(** At most [max] items are produced, so [S max] steps reach the end. *)
Definition pg_run : list item * pg_state item cursor :=
  pg_drain (S max) pg_init.

End Pagination.

(** Modelled from the spec: the fixture server of section 8, a listing
    endpoint holding [items] and serving [page_size] entries at a time; the
    cursor is the offset of the next page and is left out on the last
    page. *)
Definition listing {item : Type} (items : list item) (page_size : nat)
    (c : option nat) : page item nat :=
  let off := default 0 c in
  {| page_data := take page_size (drop off items);
     page_next := if Nat.ltb (off + page_size) (length items)
                  then Some (off + page_size) else None |}.

Definition ceil_div (a b : nat) : nat := (a + b - 1) / b.

(** ** A multipart/form-data reader

    The reader that the round-trip property composes with the encoder. It
    follows RFC 2046 section 5.1.1 and RFC 7578: parts are separated by
    CRLF "--" boundary, each part has header lines, an empty line and its
    content; the name and the filename are parameters of the
    Content-Disposition header, quoted strings with backslash escapes. *)

Record part : Type := {
  part_name : bytes;
  part_filename : option bytes;
  part_content : bytes
}.

(** [Some rest] when [s] is [p ++ rest]. *)
Fixpoint starts_with (p s : bytes) : option bytes :=
  match p, s with
  | [], _ => Some s
  | a :: p', b :: s' => if Ascii.eqb a b then starts_with p' s' else None
  | _ :: _, [] => None
  end.

(** Cut [s] around the first occurrence of [pat]. *)
Fixpoint split_at (pat s : bytes) : option (bytes * bytes) :=
  match starts_with pat s with
  | Some rest => Some ([], rest)
  | None =>
      match s with
      | [] => None
      | c :: s' =>
          match split_at pat s' with
          | Some (a, b) => Some (c :: a, b)
          | None => None
          end
      end
  end.

(** [pat] occurs in [s]. *)
Fixpoint infixb (pat s : bytes) : bool :=
  match starts_with pat s with
  | Some _ => true
  | None => match s with
            | [] => false
            | _ :: s' => infixb pat s'
            end
  end.

Definition is_blank (c : ascii) : bool :=
  Ascii.eqb c " " || Ascii.eqb c "009".

Definition DQc : ascii := "034".
Definition BSc : ascii := "092".

(** The automaton that reads the parameters of a header value:
    [; key="value"] or [; key=token], repeated. *)
Inductive pstate : Type :=
| PSep
| PKeyStart
| PKey (k : bytes)
| PValStart (k : bytes)
| PQuoted (k v : bytes)
| PEscape (k v : bytes)
| PToken (k v : bytes).

Fixpoint params_from (st : pstate) (acc : list (bytes * bytes)) (s : bytes)
    : option (list (bytes * bytes)) :=
  match s with
  | [] =>
      match st with
      | PSep => Some (rev acc)
      | PToken k v => Some (rev ((rev k, rev v) :: acc))
      | _ => None
      end
  | c :: s' =>
      match st with
      | PSep =>
          if is_blank c then params_from PSep acc s'
          else if Ascii.eqb c ";" then params_from PKeyStart acc s'
          else None
      | PKeyStart =>
          if is_blank c then params_from PKeyStart acc s'
          else if Ascii.eqb c "=" then None
          else params_from (PKey [c]) acc s'
      | PKey k =>
          if Ascii.eqb c "=" then params_from (PValStart k) acc s'
          else params_from (PKey (c :: k)) acc s'
      | PValStart k =>
          if Ascii.eqb c DQc then params_from (PQuoted k []) acc s'
          else params_from (PToken k [c]) acc s'
      | PQuoted k v =>
          if Ascii.eqb c DQc then params_from PSep ((rev k, rev v) :: acc) s'
          else if Ascii.eqb c BSc then params_from (PEscape k v) acc s'
          else params_from (PQuoted k (c :: v)) acc s'
      | PEscape k v => params_from (PQuoted k (c :: v)) acc s'
      | PToken k v =>
          if Ascii.eqb c ";" then params_from PKeyStart ((rev k, rev v) :: acc) s'
          else if is_blank c then params_from PSep ((rev k, rev v) :: acc) s'
          else params_from (PToken k (c :: v)) acc s'
      end
  end.

Fixpoint bytes_eqb (a b : bytes) : bool :=
  match a, b with
  | [], [] => true
  | x :: a', y :: b' => Ascii.eqb x y && bytes_eqb a' b'
  | _, _ => false
  end.

Fixpoint assoc_bytes (k : bytes) (kv : list (bytes * bytes)) : option bytes :=
  match kv with
  | [] => None
  | (k', v) :: kv' =>
      if bytes_eqb k k' then Some v else assoc_bytes k kv'
  end.

(** The lines of a header block: [split] on CRLF. *)
Fixpoint split_crlf (s : bytes) : list bytes :=
  match s with
  | [] => [[]]
  | c :: s' =>
      match starts_with (encode_utf8 CRLF) s with
      | Some rest =>
          [] :: match s' with
                | [] => [[]]
                | _ :: s'' => split_crlf s''
                end
      | None =>
          match split_crlf s' with
          | h :: t => (c :: h) :: t
          | [] => [[c]]
          end
      end
  end.

(** The name and filename of a [Content-Disposition: form-data] line. *)
Definition disposition (line : bytes) : option (bytes * option bytes) :=
  let name_len := String.length "content-disposition:" in
  if bytes_eqb (map to_lower (take name_len line))
       (encode_utf8 "content-disposition:") then
    match starts_with (encode_utf8 "form-data")
            (lstrip_by is_blank (drop name_len line)) with
    | Some rest =>
        match params_from PSep [] rest with
        | Some ps =>
            match assoc_bytes (encode_utf8 "name") ps with
            | Some n => Some (n, assoc_bytes (encode_utf8 "filename") ps)
            | None => None
            end
        | None => None
        end
    | None => None
    end
  else None.

Fixpoint first_some {A B} (f : A -> option B) (l : list A) : option B :=
  match l with
  | [] => None
  | x :: l' => match f x with
               | Some y => Some y
               | None => first_some f l'
               end
  end.

Definition parse_head (head : bytes) : option (bytes * option bytes) :=
  first_some disposition (split_crlf head).

(** The parts that follow a delimiter line; [delim] is "--" boundary. *)
Fixpoint parse_parts (fuel : nat) (delim s : bytes) : option (list part) :=
  match fuel with
  | 0 => None
  | S fuel' =>
      match starts_with (encode_utf8 "--") s with
      | Some _ => Some []
      | None =>
          match starts_with (encode_utf8 CRLF) s with
          | None => None
          | Some s1 =>
              match split_at (encode_utf8 (CRLF +:+ CRLF)) s1 with
              | None => None
              | Some (head, s2) =>
                  match split_at (encode_utf8 CRLF ++ delim) s2 with
                  | None => None
                  | Some (content, s3) =>
                      match parse_head head, parse_parts fuel' delim s3 with
                      | Some (n, fn), Some ps =>
                          Some ({| part_name := n; part_filename := fn;
                                   part_content := content |} :: ps)
                      | _, _ => None
                      end
                  end
              end
          end
      end
  end.

Definition parse_multipart (boundary : string) (body : bytes)
    : option (list part) :=
  let delim := encode_utf8 ("--" +:+ boundary) in
  match starts_with delim body with
  | Some s => parse_parts (length body) delim s
  | None =>
      match split_at (encode_utf8 CRLF ++ delim) body with
      | Some (_, s) => parse_parts (length body) delim s
      | None => None
      end
  end.

(** The boundary parameter of a content-type value. *)
Definition boundary_of (content_type : string) : option string :=
  match starts_with (encode_utf8 "multipart/form-data; boundary=")
          (encode_utf8 content_type) with
  | Some b => Some (string_of_list_ascii b)
  | None => None
  end.

(** The content a field contributes to the body. *)
Definition field_content (v : field_value) : bytes :=
  match v with
  | Scalar s => encode_utf8 s
  | Upload _ (FileBytes b) => b
  | Upload _ (FileText s) => encode_utf8 s
  end.

(** What a reader is expected to give back for one field: its name, its
    filename when it is an upload, and its content. *)
Definition part_of (f : string * field_value) : part :=
  {| part_name := encode_utf8 (fst f);
     part_filename := match snd f with
                      | Scalar _ => None
                      | Upload filename _ => Some (encode_utf8 filename)
                      end;
     part_content := field_content (snd f) |}.

(** A name that can stand between double quotes on a header line. *)
Definition clean_name (s : string) : bool :=
  forallb (fun c => negb (Ascii.eqb c DQc || Ascii.eqb c BSc
                          || Ascii.eqb c CR || Ascii.eqb c LF))
          (encode_utf8 s).

Definition field_names_clean (f : string * field_value) : bool :=
  clean_name (fst f)
  && match snd f with
     | Scalar _ => true
     | Upload filename _ => clean_name filename
     end.

(** The field is free of the delimiter CRLF "--" boundary. *)
Definition field_free (boundary : string) (f : string * field_value) : bool :=
  negb (infixb (encode_utf8 (CRLF +:+ "--" +:+ boundary)) (field_content (snd f))).

(** ** A JSON codec for closed examples

    [loads] and [dumps] below cover the part of JSON made of objects,
    arrays, strings with the short escapes, integers and the three
    literals, in ASCII; there they agree with Python's [json.loads] and
    [json.dumps]. They instantiate the codec of Section [Triage] wherever
    a statement is evaluated on concrete bytes. *)

Module Json.

Definition is_ws (c : ascii) : bool :=
  Ascii.eqb c " " || Ascii.eqb c "009" || Ascii.eqb c LF || Ascii.eqb c CR.

Definition skip_ws (s : bytes) : bytes := lstrip_by is_ws s.

Definition is_digit (c : ascii) : bool :=
  Nat.leb 48 (nat_of_ascii c) && Nat.leb (nat_of_ascii c) 57.

Definition unescape (c : ascii) : option ascii :=
  if Ascii.eqb c DQc then Some DQc
  else if Ascii.eqb c BSc then Some BSc
  else if Ascii.eqb c "/" then Some "/"%char
  else if Ascii.eqb c "b" then Some "008"%char
  else if Ascii.eqb c "f" then Some "012"%char
  else if Ascii.eqb c "n" then Some LF
  else if Ascii.eqb c "r" then Some CR
  else if Ascii.eqb c "t" then Some "009"%char
  else None.

(** The text of a string, read after its opening quote. *)
Fixpoint string_body (s : bytes) : option (string * bytes) :=
  match s with
  | [] => None
  | c :: s' =>
      if Ascii.eqb c DQc then Some (EmptyString, s')
      else if Ascii.eqb c BSc then
        match s' with
        | e :: s'' =>
            match unescape e, string_body s'' with
            | Some x, Some (t, r) => Some (String x t, r)
            | _, _ => None
            end
        | [] => None
        end
      else if Nat.ltb (nat_of_ascii c) 32 then None
      else match string_body s' with
           | Some (t, r) => Some (String c t, r)
           | None => None
           end
  end.

Fixpoint digits (acc : Z) (s : bytes) : Z * bytes :=
  match s with
  | c :: s' =>
      if is_digit c
      then digits (10 * acc + Z.of_nat (nat_of_ascii c - 48)) s'
      else (acc, s)
  | [] => (acc, s)
  end.

(** An integer: [0] alone or a digit string that does not start with 0;
    a fraction or an exponent is outside the fragment. *)
Definition natural (s : bytes) : option (Z * bytes) :=
  match s with
  | c :: s' =>
      if Ascii.eqb c "0" then Some (0%Z, s')
      else if is_digit c then Some (digits 0 s)
      else None
  | [] => None
  end.

Definition not_float (s : bytes) : bool :=
  match s with
  | c :: _ => negb (Ascii.eqb c "." || Ascii.eqb c "e" || Ascii.eqb c "E")
  | [] => true
  end.

Fixpoint dict_set (k : string) (v : json) (kv : list (string * json))
    : list (string * json) :=
  match kv with
  | [] => [(k, v)]
  | (k', v') :: r =>
      if String.eqb k k' then (k, v) :: r else (k', v') :: dict_set k v r
  end.

Inductive mode : Type :=
| Value
| Items (acc : list json)
| Members (acc : list (string * json)).

Fixpoint parse (fuel : nat) (m : mode) (s : bytes) : option (json * bytes) :=
  match fuel with
  | 0 => None
  | S fuel' =>
      match m with
      | Value =>
          match skip_ws s with
          | [] => None
          | c :: s1 =>
              if Ascii.eqb c "[" then
                match skip_ws s1 with
                | "]"%char :: s2 => Some (JArr [], s2)
                | _ => parse fuel' (Items []) s1
                end
              else if Ascii.eqb c "{" then
                match skip_ws s1 with
                | "}"%char :: s2 => Some (JObj [], s2)
                | _ => parse fuel' (Members []) s1
                end
              else if Ascii.eqb c DQc then
                match string_body s1 with
                | Some (t, r) => Some (JStr t, r)
                | None => None
                end
              else if Ascii.eqb c "-" then
                match natural s1 with
                | Some (n, r) => if not_float r then Some (JInt (- n), r) else None
                | None => None
                end
              else if is_digit c then
                match natural (c :: s1) with
                | Some (n, r) => if not_float r then Some (JInt n, r) else None
                | None => None
                end
              else
                match starts_with (encode_utf8 "null") (c :: s1),
                      starts_with (encode_utf8 "true") (c :: s1),
                      starts_with (encode_utf8 "false") (c :: s1) with
                | Some r, _, _ => Some (JNull, r)
                | _, Some r, _ => Some (JBool true, r)
                | _, _, Some r => Some (JBool false, r)
                | _, _, _ => None
                end
          end
      | Items acc =>
          match parse fuel' Value s with
          | Some (v, s1) =>
              match skip_ws s1 with
              | ","%char :: s2 => parse fuel' (Items (v :: acc)) s2
              | "]"%char :: s2 => Some (JArr (rev (v :: acc)), s2)
              | _ => None
              end
          | None => None
          end
      | Members acc =>
          match skip_ws s with
          | c :: s1 =>
              if Ascii.eqb c DQc then
                match string_body s1 with
                | Some (k, s2) =>
                    match skip_ws s2 with
                    | ":"%char :: s3 =>
                        match parse fuel' Value s3 with
                        | Some (v, s4) =>
                            match skip_ws s4 with
                            | ","%char :: s5 =>
                                parse fuel' (Members (dict_set k v acc)) s5
                            | "}"%char :: s5 =>
                                Some (JObj (dict_set k v acc), s5)
                            | _ => None
                            end
                        | None => None
                        end
                    | _ => None
                    end
                | None => None
                end
              else None
          | [] => None
          end
      end
  end.

Definition loads (b : bytes) : option json :=
  match parse (2 * length b + 2) Value b with
  | Some (v, rest) => if is_nil (skip_ws rest) then Some v else None
  | None => None
  end.

Definition escape (c : ascii) : string :=
  if Ascii.eqb c DQc then String BSc (String DQc "")
  else if Ascii.eqb c BSc then String BSc (String BSc "")
  else if Ascii.eqb c LF then String BSc "n"
  else if Ascii.eqb c CR then String BSc "r"
  else if Ascii.eqb c "009" then String BSc "t"
  else if Ascii.eqb c "008" then String BSc "b"
  else if Ascii.eqb c "012" then String BSc "f"
  else if Nat.ltb (nat_of_ascii c) 32 || Nat.eqb (nat_of_ascii c) 127 then
    String BSc ("u00" +:+ String (hex_digit (nat_of_ascii c / 16))
                            (String (hex_digit (nat_of_ascii c mod 16)) ""))
  else String c "".

Fixpoint quote_body (s : string) : string :=
  match s with
  | EmptyString => EmptyString
  | String c s' => escape c +:+ quote_body s'
  end.

Definition quote (s : string) : string := DQ +:+ quote_body s +:+ DQ.

Fixpoint dumps (v : json) : string :=
  match v with
  | JNull => "null"
  | JBool true => "true"
  | JBool false => "false"
  | JInt n => str_of_int n
  | JFloat r => r
  | JStr s => quote s
  | JArr l =>
      "[" +:+ (fix items (l : list json) : string :=
                 match l with
                 | [] => ""
                 | [x] => dumps x
                 | x :: l' => dumps x +:+ ", " +:+ items l'
                 end) l +:+ "]"
  | JObj kv =>
      "{" +:+ (fix members (kv : list (string * json)) : string :=
                 match kv with
                 | [] => ""
                 | [(k, x)] => quote k +:+ ": " +:+ dumps x
                 | (k, x) :: kv' =>
                     quote k +:+ ": " +:+ dumps x +:+ ", " +:+ members kv'
                 end) kv +:+ "}"
  end.

End Json.

(** ** Operations as data, and fixtures for the closed examples *)

(** The raw-byte operations of the client. *)
Inductive raw_op : Type :=
| RawFile (meth path : string)
| TaskFile (sample_id task_id filename : string)
| ArchiveTar (sample_id : string)
| ArchiveZip (sample_id : string).

Definition run_raw (sys_version : string)
    (net : list Request -> Request -> reply) (self : Client) (o : raw_op)
    : M bytes :=
  match o with
  | RawFile meth path => _req_file sys_version net self meth path
  | TaskFile s t f => sample_task_file sys_version net self s t f
  | ArchiveTar s => sample_archive_tar sys_version net self s
  | ArchiveZip s => sample_archive_zip sys_version net self s
  end.

(** The request a raw-byte operation sends. *)
Definition raw_request (sys_version : string) (self : Client) (o : raw_op)
    : Request :=
  match o with
  | RawFile meth path => _new_request sys_version self meth path None
  | TaskFile s t f =>
      _new_request sys_version self "GET"
        ("/v0/samples/" +:+ s +:+ "/" +:+ t +:+ "/" +:+ f) None
  | ArchiveTar s =>
      _new_request sys_version self "GET" ("/v0/samples/" +:+ s +:+ "/archive") None
  | ArchiveZip s =>
      _new_request sys_version self "GET"
        ("/v0/samples/" +:+ s +:+ "/archive.zip") None
  end.

(** The request [_req_json] sends. *)
Definition json_request (sys_version : string) (json_dumps : json -> string)
    (self : Client) (meth path : string) (d : option json) : Request :=
  match d with
  | Some v =>
      add_header "Content-Type" "application/json"
        (_new_request sys_version self meth path
           (Some (TextBody (json_dumps v))))
  | None => _new_request sys_version self meth path None
  end.

(** The request [submit_sample_file] sends once the body is encoded. *)
Definition submit_request (sys_version : string) (self : Client)
    (body : bytes) (content_type : string) : Request :=
  add_header "Content-Type" content_type
    (_new_request sys_version self "POST" "/v0/samples"
       (Some (BytesBody body))).

(** The answer is not a 2xx response: [urlopen] raises. *)
Definition failed (rp : reply) : bool :=
  match rp with
  | Reply code _ => negb (is_2xx code)
  | NoReply => true
  end.

(** The error body is a JSON object with both keys, and [e] is the
    ServerError built from it. *)
Definition well_formed_error (json_loads : bytes -> option json)
    (code : Z) (body : bytes) (e : ServerError) : Prop :=
  exists kv k m,
    json_loads body = Some (JObj kv) /\ assoc "error" kv = Some k
    /\ assoc "message" kv = Some m
    /\ e = {| status := code; kind := k; message := m |}.

(** The exceptions of decoding and subscripting. *)
Definition decode_failure {A} (r : result A) : Prop :=
  r = Raise EJSONDecodeError \/ r = Raise ETypeError
  \/ exists key, r = Raise (EKeyError key).

(** What a raw-byte call can end with. *)
Definition transport_outcome {A} (r : result A) : Prop :=
  match r with
  | Ok _ | Raise (EHTTPError _ _) | Raise EURLError => True
  | Raise _ => False
  end.

(** Every operation of class Client, with its arguments. *)
Inductive op : Type :=
| SubmitSampleFile (entropy : bytes) (filename : string) (file : file_data)
    (interactive : bool) (profiles : json)
| SubmitSampleUrl (url : string) (interactive : bool) (profiles : json)
| SetSampleProfile (sample_id : string) (profiles : json)
| SetSampleProfileAutomatically (sample_id : string) (pick : json)
| OwnedSamples (max : nat)
| PublicSamples (max : nat)
| SampleById (sample_id : string)
| DeleteSample (sample_id : string)
| Search (query : string) (max : nat)
| StaticReport (sample_id : string)
| OverviewReport (sample_id : string)
| KernelReport (sample_id task_id : string)
| TaskReport (sample_id task_id : string)
| SampleTaskFile (sample_id task_id filename : string)
| SampleArchiveTar (sample_id : string)
| SampleArchiveZip (sample_id : string)
| CreateProfile (name : string) (tags network timeout : json)
| DeleteProfile (profile_id : string)
| Profiles (max : nat)
| SampleEvents (sample_id : string)
| ReqFile (meth path : string)
| ReqJson (meth path : string) (d : option json).

Section Operations.

Variable sys_version : string.
Variable json_loads : bytes -> option json.
Variable json_dumps : json -> string.
Variable net : list Request -> Request -> reply.

(** The log of requests once the operation has run (the generators to
    their end); building a Paginator sends nothing. *)
Definition op_log (self : Client) (o : op) (log : list Request)
    : list Request :=
  match o with
  | SubmitSampleFile e fn f i p =>
      snd (submit_sample_file sys_version json_loads json_dumps net self e fn f i p log)
  | SubmitSampleUrl u i p =>
      snd (submit_sample_url sys_version json_loads json_dumps net self u i p log)
  | SetSampleProfile s p =>
      snd (set_sample_profile sys_version json_loads json_dumps net self s p log)
  | SetSampleProfileAutomatically s p =>
      snd (set_sample_profile_automatically sys_version json_loads json_dumps
             net self s p log)
  | OwnedSamples _ | PublicSamples _ | Search _ _ | Profiles _ => log
  | SampleById s =>
      snd (sample_by_id sys_version json_loads json_dumps net self s log)
  | DeleteSample s =>
      snd (delete_sample sys_version json_loads json_dumps net self s log)
  | StaticReport s =>
      snd (static_report sys_version json_loads json_dumps net self s log)
  | OverviewReport s =>
      snd (overview_report sys_version json_loads json_dumps net self s log)
  | KernelReport s t =>
      snd (kernel_report sys_version json_loads json_dumps net self s t log)
  | TaskReport s t =>
      snd (task_report sys_version json_loads json_dumps net self s t log)
  | SampleTaskFile s t f =>
      snd (sample_task_file sys_version net self s t f log)
  | SampleArchiveTar s => snd (sample_archive_tar sys_version net self s log)
  | SampleArchiveZip s => snd (sample_archive_zip sys_version net self s log)
  | CreateProfile n t nw tm =>
      snd (create_profile sys_version json_loads json_dumps net self n t nw tm log)
  | DeleteProfile p =>
      snd (delete_profile sys_version json_loads json_dumps net self p log)
  | SampleEvents s =>
      snd (sample_events sys_version json_loads net self s log)
  | ReqFile m p => snd (_req_file sys_version net self m p log)
  | ReqJson m p d =>
      snd (_req_json sys_version json_loads json_dumps net self m p d log)
  end.

End Operations.

(** The two headers [_new_request] puts on every request. *)
Definition base_headers (sys_version : string) (self : Client)
    : gmap string string :=
  <["User-agent" := "Triage Python Client/alpha Python/" +:+ first_word sys_version]>
    (<["Authorization" := "Bearer " +:+ token self]> empty).

(** The headers a request may carry, by the body it was built with. *)
Definition expected_headers (sys_version : string) (self : Client)
    (r : Request) : Prop :=
  match data r with
  | None => headers r = base_headers sys_version self
  | Some (TextBody _) =>
      headers r = <["Content-type" := "application/json"]>
                    (base_headers sys_version self)
  | Some (BytesBody _) =>
      exists boundary,
        headers r = <["Content-type" := "multipart/form-data; boundary=" +:+ boundary]>
                      (base_headers sys_version self)
  end.

Definition demo_version : string := "3.8.5 (default, Jul 28 2020, 12:59:40)".
Definition demo_client : Client := Client_init "s3cr3t" "https://api.tria.ge/".

(** A remote end that gives the same answer to every request. *)
Definition net_const (r : reply) : list Request -> Request -> reply :=
  fun _ _ => r.

Definition NL : string := String LF "".

Definition json_pair (k v : string) : string :=
  DQ +:+ k +:+ DQ +:+ ": " +:+ DQ +:+ v +:+ DQ.

(** The body of a well-formed API error. *)
Definition not_found_body : bytes :=
  encode_utf8 ("{" +:+ json_pair "error" "not_found" +:+ ", "
               +:+ json_pair "message" "sample missing" +:+ "}").

(** An error body that is not JSON, as a proxy or gateway sends it. *)
Definition html_body : bytes := encode_utf8 "<html>502 Bad Gateway</html>".

(** The two requests of [kernel_report]. *)
Definition overview_request (sys_version : string) (self : Client)
    (sample_id : string) : Request :=
  _new_request sys_version self "GET"
    ("/v1/samples/" +:+ sample_id +:+ "/overview.json") None.

Definition log_request (sys_version : string) (self : Client)
    (sample_id task_id file : string) : Request :=
  _new_request sys_version self "GET" (log_path sample_id task_id file) None.

(** The run of [kernel_report] once the log request was answered. *)
Definition log_stream (json_loads : bytes -> option json)
    (r : result bytes) : run :=
  match r with
  | Ok body => kernel_entries json_loads (split_lf body)
  | Raise e => ([], Some e)
  end.

(** The task carries a name other than [task_id]. *)
Definition other_task (task_id : string) (t : json) : Prop :=
  exists n, getitem t "name" = Ok n /\ eq_str n task_id = false.

(** Two events, a blank line, and one more event after it. *)
Definition events_body : bytes :=
  encode_utf8 ("{" +:+ json_pair "status" "pending" +:+ "}" +:+ NL
               +:+ "{" +:+ json_pair "status" "static_analysis" +:+ "}" +:+ NL
               +:+ NL
               +:+ "{" +:+ json_pair "status" "reported" +:+ "}" +:+ NL).

Definition event (st : string) : json := JObj [("status", JStr st)].

Definition overview_body : bytes :=
  encode_utf8 ("{" +:+ DQ +:+ "tasks" +:+ DQ +:+ ": [{"
               +:+ json_pair "name" "behavioral1" +:+ ", "
               +:+ json_pair "platform" "windows10_x64" +:+ "}, {"
               +:+ json_pair "name" "behavioral2" +:+ ", "
               +:+ json_pair "platform" "linux_amd64" +:+ "}, {"
               +:+ json_pair "name" "behavioral3" +:+ ", "
               +:+ json_pair "platform" "macos_amd64" +:+ "}]}").

Definition overview_tasks : list json :=
  [JObj [("name", JStr "behavioral1"); ("platform", JStr "windows10_x64")];
   JObj [("name", JStr "behavioral2"); ("platform", JStr "linux_amd64")];
   JObj [("name", JStr "behavioral3"); ("platform", JStr "macos_amd64")]].

(** A remote end that answers the first request with the overview and the
    later ones with a log. *)
Definition net_overview_then_log : list Request -> Request -> reply :=
  fun log _ =>
    match log with
    | [] => Reply 200 overview_body
    | _ => Reply 200 events_body
    end.

(** The layout of a multipart body, written down apart from the encoder:
    a list of segments, each followed by CR LF. *)
Definition crlf_lines (segments : list bytes) : bytes :=
  flat_map (fun l => l ++ [CR; LF]) segments.

(** The disposition line of a field. *)
Definition disposition_line (field : string) (value : field_value) : string :=
  match value with
  | Scalar _ => "Content-Disposition: form-data;name=" +:+ DQ +:+ field +:+ DQ
  | Upload filename _ =>
      "Content-Disposition: form-data; filename=" +:+ DQ +:+ filename +:+ DQ
      +:+ "; name=" +:+ DQ +:+ field +:+ DQ
  end.

(** The content of a field: the text of a scalar, the bytes of a file. *)
Definition content_of (value : field_value) : bytes :=
  match value with
  | Scalar v => encode_utf8 v
  | Upload _ (FileBytes b) => b
  | Upload _ (FileText s) => encode_utf8 s
  end.

(** The segments of one field: the delimiter, the disposition, an empty
    line, the content. *)
Definition part_lines (boundary : string) (f : string * field_value)
    : list bytes :=
  [encode_utf8 ("--" +:+ boundary); encode_utf8 (disposition_line (fst f) (snd f));
   []; content_of (snd f)].

(** The segment that closes the body. *)
Definition closing_line (boundary : string) : bytes :=
  encode_utf8 ("--" +:+ boundary +:+ "--").

Definition body_lines (boundary : string)
    (fields : list (string * field_value)) : list bytes :=
  flat_map (part_lines boundary) fields ++ [closing_line boundary].

(** A file opened in text mode holds ASCII characters only. *)
Definition ascii_text (f : string * field_value) : Prop :=
  forall filename s,
    snd f = Upload filename (FileText s) ->
    forallb is_ascii (encode_utf8 s) = true.

Definition zero_entropy : bytes := repeat "000"%char 16.

(** [Paginator.__iter__] over the pages a fetch function serves. *)
Definition Paginator_run {item cursor : Type}
    (fetch : string -> option cursor -> page item cursor) (p : Paginator)
    : list item * pg_state item cursor :=
  pg_run (fetch (pg_path p)) (pg_max p).

(** The state of a Paginator over [listing items page_size] once [k >= 1]
    items were produced, the last of them from page number [q]. *)
Definition pg_at {item : Type} (items : list item) (page_size k q : nat)
    : pg_state item nat :=
  let next := if Nat.ltb (q * page_size + page_size) (length items)
              then Some (q * page_size + page_size) else None in
  {| pg_buffer := take (q * page_size + page_size - k) (drop k items);
     pg_cursor := next;
     pg_done := negb (bool_decide (is_Some next));
     pg_emitted := k;
     pg_requests := S q |}.

(** The page requests of a Paginator with cap [max] over a listing of [n]
    items: none for [max = 0], one to find the listing empty, and one per
    page that holds one of the first min(n, max) items. *)
Definition expected_requests (n page_size max : nat) : nat :=
  match max, n with
  | 0, _ => 0
  | _, 0 => 1
  | _, _ => ceil_div (Nat.min n max) page_size
  end.

(** The header line the encoder writes for a field, as bytes. *)
Definition header_of (field : string) (value : field_value) : bytes :=
  match value with
  | Scalar _ =>
      encode_utf8 "Content-Disposition: form-data;name=" ++ [DQc]
      ++ encode_utf8 field ++ [DQc]
  | Upload filename _ =>
      encode_utf8 "Content-Disposition: form-data; filename=" ++ [DQc]
      ++ encode_utf8 filename ++ [DQc] ++ encode_utf8 "; name=" ++ [DQc]
      ++ encode_utf8 field ++ [DQc]
  end.

(** What follows the first delimiter in the body of [fields]. *)
Fixpoint after_delimiter (delim : bytes) (fields : list (string * field_value))
    : bytes :=
  match fields with
  | [] => encode_utf8 ("--" +:+ CRLF)
  | (field, value) :: rest =>
      encode_utf8 CRLF ++ header_of field value
      ++ encode_utf8 (CRLF +:+ CRLF) ++ field_content value
      ++ (encode_utf8 CRLF ++ delim) ++ after_delimiter delim rest
  end.

(** A byte that is not the given one. *)
Definition differs (c : ascii) (x : ascii) : bool := negb (Ascii.eqb x c).

(** The fields of the round-trip property: a scalar [_json] and a file. *)
Definition sample_fields : list (string * field_value) :=
  [("_json", Scalar ("{" +:+ json_pair "kind" "file" +:+ "}"));
   ("file", Upload "a.exe" (FileBytes (encode_utf8 "MZ")))].

(** The same with a double quote in the filename. *)
Definition quoted_fields : list (string * field_value) :=
  [("_json", Scalar ("{" +:+ json_pair "kind" "file" +:+ "}"));
   ("file", Upload ("a" +:+ DQ +:+ "b.exe") (FileBytes (encode_utf8 "MZ")))].

(** The same with a file that contains the closing delimiter of the
    boundary drawn from [zero_entropy]. *)
Definition colliding_fields : list (string * field_value) :=
  [("_json", Scalar ("{" +:+ json_pair "kind" "file" +:+ "}"));
   ("file", Upload "a.exe"
              (FileBytes (encode_utf8 ("MZ" +:+ CRLF +:+ "--"
                                       +:+ new_boundary zero_entropy
                                       +:+ "--" +:+ CRLF +:+ "tail"))))].

(** Encode, then read back with the boundary of the content type. *)
Definition round_trip (entropy : bytes)
    (fields : list (string * field_value)) : option (list part) :=
  match encode_multipart_formdata entropy fields with
  | Ok (body, content_type) =>
      match boundary_of content_type with
      | Some boundary => parse_multipart boundary body
      | None => None
      end
  | Raise _ => None
  end.

(** ** Further definitions for the properties of the client *)

(** [b"\n".join(lines)] *)
Fixpoint join_lf (lines : list bytes) : bytes :=
  match lines with
  | [] => []
  | [l] => l
  | l :: rest => l ++ LF :: join_lf rest
  end.

(** The lines of a stream, each followed by its line feed. *)
Definition terminated (lines : list bytes) : bytes :=
  concat (map (fun l => l ++ [LF]) lines).

Definition no_LF (l : bytes) : bool := forallb (differs LF) l.

Definition is_hex_lower (c : ascii) : bool :=
  existsb (Ascii.eqb c) (list_ascii_of_string "0123456789abcdef").

(** The bytes [quote_plus] lets through or produces. *)
Definition is_url_safe (c : ascii) : bool :=
  is_alnum c || existsb (Ascii.eqb c) (list_ascii_of_string "_.-~+%").

Definition unhex (c : ascii) : nat :=
  let n := nat_of_ascii c in
  if Nat.leb 48 n && Nat.leb n 57 then n - 48
  else if Nat.leb 65 n && Nat.leb n 70 then n - 55
  else if Nat.leb 97 n && Nat.leb n 102 then n - 87
  else 0.

(** [urllib.parse.unquote_plus] on the output of [quote_plus]: "+" is a
    space and "%XX" the byte XX. *)
Fixpoint unquote_plus_bytes (s : bytes) : bytes :=
  match s with
  | [] => []
  | c :: s' =>
      if Ascii.eqb c "+" then " "%char :: unquote_plus_bytes s'
      else if Ascii.eqb c "%" then
        match s' with
        | h :: l :: s'' =>
            ascii_of_nat (16 * unhex h + unhex l) :: unquote_plus_bytes s''
        | _ => c :: unquote_plus_bytes s'
        end
      else c :: unquote_plus_bytes s'
  end.

(** How many requests an operation may send. *)
Definition request_count (o : op) (n : nat) : Prop :=
  match o with
  | OwnedSamples _ | PublicSamples _ | Search _ _ | Profiles _ => n = 0
  | KernelReport _ _ => n = 1 \/ n = 2
  | SubmitSampleFile _ _ file _ _ =>
      match file_bytes file with
      | Ok _ => n = 1
      | Raise _ => n = 0
      end
  | _ => n = 1
  end.

(** The request of [sample_events]. *)
Definition events_request (sys_version : string) (self : Client)
    (sample_id : string) : Request :=
  _new_request sys_version self "GET"
    ("/v0/samples/" +:+ sample_id +:+ "/events") None.

(** An overview whose only task is the static analysis. *)
Definition static_overview_body : bytes :=
  encode_utf8 ("{" +:+ DQ +:+ "tasks" +:+ DQ +:+ ": [{"
               +:+ json_pair "name" "static1" +:+ ", "
               +:+ json_pair "kind" "static" +:+ "}]}").

(** An overview whose tasks are keyed by their name. *)
Definition keyed_overview_body : bytes :=
  encode_utf8 ("{" +:+ DQ +:+ "tasks" +:+ DQ +:+ ": {"
               +:+ DQ +:+ "behavioral1" +:+ DQ +:+ ": {"
               +:+ json_pair "name" "behavioral1" +:+ ", "
               +:+ json_pair "platform" "windows10_x64" +:+ "}}}").

(** A remote end that answers the first request with the overview and
    refuses the later ones. *)
Definition net_overview_then_403 : list Request -> Request -> reply :=
  fun log _ =>
    match log with
    | [] => Reply 200 overview_body
    | _ => Reply 403 html_body
    end.

(** Two entries of a kernel log. *)
Definition log_lines : list bytes :=
  [encode_utf8 ("{" +:+ json_pair "kind" "process" +:+ "}");
   encode_utf8 ("{" +:+ json_pair "kind" "file" +:+ "}")].

Definition log_values : list json :=
  [JObj [("kind", JStr "process")]; JObj [("kind", JStr "file")]].

(** * The command line (python/cli/triage.py)

    A command runs against the token file, the remote end and the terminal:
    its run is what it returns or raises, the lines it prints and the files
    it opens for writing, in order, and the requests it sends. The token
    file is given by its content, [None] when it does not exist. *)

Module Cli.

Inductive effect : Type :=
| Print (line : string)                 (* print of strs, joined by spaces *)
| PrintBytes (b : bytes)                (* print(b) for a bytes object *)
| PrintValue (v : json)                 (* print(v) for a decoded value *)
| WriteText (path text : string)        (* open(path, "w"), write(text) *)
| WriteBytes (path : string) (b : bytes) (* open(path, "wb"), write(b) *)
| Prompt (options : json) (key : string) (* prompt_select_options(...) *)
| Sleep (seconds : Z).                  (* time.sleep(...) *)

(** The exceptions of the command line that the client never raises. *)
Inductive crash : Type :=
| IndexError
| AttributeError
| UnboundLocalError (name : string)
| OSError.

Inductive outcome (A : Type) : Type :=
| Returned (a : A)
| Raised (e : exn)
| Crashed (c : crash)
| Exited.                               (* sys.exit() *)
Arguments Returned {A} a.
Arguments Raised {A} e.
Arguments Crashed {A} c.
Arguments Exited {A}.

(** ** str methods *)

Definition code (c : ascii) : nat := nat_of_ascii c.

(** The characters [str.isspace] accepts, by their UTF-8 encoding: the
    ASCII ones, then U+0085 and U+00A0, then U+1680, U+2000 to U+200A,
    U+2028, U+2029, U+202F, U+205F and U+3000. *)
Definition space1 (a : ascii) : bool :=
  (Nat.leb 9 (code a) && Nat.leb (code a) 13)
  || (Nat.leb 28 (code a) && Nat.leb (code a) 32).

Definition space2 (a b : ascii) : bool :=
  Nat.eqb (code a) 194 && (Nat.eqb (code b) 133 || Nat.eqb (code b) 160).

Definition space3 (a b c : ascii) : bool :=
  (Nat.eqb (code a) 225 && Nat.eqb (code b) 154 && Nat.eqb (code c) 128)
  || (Nat.eqb (code a) 226 && Nat.eqb (code b) 128
      && ((Nat.leb 128 (code c) && Nat.leb (code c) 138)
          || Nat.eqb (code c) 168 || Nat.eqb (code c) 169
          || Nat.eqb (code c) 175))
  || (Nat.eqb (code a) 226 && Nat.eqb (code b) 129 && Nat.eqb (code c) 159)
  || (Nat.eqb (code a) 227 && Nat.eqb (code b) 128 && Nat.eqb (code c) 128).

(** [s.lstrip()] *)
Fixpoint str_lstrip (s : bytes) : bytes :=
  match s with
  | [] => []
  | a :: s1 =>
      if space1 a then str_lstrip s1
      else match s1 with
           | b :: s2 =>
               if space2 a b then str_lstrip s2
               else match s2 with
                    | c :: s3 => if space3 a b c then str_lstrip s3 else s
                    | [] => s
                    end
           | [] => s
           end
  end.

(** [s.rstrip()], on the reversed text. *)
Fixpoint str_rstrip_rev (s : bytes) : bytes :=
  match s with
  | [] => []
  | c :: s1 =>
      if space1 c then str_rstrip_rev s1
      else match s1 with
           | b :: s2 =>
               if space2 b c then str_rstrip_rev s2
               else match s2 with
                    | a :: s3 => if space3 a b c then str_rstrip_rev s3 else s
                    | [] => s
                    end
           | [] => s
           end
  end.

(** [s.strip()] *)
Definition str_strip (s : bytes) : bytes :=
  rev (str_rstrip_rev (rev (str_lstrip s))).

(** [s.split(sep)] for a separator of one character. *)
Fixpoint split_on (sep : ascii) (s : bytes) : list bytes :=
  match s with
  | [] => [[]]
  | c :: s' =>
      if Ascii.eqb c sep then [] :: split_on sep s'
      else match split_on sep s' with
           | h :: t => (c :: h) :: t
           | [] => [[c]]
           end
  end.

(** [sep.join(parts)] for a separator of one character. *)
Fixpoint join_on (sep : ascii) (parts : list bytes) : bytes :=
  match parts with
  | [] => []
  | [p] => p
  | p :: rest => p ++ sep :: join_on sep rest
  end.

(** The lines of a file opened in text mode: a line ends at LF, at CR LF
    or at CR, and carries a LF for it. *)
Fixpoint text_lines (s : bytes) : list bytes :=
  match s with
  | [] => []
  | c :: s' =>
      if Ascii.eqb c LF then [LF] :: text_lines s'
      else if Ascii.eqb c CR then
        [LF] :: text_lines (match s' with
                            | d :: s'' => if Ascii.eqb d LF then s'' else s'
                            | [] => s'
                            end)
      else match text_lines s' with
           | h :: t => (c :: h) :: t
           | [] => [[c]]
           end
  end.

Definition starts_with_hash (s : bytes) : bool :=
  match s with
  | c :: _ => Ascii.eqb c "#"
  | [] => false
  end.

(** A visible ASCII character, neither blank nor control. *)
Definition is_graphic (c : ascii) : bool :=
  Nat.leb 33 (code c) && Nat.leb (code c) 126.

(** A non-empty text of visible ASCII characters. *)
Definition plain (s : string) : bool :=
  negb (is_nil (list_ascii_of_string s))
  && forallb is_graphic (list_ascii_of_string s).

(** A line of the token file that is neither blank nor a comment. *)
Definition significant (line : bytes) : bool :=
  negb (is_nil (str_strip line) || starts_with_hash (str_strip line)).

(** ** The token file *)

(** The loop of [client_from_env] over the lines of the token file: [None]
    when it runs to its end. *)
Fixpoint first_client (lines : list bytes) : option (result Client) :=
  match lines with
  | [] => None
  | line :: rest =>
      let line := str_strip line in
      if is_nil line || starts_with_hash line then first_client rest
      else
        match split_on " " line with
        | [url; token] =>
            Some (Ok (Client_init (string_of_list_ascii token)
                        (string_of_list_ascii url)))
        | [] | [_] =>
            Some (Raise (EValueError
                           "not enough values to unpack (expected 2, got 1)"))
        | _ => Some (Raise (EValueError "too many values to unpack (expected 2)"))
        end
  end.

Definition client_from_env (tokenfile : string) (content : option string)
    : outcome Client * list effect :=
  match content with
  | None => (Exited, [Print "Please authenticate"])
  | Some text =>
      match first_client (text_lines (list_ascii_of_string text)) with
      | Some (Ok c) => (Returned c, [])
      | Some (Raise e) => (Raised e, [])
      | None => (Exited, [Print (tokenfile +:+ " is not formatted correctly")])
      end
  end.

Definition authenticate (tokenfile : string) (content : option string)
    (token url : string) : list effect :=
  match content with
  | Some _ =>
      [Print ("Tokenfile already exists, currenty appending tokens is not "
              +:+ "supported, please edit/remove: " +:+ " " +:+ tokenfile)]
  | None => [WriteText tokenfile (url +:+ " " +:+ token)]
  end.

(** The content of the file at [path] once the effects took place. *)
Fixpoint text_after (path : string) (content : option string)
    (effects : list effect) : option string :=
  match effects with
  | [] => content
  | WriteText p text :: rest =>
      text_after path (if String.eqb p path then Some text else content) rest
  | _ :: rest => text_after path content rest
  end.

(** ** Commands *)

(** ["".join(x for x in file if x not in "\/:*?<>|")] *)
Definition forbidden : bytes :=
  [BSc; "/"; ":"; "*"; "?"; "<"; ">"; "|"]%char.

Definition allowed (x : ascii) : bool :=
  negb (existsb (Ascii.eqb x) forbidden).

Definition default_output (file : string) : string :=
  string_of_list_ascii (List.filter allowed (list_ascii_of_string file)).

(** [not output] for an option that may be left out. *)
Definition not_given (output : option string) : bool :=
  match output with
  | None | Some EmptyString => true
  | Some _ => false
  end.

Definition is_dash (output : option string) : bool :=
  match output with
  | Some s => String.eqb s "-"
  | None => false
  end.

Section Commands.

Variable sys_version : string.
Variable json_loads : bytes -> option json.
Variable json_dumps : json -> string.
Variable net : list Request -> Request -> reply.
Variable tokenfile : string.
Variable content : option string.

(** A command that starts with [c = client_from_env()]. *)
Definition with_client {A}
    (k : Client -> outcome A * list effect * list Request)
    : outcome A * list effect * list Request :=
  match client_from_env tokenfile content with
  | (Returned c, printed) =>
      let '(r, effects, log) := k c in (r, printed ++ effects, log)
  | (Raised e, printed) => (Raised e, printed, [])
  | (Crashed k, printed) => (Crashed k, printed, [])
  | (Exited, printed) => (Exited, printed, [])
  end.

(** [open(path, "wb")]: the system refuses the empty path, and [open_wb]
    tells for any other whether the file system lets the file be created
    or truncated (not for a directory, nor in a directory that is
    missing). *)
Variable open_wb : string -> bool.

Definition writable (path : string) : bool :=
  negb (String.eqb path "") && open_wb path.

(** [with open(path, "wb") as wf: wf.write(b)] after the effects [shown]. *)
Definition write_to (path : string) (b : bytes) (shown : list effect)
    (log : list Request) : outcome unit * list effect * list Request :=
  if writable path then (Returned tt, shown ++ [WriteBytes path b], log)
  else (Crashed OSError, shown, log).

Definition get_file (sample task file : string) (output : option string)
    : outcome unit * list effect * list Request :=
  with_client (fun c =>
    match sample_task_file sys_version net c sample task file [] with
    | (Raise e, log) => (Raised e, [], log)
    | (Ok f, log) =>
        let shown := if is_dash output then [PrintBytes f] else [] in
        let path := match output with
                    | Some o => if not_given output then default_output file else o
                    | None => default_output file
                    end in
        write_to path f shown log
    end).

Definition archive (sample format : string) (output : option string)
    : outcome unit * list effect * list Request :=
  with_client (fun c =>
    let fetched :=
      if String.eqb format "tar"
      then Some (sample_archive_tar sys_version net c sample [])
      else if String.eqb format "zip"
      then Some (sample_archive_zip sys_version net c sample [])
      else None in
    match fetched with
    | None => (Returned tt, [Print "Use --format zip or tar"], [])
    | Some (Raise e, log) => (Raised e, [], log)
    | Some (Ok r, log) =>
        if is_dash output then (Returned tt, [PrintBytes r], log)
        else if not_given output
        then write_to (sample +:+ "." +:+ format) r [] log
        else match output with
             | Some o => write_to o r [] log
             | None => write_to (sample +:+ "." +:+ format) r [] log
             end
    end).

Definition delete (sample : string)
    : outcome unit * list effect * list Request :=
  with_client (fun c =>
    match delete_sample sys_version json_loads json_dumps net c sample [] with
    | (Raise e, log) => (Raised e, [], log)
    | (Ok _, log) => (Returned tt, [], log)
    end).

(** The [tags] argument of the call: [tags.split(",")]. *)
Definition tag_list (tags : string) : list string :=
  map string_of_list_ascii (split_on "," (list_ascii_of_string tags)).

Definition optional_str (s : option string) : json :=
  match s with
  | Some x => JStr x
  | None => JNull
  end.

Definition create_profile (name tags : string) (network : option string)
    (timeout : Z) : outcome unit * list effect * list Request :=
  with_client (fun c =>
    match create_profile sys_version json_loads json_dumps net c name
            (JArr (map JStr (tag_list tags))) (optional_str network)
            (JInt timeout) [] with
    | (Raise e, log) => (Raised e, [], log)
    | (Ok r, log) => (Returned tt, [PrintValue r], log)
    end).

Definition delete_profile (profile : string)
    : outcome unit * list effect * list Request :=
  with_client (fun c =>
    match delete_profile sys_version json_loads json_dumps net c profile [] with
    | (Raise e, log) => (Raised e, [], log)
    | (Ok r, log) => (Returned tt, [PrintValue r], log)
    end).

End Commands.

(** ** Interactive selection *)

(** A step of a command: it extends what was printed and what was sent. *)
Definition Run (A : Type) : Type :=
  list effect -> list Request -> outcome A * list effect * list Request.

Definition ret {A} (a : A) : Run A := fun fx log => (Returned a, fx, log).

Definition bind {A B} (m : Run A) (k : A -> Run B) : Run B :=
  fun fx log =>
    match m fx log with
    | (Returned a, fx', log') => k a fx' log'
    | (Raised e, fx', log') => (Raised e, fx', log')
    | (Crashed c, fx', log') => (Crashed c, fx', log')
    | (Exited, fx', log') => (Exited, fx', log')
    end.

Definition emit (e : effect) : Run unit :=
  fun fx log => (Returned tt, fx ++ [e], log).

(** A call of the client. *)
Definition call {A} (m : M A) : Run A :=
  fun fx log =>
    match m log with
    | (Ok a, log') => (Returned a, fx, log')
    | (Raise e, log') => (Raised e, fx, log')
    end.

(** An expression that may raise. *)
Definition eval {A} (r : result A) : Run A :=
  fun fx log =>
    match r with
    | Ok a => (Returned a, fx, log)
    | Raise e => (Raised e, fx, log)
    end.

Definition stop {A} (o : outcome A) : Run A := fun fx log => (o, fx, log).

Notation "'do' x <- m ; k" := (bind m (fun x => k))
  (at level 10, x name, m at level 100, k at level 200).
Notation "'run' m ; k" := (bind m (fun _ => k))
  (at level 10, m at level 100, k at level 200).

Definition is_continuation (c : ascii) : bool :=
  Nat.leb 128 (code c) && Nat.leb (code c) 191.

(** [len(s)] for a str: its characters, one per byte that does not continue
    another. *)
Definition str_len (s : string) : nat :=
  length (List.filter (fun c => negb (is_continuation c))
            (list_ascii_of_string s)).

(** [len(v)] *)
Definition py_len (v : json) : result nat :=
  match v with
  | JArr l => Ok (length l)
  | JObj kv => Ok (length kv)
  | JStr s => Ok (str_len s)
  | _ => Raise ETypeError
  end.

(** The truth value of a decoded value. *)
Definition py_truthy (v : json) : bool :=
  match v with
  | JNull => false
  | JBool b => b
  | JInt n => negb (Z.eqb n 0)
  | JFloat r => negb (String.eqb r "0.0" || String.eqb r "-0.0")
  | JStr s => negb (String.eqb s "")
  | JArr l => negb (is_nil l)
  | JObj kv => negb (is_nil kv)
  end.

(** [l[i]] for a list: a negative index counts from the end. *)
Definition list_index {A} (l : list A) (i : Z) : option A :=
  let n := Z.of_nat (length l) in
  if Z.leb 0 i && Z.ltb i n then nth_error l (Z.to_nat i)
  else if Z.leb (- n) i && Z.ltb i 0 then nth_error l (Z.to_nat (n + i))
  else None.

(** [v.get(key)] *)
Definition dict_get (v : json) (key : string) : outcome json :=
  match v with
  | JObj kv => Returned (default JNull (assoc key kv))
  | _ => Crashed AttributeError
  end.

(** [files[i].get("relpath")] *)
Definition relpath_at (files : json) (i : Z) : outcome json :=
  match files with
  | JArr l =>
      match list_index l i with
      | Some x => dict_get x "relpath"
      | None => Crashed IndexError
      end
  | JStr s =>
      let n := Z.of_nat (str_len s) in
      if Z.leb (- n) i && Z.ltb i n then Crashed AttributeError
      else Crashed IndexError
  | JObj _ => Raised (EKeyError (str_of_int i))
  | _ => Raised ETypeError
  end.

Inductive waited : Type :=
| Proceed
| Stop.

(** An event whose status is the str [s]. *)
Definition has_status (s : string) (ev : json) : Prop :=
  getitem ev "status" = Ok (JStr s).

(** The line printed for each pending event. *)
Definition waiting (events : list json) : list effect :=
  map (fun _ => Print "waiting for static analysis to finish") events.

Section Interactive.

Variable sys_version : string.
Variable json_loads : bytes -> option json.
Variable json_dumps : json -> string.
Variable net : list Request -> Request -> reply.
(** [str()] of a decoded value that is neither a str nor an int. *)
Variable render : json -> string.
(** [cli.tui.prompt_select_options]: the indices chosen on the terminal,
    given what the command printed so far, the options and the key. *)
Variable prompt_select_options : list effect -> json -> string -> list Z.
(** [[x for x in c.profiles()]]: the Paginator consumed. *)
Variable all_profiles : Client -> M (list json).

Definition ask (options : json) (key : string) : Run (list Z) :=
  fun fx log =>
    (Returned (prompt_select_options fx options key),
     fx ++ [Prompt options key], log).

(** [[x["relpath"] for x in files if x["selected"]]] *)
Fixpoint selected_relpaths (files : list json) : result (list json) :=
  match files with
  | [] => Ok []
  | x :: rest =>
      rbind (getitem x "selected") (fun sel =>
        if py_truthy sel then
          rbind (getitem x "relpath") (fun p =>
            rbind (selected_relpaths rest) (fun ps => Ok (p :: ps)))
        else selected_relpaths rest)
  end.

(** [[static["files"][i].get("relpath") for i in selection]] *)
Fixpoint chosen_relpaths (files : json) (selection : list Z)
    : outcome (list json) :=
  match selection with
  | [] => Returned []
  | i :: rest =>
      match relpath_at files i with
      | Returned p =>
          match chosen_relpaths files rest with
          | Returned ps => Returned (p :: ps)
          | o => o
          end
      | Raised e => Raised e
      | Crashed c => Crashed c
      | Exited => Exited
      end
  end.

Definition prompt_select_files (static : json) : Run (list json * bool) :=
  run emit (Print "Please select the files from the archive to analyize/");
  run emit (Print ("Leave blank to continue with the emphasized files and "
                   +:+ "automatic profiles."));
  do files <- eval (getitem static "files");
  do selection <- ask files "filename";
  if Nat.eqb (length selection) 0 then
    run emit (Print "Using default selection");
    do files' <- eval (getitem static "files");
    do items <- eval (py_iter files');
    do pick <- eval (selected_relpaths items);
    ret (pick, true)
  else
    do files' <- eval (getitem static "files");
    do pick <- stop (chosen_relpaths files' selection);
    ret (pick, false).

(** The inner loop of [prompt_select_profiles_for_files]. *)
Fixpoint chosen_profiles (profiles : list json) (i : json)
    (selection : list Z) : outcome (list json) :=
  match selection with
  | [] => Returned []
  | choice :: rest =>
      match list_index profiles choice with
      | None => Crashed IndexError
      | Some p =>
          match getitem p "id" with
          | Raise e => Raised e
          | Ok id =>
              match chosen_profiles profiles i rest with
              | Returned ps => Returned (JObj [("profile", id); ("pick", i)] :: ps)
              | o => o
              end
          end
      end
  end.

Fixpoint prompt_select_profiles_for_files (profiles : list json)
    (pick : list json) : Run (list json) :=
  match pick with
  | [] => ret []
  | i :: rest =>
      run emit (Print ("Please select the profiles to use for " +:+ " "
                       +:+ format_value render i));
      do selection <- ask (JArr profiles) "name";
      do chosen <- stop (chosen_profiles profiles i selection);
      do more <- prompt_select_profiles_for_files profiles rest;
      ret (chosen ++ more)
  end.

(** The loop over [c.sample_events(sample)]: the events are taken one at a
    time, and the exception that ends the generator is met only when every
    event before it was taken. *)
Fixpoint wait_events (events : list json) (final : option exn) : Run waited :=
  match events with
  | [] =>
      match final with
      | None => ret Proceed
      | Some e => stop (Raised e)
      end
  | ev :: rest =>
      do status <- eval (getitem ev "status");
      if eq_str status "pending" then
        run emit (Print "waiting for static analysis to finish");
        wait_events rest final
      else if eq_str status "static_analysis" then ret Proceed
      else if eq_str status "failed" then
        run emit (Print "the sample is in a failed state");
        ret Stop
      else
        run emit (Print "the sample does not need a profile to be selected");
        ret Stop
  end.

Definition set_automatically (c : Client) (sample : string)
    (pick : list json) : Run unit :=
  do _r <- call (set_sample_profile_automatically sys_version json_loads
                   json_dumps net c sample (JArr pick));
  ret tt.

Definition prompt_select_profile (c : Client) (sample : string) : Run unit :=
  fun fx log =>
    let '(events, log1) := sample_events sys_version json_loads net c sample log in
    (do w <- wait_events (fst events) (snd events);
     match w with
     | Stop => ret tt
     | Proceed =>
         do static <- call (static_report sys_version json_loads json_dumps net
                              c sample);
         do files <- eval (getitem static "files");
         do n <- eval (py_len files);
         do picked <- (if Nat.leb 1 n
                       then do p <- prompt_select_files static; ret (Some p)
                       else ret None);
         do profiles <- call (all_profiles c);
         match picked with
         | None => stop (Crashed (UnboundLocalError "defaultSelection"))
         | Some (pick, defaultSelection) =>
             if defaultSelection || Nat.eqb (length profiles) 0 then
               run (if Nat.eqb (length profiles) 0
                    then emit (Print ("No profiles are available, using "
                                      +:+ "automatic profiles instead."))
                    else ret tt);
               set_automatically c sample pick
             else
               do selections <- prompt_select_profiles_for_files profiles pick;
               if Nat.eqb (length selections) 0 then
                 run emit (Print ("Skipping profile selection.. choosing "
                                  +:+ "automatically"));
                 set_automatically c sample pick
               else
                 do _r <- call (set_sample_profile sys_version json_loads
                                  json_dumps net c sample (JArr selections));
                 ret tt
         end
     end) fx log1.

(** The select-profile command. *)
Definition select_profile (tokenfile : string) (content : option string)
    (sample : string) : outcome unit * list effect * list Request :=
  match client_from_env tokenfile content with
  | (Returned c, printed) => prompt_select_profile c sample printed []
  | (Raised e, printed) => (Raised e, printed, [])
  | (Crashed k, printed) => (Crashed k, printed, [])
  | (Exited, printed) => (Exited, printed, [])
  end.

(** [os.path.exists], [open(path, "rb")] ([None] when it raises OSError),
    [os.path.basename] and the bytes [os.urandom(16)] returns. *)
Variable path_exists : string -> bool.
Variable open_rb : string -> option bytes.
Variable basename : string -> string.
Variable entropy : bytes.

(** [[{"profile": x} for x in profile]] *)
Definition profile_list (profile : list string) : json :=
  JArr (map (fun x => JObj [("profile", JStr x)]) profile).

Definition non_empty (s : string) : bool := negb (String.eqb s "").

(** The lines printed once the sample is submitted, and the selection that
    follows an interactive submission. *)
Definition submitted (c : Client) (is_file interactive : bool) (r : json)
    : Run unit :=
  run emit (Print "Sample submitted");
  do id <- eval (getitem r "id");
  run emit (Print ("  ID:       " +:+ format_value render id));
  do st <- eval (getitem r "status");
  run emit (Print ("  Status:   " +:+ format_value render st));
  run (if is_file
       then do fn <- eval (getitem r "filename");
            emit (Print ("  Filename: " +:+ format_value render fn))
       else do u <- eval (getitem r "url");
            emit (Print ("  URL:      " +:+ format_value render u)));
  if interactive then
    run emit (Sleep 2);
    do id' <- eval (getitem r "id");
    match id' with
    | JStr sample => prompt_select_profile c sample
    | _ => stop (Raised ETypeError)
    end
  else ret tt.

Definition submit (tokenfile : string) (content : option string)
    (target : string) (interactive : bool) (profile : list string)
    : outcome unit * list effect * list Request :=
  if interactive && negb (is_nil profile) then
    (Returned tt, [Print "--interactive and --profile are mutually exclusive"],
     [])
  else
    match client_from_env tokenfile content with
    | (Returned c, printed) =>
        (if path_exists target && non_empty target then
           do r <- match open_rb target with
                   | Some b =>
                       call (submit_sample_file sys_version json_loads
                               json_dumps net c entropy (basename target)
                               (FileBytes b) interactive (profile_list profile))
                   | None => stop (Crashed OSError)
                   end;
           submitted c true interactive r
         else if negb (path_exists target) && non_empty target then
           do r <- call (submit_sample_url sys_version json_loads json_dumps
                           net c target interactive (profile_list profile));
           submitted c false interactive r
         else emit (Print "Please specify -f file or -u url")) printed []
    | (Raised e, printed) => (Raised e, printed, [])
    | (Crashed k, printed) => (Crashed k, printed, [])
    | (Exited, printed) => (Exited, printed, [])
    end.

End Interactive.

End Cli.


(** A token file of one line. *)
Definition token_text : string := "https://api.tria.ge s3cr3t".

(** A stream that reaches the static analysis at once. *)
Definition analysed_body : bytes :=
  encode_utf8 ("{" +:+ json_pair "status" "static_analysis" +:+ "}" +:+ NL).

(** A static report without files, and one with an emphasized file and
    another file. *)
Definition no_files_body : bytes :=
  encode_utf8 ("{" +:+ DQ +:+ "files" +:+ DQ +:+ ": []}").

Definition two_files : list json :=
  [JObj [("filename", JStr "a.exe"); ("relpath", JStr "a.exe");
         ("selected", JBool true)];
   JObj [("filename", JStr "b.txt"); ("relpath", JStr "b.txt");
         ("selected", JBool false)]].

Definition two_files_body : bytes :=
  encode_utf8 (Json.dumps (JObj [("files", JArr two_files)])).

(** A remote end that answers the first request with the stream, the second
    with the given static report and the later ones with an empty object. *)
Definition net_selection (static : bytes) : list Request -> Request -> reply :=
  fun log _ =>
    match log with
    | [] => Reply 200 analysed_body
    | [_] => Reply 200 static
    | _ => Reply 200 (encode_utf8 "{}")
    end.

(** A terminal where every prompt is left blank, and an account without
    profiles. *)
Definition blank_prompt : list Cli.effect -> json -> string -> list Z :=
  fun _ _ _ => [].

Definition no_profiles : Client -> M (list json) :=
  fun _ log => (Ok [], log).

Definition plain_render : json -> string := fun _ => "".

(** The answer to the submission of a url. *)
Definition url_answer : bytes :=
  encode_utf8 ("{" +:+ json_pair "id" "200923-esktrbc2a6" +:+ ", "
               +:+ json_pair "status" "pending" +:+ ", "
               +:+ json_pair "url" "http://example.com" +:+ "}").

(** How many times the terminal was asked. *)
Definition prompts (fx : list Cli.effect) : nat :=
  length (List.filter (fun e => match e with
                                | Cli.Prompt _ _ => true
                                | _ => false
                                end) fx).

(** The entries a selection by hand is to send, read off the answers of the
    terminal: [answer n] is what the terminal answers when [n] questions were
    asked before. For each file in turn, one entry per profile chosen at its
    question, with the id of that profile. *)
Definition profile_id (profiles : list json) (j : Z) : json :=
  match Cli.list_index profiles j with
  | Some (JObj kv) => default JNull (assoc "id" kv)
  | _ => JNull
  end.

Fixpoint entries_from (profiles : list json) (answer : nat -> list Z)
    (n : nat) (pick : list json) : list json :=
  match pick with
  | [] => []
  | i :: rest =>
      map (fun j => JObj [("profile", profile_id profiles j); ("pick", i)])
        (answer n)
      ++ entries_from profiles answer (S n) rest
  end.

(** What the terminal shows for the profiles of the files [pick]. *)
Definition questions (render : json -> string) (profiles pick : list json)
    : list Cli.effect :=
  flat_map (fun i => [Cli.Print ("Please select the profiles to use for  "
                                 +:+ format_value render i);
                      Cli.Prompt (JArr profiles) "name"]) pick.

(** A terminal where the second file and the first profile are chosen, and
    an account with one profile. *)
Definition pick_prompt : list Cli.effect -> json -> string -> list Z :=
  fun _ _ key => if String.eqb key "filename" then [1%Z] else [0%Z].

Definition one_profile : list json :=
  [JObj [("id", JStr "w10"); ("name", JStr "win10")]].

Definition one_profile_account : Client -> M (list json) :=
  fun _ log => (Ok one_profile, log).

(** * Properties *)

(** ** Strings *)

Lemma encode_utf8_app (a b : string) :
  encode_utf8 (a +:+ b) = encode_utf8 a ++ encode_utf8 b.
Proof.
  unfold encode_utf8. induction a as [|c a IH]; simpl; [reflexivity|].
  now rewrite IH.
Qed.

(** ** Error translation *)

Section ErrorTranslation.

Variable sys_version : string.
Variable json_loads : bytes -> option json.
Variable json_dumps : json -> string.
Variable net : list Request -> Request -> reply.

Lemma urlopen_error r log code body :
  net log r = Reply code body -> is_2xx code = false ->
  urlopen net r log = (Raise (EHTTPError code body), log ++ [r]).
Proof.
  intros Hnet Hcode. unfold urlopen. rewrite Hnet.
  now rewrite Hcode.
Qed.

Lemma urlopen_log r log : snd (urlopen net r log) = log ++ [r].
Proof. reflexivity. Qed.

Lemma open_json_error r log code body :
  net log r = Reply code body -> is_2xx code = false ->
  open_json json_loads net r log
  = (raise_ServerError json_loads code body, log ++ [r]).
Proof.
  intros Hnet Hcode. unfold open_json.
  now rewrite (urlopen_error _ _ _ _ Hnet Hcode).
Qed.

Lemma open_json_log r log : snd (open_json json_loads net r log) = log ++ [r].
Proof.
  unfold open_json. pose proof (urlopen_log r log) as H.
  destruct (urlopen net r log) as [[b|e] l]; simpl in *; subst; [reflexivity|].
  destruct e; reflexivity.
Qed.

Lemma raise_ServerError_well_formed {A} code body kv k m :
  json_loads body = Some (JObj kv) ->
  assoc "error" kv = Some k -> assoc "message" kv = Some m ->
  @raise_ServerError json_loads A code body
  = Raise (EServerError {| status := code; kind := k; message := m |}).
Proof.
  intros Hb Hk Hm. unfold raise_ServerError, ServerError_init, json_load.
  rewrite Hb. simpl. rewrite Hk. simpl. now rewrite Hm.
Qed.

(** The exception raised for an error answer, by the shape of its body. *)
Lemma raise_ServerError_cases {A} code body :
  match json_loads body with
  | None => @raise_ServerError json_loads A code body = Raise EJSONDecodeError
  | Some (JObj kv) =>
      match assoc "error" kv, assoc "message" kv with
      | Some k, Some m =>
          @raise_ServerError json_loads A code body
          = Raise (EServerError {| status := code; kind := k; message := m |})
      | None, _ =>
          @raise_ServerError json_loads A code body = Raise (EKeyError "error")
      | Some _, None =>
          @raise_ServerError json_loads A code body = Raise (EKeyError "message")
      end
  | Some _ => @raise_ServerError json_loads A code body = Raise ETypeError
  end.
Proof.
  unfold raise_ServerError, ServerError_init, json_load.
  destruct (json_loads body) as [[]|]; simpl; try reflexivity.
  destruct (assoc "error" members); simpl; [|reflexivity].
  destruct (assoc "message" members); reflexivity.
Qed.

Lemma raise_ServerError_never_ok {A} code body :
  exists e, @raise_ServerError json_loads A code body = Raise e.
Proof.
  unfold raise_ServerError.
  destruct (ServerError_init json_loads code body); eauto.
Qed.

Lemma _req_json_open self meth path d :
  _req_json sys_version json_loads json_dumps net self meth path d
  = open_json json_loads net (json_request sys_version json_dumps self meth path d).
Proof. unfold _req_json, json_request. now destruct d. Qed.

Lemma submit_sample_file_open self entropy filename file interactive
    profiles body ct :
  encode_multipart_formdata entropy
    (submit_fields json_dumps filename file interactive profiles)
  = Ok (body, ct) ->
  forall log,
  submit_sample_file sys_version json_loads json_dumps net self entropy
    filename file interactive profiles log
  = open_json json_loads net (submit_request sys_version self body ct) log.
Proof.
  intros H log. unfold submit_sample_file, submit_request. now rewrite H.
Qed.

Lemma open_json_failed r log :
  failed (net log r) = true ->
  exists e, fst (open_json json_loads net r log) = Raise e.
Proof.
  intros Hf. unfold open_json, urlopen.
  destruct (net log r) as [code body|]; simpl in *; [|eauto].
  apply negb_true_iff in Hf. rewrite Hf. simpl.
  apply raise_ServerError_never_ok.
Qed.

Lemma well_formed_error_cases code body (res : result json) :
  res = raise_ServerError json_loads code body ->
  (forall e, res = Raise (EServerError e)
             <-> well_formed_error json_loads code body e)
  /\ ((forall e, ~ well_formed_error json_loads code body e) ->
      decode_failure res).
Proof.
  intros ->. pose proof (@raise_ServerError_cases json code body) as H.
  unfold well_formed_error, decode_failure.
  destruct (json_loads body) as [v|] eqn:Hb.
  - destruct v;
      try (rewrite H; split;
           [intros e; split; [discriminate | intros (? & ? & ? & [=] & _)]
           | intros _; auto]).
    destruct (assoc "error" members) as [k|] eqn:Hk.
    + destruct (assoc "message" members) as [m|] eqn:Hm; rewrite H.
      * split.
        -- intros e; split.
           ++ intros [= <-]. exists members, k, m. auto.
           ++ intros (kv & k' & m' & [= <-] & Hk' & Hm' & ->).
              congruence.
        -- intros Hno. exfalso. eapply Hno. exists members, k, m. eauto.
      * split.
        -- intros e; split; [discriminate|].
           intros (kv & k' & m' & [= <-] & Hk' & Hm' & ->). congruence.
        -- intros _. right. right. eauto.
    + rewrite H. split.
      * intros e; split; [discriminate|].
        intros (kv & k' & m' & [= <-] & Hk' & Hm' & ->). congruence.
      * intros _. right. right. eauto.
  - rewrite H. split.
    + intros e; split; [discriminate | intros (? & ? & ? & [=] & _)].
    + intros _. auto.
Qed.

End ErrorTranslation.

(** C3. On a JSON call ([_req_json] and [submit_sample_file]) an answer
    with a non-2xx status whose body decodes to an object with the keys
    [error] and [message] raises ServerError with that status, kind and
    message; and whenever the answer is not a 2xx response the call raises:
    nothing is swallowed. *)
Theorem json_call_raises_ServerError
    (sys_version : string) (json_loads : bytes -> option json)
    (json_dumps : json -> string) (net : list Request -> Request -> reply)
    (self : Client) (log : list Request) (code : Z) (body : bytes)
    (kv : list (string * json)) (k m : json) :
  is_2xx code = false ->
  json_loads body = Some (JObj kv) ->
  assoc "error" kv = Some k ->
  assoc "message" kv = Some m ->
  (forall meth path d,
     net log (json_request sys_version json_dumps self meth path d)
       = Reply code body ->
     _req_json sys_version json_loads json_dumps net self meth path d log
     = (Raise (EServerError {| status := code; kind := k; message := m |}),
        log ++ [json_request sys_version json_dumps self meth path d]))
  /\ (forall entropy filename file interactive profiles mbody ct,
        encode_multipart_formdata entropy
          (submit_fields json_dumps filename file interactive profiles)
          = Ok (mbody, ct) ->
        net log (submit_request sys_version self mbody ct) = Reply code body ->
        submit_sample_file sys_version json_loads json_dumps net self entropy
          filename file interactive profiles log
        = (Raise (EServerError {| status := code; kind := k; message := m |}),
           log ++ [submit_request sys_version self mbody ct]))
  /\ (forall meth path d log',
        failed (net log' (json_request sys_version json_dumps self meth path d))
          = true ->
        exists e,
          fst (_req_json sys_version json_loads json_dumps net self meth path d
                 log') = Raise e)
  /\ (forall entropy filename file interactive profiles mbody ct log',
        encode_multipart_formdata entropy
          (submit_fields json_dumps filename file interactive profiles)
          = Ok (mbody, ct) ->
        failed (net log' (submit_request sys_version self mbody ct)) = true ->
        exists e,
          fst (submit_sample_file sys_version json_loads json_dumps net self
                 entropy filename file interactive profiles log') = Raise e).
Proof.
  intros Hcode Hb Hk Hm. repeat split.
  - intros meth path d Hnet. rewrite _req_json_open.
    rewrite (open_json_error _ _ _ _ _ _ Hnet Hcode).
    now rewrite (raise_ServerError_well_formed _ _ _ _ _ _ Hb Hk Hm).
  - intros entropy filename file interactive profiles mbody ct Henc Hnet.
    rewrite (submit_sample_file_open _ _ _ _ _ _ _ _ _ _ _ _ Henc).
    rewrite (open_json_error _ _ _ _ _ _ Hnet Hcode).
    now rewrite (raise_ServerError_well_formed _ _ _ _ _ _ Hb Hk Hm).
  - intros meth path d log' Hf. rewrite _req_json_open.
    now apply open_json_failed.
  - intros entropy filename file interactive profiles mbody ct log' Henc Hf.
    rewrite (submit_sample_file_open _ _ _ _ _ _ _ _ _ _ _ _ Henc).
    now apply open_json_failed.
Qed.

(** C10. On a JSON call answered with a non-2xx status, ServerError
    reaches the caller exactly when the body decodes to a JSON object that
    has both keys; for every other body the caller receives the decode,
    type or key error raised while the ServerError was being built. *)
Theorem ServerError_only_for_well_formed_bodies
    (sys_version : string) (json_loads : bytes -> option json)
    (json_dumps : json -> string) (net : list Request -> Request -> reply)
    (self : Client) (code : Z) (body : bytes) :
  is_2xx code = false ->
  (forall meth path d log,
     net log (json_request sys_version json_dumps self meth path d)
       = Reply code body ->
     (forall e,
        fst (_req_json sys_version json_loads json_dumps net self meth path d
               log) = Raise (EServerError e)
        <-> well_formed_error json_loads code body e)
     /\ ((forall e, ~ well_formed_error json_loads code body e) ->
         decode_failure
           (fst (_req_json sys_version json_loads json_dumps net self meth
                   path d log))))
  /\ (forall entropy filename file interactive profiles mbody ct log,
        encode_multipart_formdata entropy
          (submit_fields json_dumps filename file interactive profiles)
          = Ok (mbody, ct) ->
        net log (submit_request sys_version self mbody ct) = Reply code body ->
        (forall e,
           fst (submit_sample_file sys_version json_loads json_dumps net self
                  entropy filename file interactive profiles log)
           = Raise (EServerError e)
           <-> well_formed_error json_loads code body e)
        /\ ((forall e, ~ well_formed_error json_loads code body e) ->
            decode_failure
              (fst (submit_sample_file sys_version json_loads json_dumps net
                      self entropy filename file interactive profiles log)))).
Proof.
  intros Hcode. split.
  - intros meth path d log Hnet. rewrite _req_json_open.
    rewrite (open_json_error _ _ _ _ _ _ Hnet Hcode). simpl.
    now apply well_formed_error_cases.
  - intros entropy filename file interactive profiles mbody ct log Henc Hnet.
    rewrite (submit_sample_file_open _ _ _ _ _ _ _ _ _ _ _ _ Henc).
    rewrite (open_json_error _ _ _ _ _ _ Hnet Hcode). simpl.
    now apply well_formed_error_cases.
Qed.


(** C3 at a concrete input: a 404 with the API's error body. *)
Lemma json_call_raises_ServerError_witness :
  sample_by_id demo_version Json.loads Json.dumps
    (net_const (Reply 404 not_found_body)) demo_client "200923-hb5gvebega" []
  = (Raise (EServerError {| status := 404; kind := JStr "not_found";
                            message := JStr "sample missing" |}),
     [json_request demo_version Json.dumps demo_client "GET"
        "/v0/samples/200923-hb5gvebega" None]).
Proof.
  refine (proj1 (json_call_raises_ServerError demo_version Json.loads
                   Json.dumps (net_const (Reply 404 not_found_body))
                   demo_client [] 404 not_found_body
                   [("error", JStr "not_found");
                    ("message", JStr "sample missing")]
                   (JStr "not_found") (JStr "sample missing")
                   _ _ _ _) "GET" "/v0/samples/200923-hb5gvebega" None _);
    vm_compute; reflexivity.
Defined.

(** C10 at a concrete input: a 502 whose body is an HTML page. *)
Lemma ServerError_only_for_well_formed_bodies_witness :
  decode_failure
    (fst (sample_by_id demo_version Json.loads Json.dumps
            (net_const (Reply 502 html_body)) demo_client
            "200923-hb5gvebega" [])).
Proof.
  refine (proj2 (proj1 (ServerError_only_for_well_formed_bodies demo_version
                          Json.loads Json.dumps
                          (net_const (Reply 502 html_body)) demo_client 502
                          html_body _)
                   "GET" "/v0/samples/200923-hb5gvebega" None [] _) _).
  - vm_compute; reflexivity.
  - vm_compute; reflexivity.
  - intros e (kv & k & m & Hb & _). vm_compute in Hb. discriminate Hb.
Defined.

(** ** Raw-byte calls *)

Lemma run_raw_request sys_version net self o log :
  run_raw sys_version net self o log
  = urlopen net (raw_request sys_version self o) log.
Proof. destruct o; reflexivity. Qed.

(** C6. A raw-byte call ([_req_file], [sample_task_file] and the two
    archive downloads) answered with a non-2xx status ends with the
    HTTPError of [urlopen], unchanged; whatever the network does, such a
    call ends with the body, an HTTPError or a URLError, never with a
    ServerError or a decoding error. The JSON decoder is not an argument of
    these operations. *)
Theorem raw_call_propagates_HTTPError
    (sys_version : string) (net : list Request -> Request -> reply)
    (self : Client) (o : raw_op) (log : list Request) (code : Z)
    (body : bytes) :
  net log (raw_request sys_version self o) = Reply code body ->
  is_2xx code = false ->
  run_raw sys_version net self o log
  = (Raise (EHTTPError code body), log ++ [raw_request sys_version self o])
  /\ (forall net' log' e,
        fst (run_raw sys_version net' self o log') <> Raise (EServerError e))
  /\ (forall net' log',
        transport_outcome (fst (run_raw sys_version net' self o log'))).
Proof.
  intros Hnet Hcode. split; [|split].
  - rewrite run_raw_request. now apply urlopen_error.
  - intros net' log' e. rewrite run_raw_request. unfold urlopen. simpl.
    destruct (net' log' _) as [c b|]; [destruct (is_2xx c)|]; discriminate.
  - intros net' log'. rewrite run_raw_request. unfold urlopen. simpl.
    destruct (net' log' _) as [c b|]; [destruct (is_2xx c)|]; exact I.
Qed.

(** C6 at a concrete input: a 404 on a task file. *)
Lemma raw_call_propagates_HTTPError_witness :
  fst (sample_task_file demo_version (net_const (Reply 404 html_body))
         demo_client "200923-hb5gvebega" "behavioral1" "memory/dump.bin" [])
  = Raise (EHTTPError 404 html_body).
Proof.
  refine (f_equal fst
            (proj1 (raw_call_propagates_HTTPError demo_version
                      (net_const (Reply 404 html_body)) demo_client
                      (TaskFile "200923-hb5gvebega" "behavioral1"
                         "memory/dump.bin") [] 404 html_body _ _)));
    vm_compute; reflexivity.
Defined.

(** ** Rendering of ServerError *)

(** C8. A ServerError with status [s], kind [k] and message [m] renders as
    "triage: <s> <k>: <m>", the status in decimal; for status 404, kind
    not_found and message "sample missing" the rendering is
    "triage: 404 not_found: sample missing". *)
Theorem ServerError_str_format (render : json -> string) (s : Z)
    (k m : string) :
  ServerError_str render {| status := s; kind := JStr k; message := JStr m |}
  = "triage: " +:+ str_of_int s +:+ " " +:+ k +:+ ": " +:+ m
  /\ ServerError_str render {| status := 404; kind := JStr "not_found";
                                message := JStr "sample missing" |}
     = "triage: 404 not_found: sample missing".
Proof. split; reflexivity. Qed.

(** ** Request headers *)

Section Headers.

Variable sys_version : string.
Variable json_loads : bytes -> option json.
Variable json_dumps : json -> string.
Variable net : list Request -> Request -> reply.
Variable self : Client.

Lemma _new_request_headers meth path d :
  headers (_new_request sys_version self meth path d)
  = base_headers sys_version self.
Proof. reflexivity. Qed.

Lemma _new_request_data meth path d :
  data (_new_request sys_version self meth path d) = d.
Proof. reflexivity. Qed.

Lemma base_headers_size : size (base_headers sys_version self) = 2.
Proof.
  unfold base_headers.
  rewrite map_size_insert_None.
  - now rewrite map_size_insert_None, map_size_empty by apply lookup_empty.
  - rewrite lookup_insert_ne by discriminate. apply lookup_empty.
Qed.

Lemma expected_new_request meth path :
  expected_headers sys_version self
    (_new_request sys_version self meth path None).
Proof. reflexivity. Qed.

Lemma expected_json_request meth path d :
  expected_headers sys_version self
    (json_request sys_version json_dumps self meth path d).
Proof. destruct d; reflexivity. Qed.

Lemma expected_submit_request body boundary :
  expected_headers sys_version self
    (submit_request sys_version self body
       ("multipart/form-data; boundary=" +:+ boundary)).
Proof. exists boundary. reflexivity. Qed.

Lemma encode_multipart_content_type entropy fields body ct :
  encode_multipart_formdata entropy fields = Ok (body, ct) ->
  ct = "multipart/form-data; boundary=" +:+ new_boundary entropy.
Proof.
  unfold encode_multipart_formdata.
  destruct (encode_fields _ fields); simpl; congruence.
Qed.

Lemma _req_json_log meth path d log :
  snd (_req_json sys_version json_loads json_dumps net self meth path d log)
  = log ++ [json_request sys_version json_dumps self meth path d].
Proof. rewrite _req_json_open. apply open_json_log. Qed.

Lemma kernel_report_log sample_id task_id log :
  let first :=
    json_request sys_version json_dumps self "GET"
      ("/v1/samples/" +:+ sample_id +:+ "/overview.json") None in
  snd (kernel_report sys_version json_loads json_dumps net self sample_id
         task_id log) = log ++ [first]
  \/ exists file,
       snd (kernel_report sys_version json_loads json_dumps net self
              sample_id task_id log)
       = log ++ [first;
                 _new_request sys_version self "GET"
                   (log_path sample_id task_id file) None].
Proof.
  intros first. unfold kernel_report, overview_report.
  pose proof (_req_json_log "GET"
                ("/v1/samples/" +:+ sample_id +:+ "/overview.json") None log)
    as Hlog.
  destruct (_req_json _ _ _ _ _ _ _ _ log) as [[overview|e] log1];
    simpl in Hlog; subst log1; [|now left].
  destruct (rbind _ _) as [r|e] eqn:Hr; [|now left].
  assert (exists file,
             r = _new_request sys_version self "GET"
                   (log_path sample_id task_id file) None) as [file ->].
  { destruct (rbind (getitem overview "tasks") py_iter) as [tasks|];
      [|discriminate]. simpl in Hr.
    destruct (find_task tasks task_id) as [t|]; [|discriminate]. simpl in Hr.
    unfold kernel_log_request in Hr.
    destruct (getitem t "platform") as [p|]; [|discriminate]. simpl in Hr.
    destruct (py_in "windows" p) as [[|]|]; simpl in Hr;
      [injection Hr as <-; eauto| |discriminate].
    destruct (py_in "linux" p) as [[|]|]; simpl in Hr;
      [injection Hr as <-; eauto|discriminate|discriminate]. }
  right. exists file.
  pose proof (urlopen_log net
                (_new_request sys_version self "GET"
                   (log_path sample_id task_id file) None)
                (log ++ [first])) as H2.
  destruct (urlopen _ _ _) as [[b|e] log2]; simpl in *; subst log2;
    now rewrite <- app_assoc.
Qed.

End Headers.

(** C5. Every request sent by an operation of the client carries the two
    headers of [_new_request], Authorization with "Bearer <token>" and the
    User-Agent that identifies the client, and nothing else, except that a
    request built with a JSON body also carries Content-Type
    application/json and the file submission carries the multipart
    Content-Type returned by the encoder. *)
Theorem requests_carry_two_implicit_headers
    (sys_version : string) (json_loads : bytes -> option json)
    (json_dumps : json -> string) (net : list Request -> Request -> reply)
    (self : Client) (o : op) (log : list Request) :
  size (base_headers sys_version self) = 2
  /\ base_headers sys_version self !! "Authorization"
     = Some ("Bearer " +:+ token self)
  /\ base_headers sys_version self !! "User-agent"
     = Some ("Triage Python Client/" +:+ version +:+ " Python/"
             +:+ first_word sys_version)
  /\ exists sent,
       op_log sys_version json_loads json_dumps net self o log = log ++ sent
       /\ Forall (expected_headers sys_version self) sent.
Proof.
  split; [apply base_headers_size|]. split; [reflexivity|].
  split; [reflexivity|].
  assert (forall meth path d,
            exists sent,
              snd (_req_json sys_version json_loads json_dumps net self meth
                     path d log) = log ++ sent
              /\ Forall (expected_headers sys_version self) sent) as Hjson.
  { intros meth path d. eexists. split; [apply _req_json_log|].
    repeat constructor. apply expected_json_request. }
  assert (forall meth path,
            exists sent,
              snd (_req_file sys_version net self meth path log) = log ++ sent
              /\ Forall (expected_headers sys_version self) sent) as Hfile.
  { intros meth path. eexists. split; [apply urlopen_log|].
    repeat constructor. }
  destruct o; simpl; try apply Hjson; try apply Hfile;
    try (exists []; split; [now rewrite app_nil_r | constructor]).
  - unfold submit_sample_file.
    destruct (encode_multipart_formdata _ _) as [[body ct]|e] eqn:Henc.
    + apply encode_multipart_content_type in Henc as ->.
      eexists. split; [apply open_json_log|].
      repeat constructor. apply expected_submit_request.
    + exists []. split; [now rewrite app_nil_r | constructor].
  - destruct (kernel_report_log sys_version json_loads json_dumps net self
                sample_id task_id log) as [H|[file H]];
      eexists; (split; [exact H|]); repeat constructor.
  - unfold sample_events. eexists. split.
    + pose proof (urlopen_log net
                    (_new_request sys_version self "GET"
                       ("/v0/samples/" +:+ sample_id +:+ "/events") None) log)
        as H.
      destruct (urlopen _ _ _) as [[b|e] l]; simpl in *; exact H.
    + repeat constructor.
Qed.

(** ** kernel_report *)

Section KernelReport.

Variable sys_version : string.
Variable json_loads : bytes -> option json.
Variable json_dumps : json -> string.
Variable net : list Request -> Request -> reply.
Variable self : Client.

Lemma find_task_absent tasks task_id :
  Forall (other_task task_id) tasks ->
  find_task tasks task_id = Raise (EValueError "Task does not exist").
Proof.
  induction 1 as [|t tasks (n & Hn & Hne) _ IH]; [reflexivity|].
  cbn [find_task]. rewrite Hn. cbn [rbind]. now rewrite Hne.
Qed.

Lemma find_task_present pre t post task_id n :
  Forall (other_task task_id) pre ->
  getitem t "name" = Ok n -> eq_str n task_id = true ->
  find_task (pre ++ t :: post) task_id = Ok t.
Proof.
  intros Hpre Hn Heq.
  induction Hpre as [|u pre (m & Hm & Hne) _ IH]; cbn [app find_task].
  - rewrite Hn. cbn [rbind]. now rewrite Heq.
  - rewrite Hm. cbn [rbind]. now rewrite Hne.
Qed.

Lemma overview_fetched sample_id log code body overview :
  net log (overview_request sys_version self sample_id) = Reply code body ->
  is_2xx code = true -> json_loads body = Some overview ->
  overview_report sys_version json_loads json_dumps net self sample_id log
  = (Ok overview, log ++ [overview_request sys_version self sample_id]).
Proof.
  intros Hnet Hcode Hb. unfold overview_report, _req_json, open_json, urlopen.
  fold (overview_request sys_version self sample_id).
  rewrite Hnet, Hcode. unfold json_load. now rewrite Hb.
Qed.

Lemma kernel_log_request_str sample_id task_id t p :
  getitem t "platform" = Ok (JStr p) ->
  kernel_log_request sys_version self sample_id task_id t
  = if contains "windows" p
    then Ok (log_request sys_version self sample_id task_id "onemon.json")
    else if contains "linux" p
    then Ok (log_request sys_version self sample_id task_id "stahp.json")
    else Raise (EValueError "Platform not supported").
Proof.
  intros Hp. unfold kernel_log_request. rewrite Hp. cbn [rbind py_in].
  destruct (contains "windows" p); [reflexivity|].
  now destruct (contains "linux" p).
Qed.

Lemma kernel_report_found sample_id task_id log code body overview tasks t :
  net log (overview_request sys_version self sample_id) = Reply code body ->
  is_2xx code = true -> json_loads body = Some overview ->
  getitem overview "tasks" = Ok (JArr tasks) ->
  find_task tasks task_id = Ok t ->
  kernel_report sys_version json_loads json_dumps net self sample_id task_id
    log
  = match kernel_log_request sys_version self sample_id task_id t with
    | Ok r =>
        let log1 := log ++ [overview_request sys_version self sample_id] in
        (log_stream json_loads (fst (urlopen net r log1)), log1 ++ [r])
    | Raise e =>
        (([], Some e), log ++ [overview_request sys_version self sample_id])
    end.
Proof.
  intros Hnet Hcode Hb Htasks Hfind. unfold kernel_report.
  rewrite (overview_fetched _ _ _ _ _ Hnet Hcode Hb).
  rewrite Htasks. cbn [rbind py_iter]. rewrite Hfind. cbn [rbind].
  destruct (kernel_log_request _ _ _ _ t) as [r|e]; [|reflexivity].
  unfold urlopen, log_stream. cbn [fst].
  destruct (net _ r) as [c b|]; [destruct (is_2xx c)|]; reflexivity.
Qed.

End KernelReport.

(** The dispatch of [kernel_report] over an overview that lists its tasks
    in an array. It first fetches the overview report; when no task carries
    the given name it fails with "Task does not exist" after that single
    request; for the first task of that name, a platform string containing
    "windows" leads to a GET of /v0/samples/{id}/{task}/logs/onemon.json,
    otherwise one containing "linux" to a GET of
    /v0/samples/{id}/{task}/logs/stahp.json, and any other platform string
    fails with "Platform not supported" and no log request. *)
Lemma kernel_report_dispatch
    (sys_version : string) (json_loads : bytes -> option json)
    (json_dumps : json -> string) (net : list Request -> Request -> reply)
    (self : Client) (sample_id task_id : string) (log : list Request)
    (code : Z) (body : bytes) (overview : json) (tasks : list json) :
  net log (overview_request sys_version self sample_id) = Reply code body ->
  is_2xx code = true ->
  json_loads body = Some overview ->
  getitem overview "tasks" = Ok (JArr tasks) ->
  let log1 := log ++ [overview_request sys_version self sample_id] in
  let windows := log_request sys_version self sample_id task_id "onemon.json" in
  let linux := log_request sys_version self sample_id task_id "stahp.json" in
  let report :=
    kernel_report sys_version json_loads json_dumps net self sample_id task_id
      log in
  (method windows = "GET"
   /\ full_url windows
      = root_url self +:+ "/v0/samples/" +:+ sample_id +:+ "/" +:+ task_id
        +:+ "/logs/onemon.json"
   /\ method linux = "GET"
   /\ full_url linux
      = root_url self +:+ "/v0/samples/" +:+ sample_id +:+ "/" +:+ task_id
        +:+ "/logs/stahp.json"
   /\ full_url (overview_request sys_version self sample_id)
      = root_url self +:+ "/v1/samples/" +:+ sample_id +:+ "/overview.json")
  /\ (Forall (other_task task_id) tasks ->
      report = (([], Some (EValueError "Task does not exist")), log1))
  /\ (forall pre t post n p,
        tasks = pre ++ t :: post ->
        Forall (other_task task_id) pre ->
        getitem t "name" = Ok n -> eq_str n task_id = true ->
        getitem t "platform" = Ok (JStr p) ->
        (contains "windows" p = true ->
         report = (log_stream json_loads (fst (urlopen net windows log1)),
                   log1 ++ [windows]))
        /\ (contains "windows" p = false -> contains "linux" p = true ->
            report = (log_stream json_loads (fst (urlopen net linux log1)),
                      log1 ++ [linux]))
        /\ (contains "windows" p = false -> contains "linux" p = false ->
            report = (([], Some (EValueError "Platform not supported")), log1))).
Proof.
  intros Hnet Hcode Hb Htasks log1 windows linux report.
  split; [repeat split; reflexivity|]. split.
  - intros Habsent. subst report log1. unfold kernel_report.
    rewrite (overview_fetched _ _ _ _ _ _ _ _ _ _ Hnet Hcode Hb).
    rewrite Htasks. cbn [rbind py_iter].
    now rewrite (find_task_absent _ _ Habsent).
  - intros pre t post n p -> Hpre Hn Heq Hp.
    pose proof (kernel_report_found sys_version json_loads json_dumps net self
                  _ task_id _ _ _ _ _ _ Hnet Hcode Hb Htasks
                  (find_task_present _ _ post _ _ Hpre Hn Heq)) as H.
    rewrite (kernel_log_request_str _ _ _ _ _ _ Hp) in H.
    fold report in H. repeat split.
    + intros Hw. now rewrite Hw in H.
    + intros Hw Hl. now rewrite Hw, Hl in H.
    + intros Hw Hl. now rewrite Hw, Hl in H.
Qed.

(** The dispatch at a concrete input: a linux task is read from stahp.json
    and an unsupported platform sends no second request. *)
Lemma kernel_report_dispatch_witness :
  snd (kernel_report demo_version Json.loads Json.dumps net_overview_then_log
         demo_client "200923-hb5gvebega" "behavioral2" [])
  = [overview_request demo_version demo_client "200923-hb5gvebega";
     log_request demo_version demo_client "200923-hb5gvebega" "behavioral2"
       "stahp.json"]
  /\ kernel_report demo_version Json.loads Json.dumps net_overview_then_log
       demo_client "200923-hb5gvebega" "behavioral3" []
     = (([], Some (EValueError "Platform not supported")),
        [overview_request demo_version demo_client "200923-hb5gvebega"]).
Proof.
  split.
  - pose proof (kernel_report_dispatch demo_version Json.loads Json.dumps
                  net_overview_then_log demo_client "200923-hb5gvebega"
                  "behavioral2" [] 200 overview_body
                  (JObj [("tasks", JArr overview_tasks)]) overview_tasks
                  eq_refl eq_refl ltac:(vm_compute; reflexivity) eq_refl)
      as (_ & _ & H).
    destruct (H [JObj [("name", JStr "behavioral1");
                       ("platform", JStr "windows10_x64")]]
                (JObj [("name", JStr "behavioral2");
                       ("platform", JStr "linux_amd64")])
                [JObj [("name", JStr "behavioral3");
                       ("platform", JStr "macos_amd64")]]
                (JStr "behavioral2") "linux_amd64" eq_refl
                ltac:(repeat constructor; exists (JStr "behavioral1");
                      split; reflexivity)
                eq_refl eq_refl eq_refl) as (_ & Hl & _).
    now rewrite (Hl eq_refl eq_refl).
  - pose proof (kernel_report_dispatch demo_version Json.loads Json.dumps
                  net_overview_then_log demo_client "200923-hb5gvebega"
                  "behavioral3" [] 200 overview_body
                  (JObj [("tasks", JArr overview_tasks)]) overview_tasks
                  eq_refl eq_refl ltac:(vm_compute; reflexivity) eq_refl)
      as (_ & _ & H).
    destruct (H [JObj [("name", JStr "behavioral1");
                       ("platform", JStr "windows10_x64")];
                 JObj [("name", JStr "behavioral2");
                       ("platform", JStr "linux_amd64")]]
                (JObj [("name", JStr "behavioral3");
                       ("platform", JStr "macos_amd64")])
                []
                (JStr "behavioral3") "macos_amd64" eq_refl
                ltac:(repeat constructor;
                      [exists (JStr "behavioral1") | exists (JStr "behavioral2")];
                      split; reflexivity)
                eq_refl eq_refl eq_refl) as (_ & _ & Hn).
    exact (Hn eq_refl eq_refl).
Defined.

(** C2. The lookup of the task misses the overview whose tasks are keyed in
    an object, the shape in which the report command reads them: the loop of
    [kernel_report] then visits the keys, and asking a key for its name
    raises TypeError. For every sample_id and task_id, a task that is in the
    overview under the given name, with a platform string containing
    "windows", is then not found: the call ends with TypeError after the
    overview request and no log is requested, where the same task at the
    head of an array is read from /v0/samples/{id}/{task}/logs/onemon.json. *)
Theorem kernel_report_keyed_tasks
    (sys_version : string) (json_loads : bytes -> option json)
    (json_dumps : json -> string) (net : list Request -> Request -> reply)
    (self : Client) (sample_id task_id : string) (log : list Request)
    (code : Z) (body : bytes) (overview : json)
    (task : list (string * json)) (p : string) :
  net log (overview_request sys_version self sample_id) = Reply code body ->
  is_2xx code = true ->
  json_loads body = Some overview ->
  assoc "name" task = Some (JStr task_id) ->
  assoc "platform" task = Some (JStr p) ->
  contains "windows" p = true ->
  let log1 := log ++ [overview_request sys_version self sample_id] in
  let windows := log_request sys_version self sample_id task_id "onemon.json" in
  let report :=
    kernel_report sys_version json_loads json_dumps net self sample_id task_id
      log in
  (forall key members,
     getitem overview "tasks" = Ok (JObj members) ->
     In (key, JObj task) members ->
     report = (([], Some ETypeError), log1))
  /\ (forall rest,
        getitem overview "tasks" = Ok (JArr (JObj task :: rest)) ->
        report = (log_stream json_loads (fst (urlopen net windows log1)),
                  log1 ++ [windows])
        /\ full_url windows
           = root_url self +:+ "/v0/samples/" +:+ sample_id +:+ "/" +:+ task_id
             +:+ "/logs/onemon.json").
Proof.
  intros Hnet Hcode Hb Hname Hplatform Hwin log1 windows report. split.
  - intros key members Htasks Hin. subst report log1. unfold kernel_report.
    rewrite (overview_fetched _ _ _ _ _ _ _ _ _ _ Hnet Hcode Hb).
    rewrite Htasks. cbn [rbind py_iter].
    now destruct members as [|[k v] members]; [destruct Hin|].
  - intros rest Htasks. split; [|reflexivity].
    assert (find_task (JObj task :: rest) task_id = Ok (JObj task)) as Hfind.
    { cbn [find_task getitem]. rewrite Hname. cbn [rbind eq_str].
      now rewrite String.eqb_refl. }
    pose proof (kernel_report_found sys_version json_loads json_dumps net self
                  _ task_id _ _ _ _ _ _ Hnet Hcode Hb Htasks Hfind) as H.
    rewrite (kernel_log_request_str _ _ _ _ _ p) in H
      by (cbn [getitem]; now rewrite Hplatform).
    now rewrite Hwin in H.
Qed.

(** C2 at a concrete input: the task behavioral1, on windows10_x64, keyed in
    an object and listed in an array. *)
Lemma kernel_report_keyed_tasks_witness :
  kernel_report demo_version Json.loads Json.dumps
    (net_const (Reply 200 keyed_overview_body)) demo_client
    "200923-hb5gvebega" "behavioral1" []
  = (([], Some ETypeError),
     [overview_request demo_version demo_client "200923-hb5gvebega"])
  /\ snd (kernel_report demo_version Json.loads Json.dumps
            net_overview_then_log demo_client "200923-hb5gvebega"
            "behavioral1" [])
     = [overview_request demo_version demo_client "200923-hb5gvebega";
        log_request demo_version demo_client "200923-hb5gvebega" "behavioral1"
          "onemon.json"].
Proof.
  split.
  - refine (proj1 (kernel_report_keyed_tasks demo_version Json.loads
                     Json.dumps (net_const (Reply 200 keyed_overview_body))
                     demo_client "200923-hb5gvebega" "behavioral1" [] 200
                     keyed_overview_body
                     (JObj [("tasks",
                             JObj [("behavioral1",
                                    JObj [("name", JStr "behavioral1");
                                          ("platform",
                                           JStr "windows10_x64")])])])
                     [("name", JStr "behavioral1");
                      ("platform", JStr "windows10_x64")]
                     "windows10_x64" eq_refl eq_refl _ eq_refl eq_refl eq_refl)
              "behavioral1" _ eq_refl _).
    + vm_compute. reflexivity.
    + left. reflexivity.
  - pose proof (kernel_report_keyed_tasks demo_version Json.loads Json.dumps
                  net_overview_then_log demo_client "200923-hb5gvebega"
                  "behavioral1" [] 200 overview_body
                  (JObj [("tasks", JArr overview_tasks)])
                  [("name", JStr "behavioral1");
                   ("platform", JStr "windows10_x64")]
                  "windows10_x64" eq_refl eq_refl
                  ltac:(vm_compute; reflexivity) eq_refl eq_refl eq_refl)
      as (_ & H).
    destruct (H _ eq_refl) as (Hrun & _). now rewrite Hrun.
Defined.

(** ** Order of the multipart fields *)

Lemma encode_fields_app boundary pre post :
  encode_fields boundary (pre ++ post)
  = rbind (encode_fields boundary pre) (fun a =>
      rbind (encode_fields boundary post) (fun b => Ok (a ++ b))).
Proof.
  induction pre as [|[field value] pre IH]; cbn [app encode_fields rbind].
  - now destruct (encode_fields boundary post).
  - destruct (encode_field boundary field value) as [part|e];
      cbn [rbind]; [|reflexivity].
    rewrite IH. destruct (encode_fields boundary pre) as [a|e];
      cbn [rbind]; [|reflexivity].
    destruct (encode_fields boundary post) as [b|e]; cbn [rbind];
      [|reflexivity].
    now rewrite app_assoc.
Qed.

Lemma crlf_lines_app (a b : list bytes) :
  crlf_lines (a ++ b) = crlf_lines a ++ crlf_lines b.
Proof. apply flat_map_app. Qed.

Lemma encode_field_lines boundary field value part :
  encode_field boundary field value = Ok part ->
  part = crlf_lines (part_lines boundary (field, value)).
Proof.
  unfold part_lines, crlf_lines. cbn [flat_map fst snd app].
  destruct value as [v|filename [b|s]]; cbn [encode_field file_bytes rbind].
  - intros [= <-]. unfold scalar_part, disposition_line.
    rewrite !encode_utf8_app, <- !app_assoc. cbn. reflexivity.
  - intros [= <-]. unfold file_head, disposition_line. cbn [content_of].
    rewrite !encode_utf8_app, <- !app_assoc. cbn.
    rewrite <- ?app_assoc. reflexivity.
  - unfold encode_ascii.
    destruct (forallb is_ascii (list_ascii_of_string s)); cbn [rbind];
      [|discriminate].
    intros [= <-]. unfold file_head, disposition_line. cbn [content_of].
    rewrite !encode_utf8_app, <- !app_assoc. cbn.
    rewrite <- ?app_assoc. reflexivity.
Qed.

Lemma encode_fields_lines boundary fields parts :
  encode_fields boundary fields = Ok parts ->
  parts = crlf_lines (flat_map (part_lines boundary) fields).
Proof.
  revert parts. induction fields as [|[field value] fields IH]; intros parts.
  - now intros [= <-].
  - cbn [encode_fields flat_map].
    destruct (encode_field boundary field value) as [part|] eqn:Hpart;
      [|discriminate].
    destruct (encode_fields boundary fields) as [rest|]; [|discriminate].
    cbn [rbind]. intros [= <-].
    now rewrite crlf_lines_app, (encode_field_lines _ _ _ _ Hpart), (IH rest).
Qed.

Lemma encode_fields_ascii boundary fields :
  Forall ascii_text fields -> exists parts, encode_fields boundary fields = Ok parts.
Proof.
  induction 1 as [|[field value] fields Hf _ (rest & Hrest)].
  - now exists [].
  - cbn [encode_fields]. rewrite Hrest.
    destruct value as [v|filename [b|s]];
      cbn [encode_field file_bytes rbind]; eauto.
    unfold encode_ascii. fold (encode_utf8 s).
    rewrite (Hf filename s eq_refl). cbn [rbind]. eauto.
Qed.

Lemma trailer_line boundary :
  trailer boundary = crlf_lines [closing_line boundary].
Proof.
  unfold trailer, closing_line, crlf_lines. cbn [flat_map].
  now rewrite !encode_utf8_app, <- !app_assoc, app_nil_r.
Qed.

Lemma encode_multipart_lines entropy fields body ct :
  encode_multipart_formdata entropy fields = Ok (body, ct) ->
  body = crlf_lines (body_lines (new_boundary entropy) fields).
Proof.
  unfold encode_multipart_formdata.
  destruct (encode_fields _ fields) as [parts|] eqn:Hparts; [|discriminate].
  cbn [rbind]. intros [= <- _]. unfold body_lines.
  now rewrite crlf_lines_app, <- trailer_line, (encode_fields_lines _ _ _ Hparts).
Qed.

(** C7. The body the encoder returns is, segment by segment and each
    followed by CR LF: for every field, in the iteration order of the
    fields, the delimiter "--" boundary, the disposition line with the
    field's name, an empty line and the content; then the closing delimiter
    "--" boundary "--". So the part of a field stands after the parts of all
    the fields before it and before those of the fields after it, and the
    encoder returns whenever every file opened in text mode is ASCII. The
    body of a file submission is, in full: the delimiter, the disposition of
    [_json], an empty line, the dump of {kind, interactive, profiles}, then
    the delimiter, the disposition of [file] with the filename, an empty
    line, the content of the file, then the closing delimiter. *)
Theorem multipart_fields_in_iteration_order :
  (forall entropy fields body ct,
     encode_multipart_formdata entropy fields = Ok (body, ct) ->
     body = crlf_lines (body_lines (new_boundary entropy) fields)
     /\ forall pre f post,
          fields = pre ++ f :: post ->
          body
          = crlf_lines (flat_map (part_lines (new_boundary entropy)) pre)
            ++ crlf_lines (part_lines (new_boundary entropy) f)
            ++ crlf_lines (flat_map (part_lines (new_boundary entropy)) post)
            ++ crlf_lines [closing_line (new_boundary entropy)])
  /\ (forall entropy fields,
        Forall ascii_text fields ->
        exists body ct, encode_multipart_formdata entropy fields = Ok (body, ct))
  /\ (forall sys_version json_loads json_dumps net self entropy filename
        file interactive profiles log content,
        file_bytes file = Ok content ->
        exists r,
          snd (submit_sample_file sys_version json_loads json_dumps net self
                 entropy filename file interactive profiles log)
          = log ++ [r]
          /\ method r = "POST"
          /\ full_url r = root_url self +:+ "/v0/samples"
          /\ data r
             = Some (BytesBody
                       (crlf_lines
                          [encode_utf8 ("--" +:+ new_boundary entropy);
                           encode_utf8 ("Content-Disposition: form-data;name="
                                        +:+ DQ +:+ "_json" +:+ DQ);
                           [];
                           encode_utf8
                             (json_dumps
                                (JObj [("kind", JStr "file");
                                       ("interactive", JBool interactive);
                                       ("profiles", profiles)]));
                           encode_utf8 ("--" +:+ new_boundary entropy);
                           encode_utf8
                             ("Content-Disposition: form-data; filename="
                              +:+ DQ +:+ filename +:+ DQ +:+ "; name="
                              +:+ DQ +:+ "file" +:+ DQ);
                           [];
                           content;
                           encode_utf8 ("--" +:+ new_boundary entropy
                                        +:+ "--")]))).
Proof.
  split; [|split].
  - intros entropy fields body ct Henc.
    pose proof (encode_multipart_lines _ _ _ _ Henc) as Hbody.
    split; [exact Hbody|]. intros pre f post ->. rewrite Hbody.
    unfold body_lines.
    rewrite flat_map_app. cbn [flat_map].
    now rewrite !crlf_lines_app, <- !app_assoc.
  - intros entropy fields Hascii. unfold encode_multipart_formdata.
    destruct (encode_fields_ascii (new_boundary entropy) fields Hascii)
      as (parts & ->).
    cbn [rbind]. eauto.
  - intros sys_version json_loads json_dumps net self entropy filename file
      interactive profiles log content Hfile.
    destruct (encode_multipart_formdata entropy
                (submit_fields json_dumps filename file interactive profiles))
      as [[body ct]|e] eqn:Henc.
    + pose proof (encode_multipart_lines _ _ _ _ Henc) as Hbody.
      pose proof (encode_multipart_content_type _ _ _ _ Henc) as Hct.
      subst ct.
      eexists. rewrite (submit_sample_file_open _ _ _ _ _ _ _ _ _ _ _ _ Henc).
      split; [apply open_json_log|]. repeat split.
      cbn [data add_header _new_request new_Request]. rewrite Hbody.
      unfold body_lines, submit_fields, part_lines, closing_line.
      cbn [flat_map app fst snd disposition_line content_of].
      destruct file as [b|s]; cbn [file_bytes] in Hfile.
      * now injection Hfile as ->.
      * unfold encode_ascii in Hfile.
        destruct (forallb is_ascii (list_ascii_of_string s)); [|discriminate].
        now injection Hfile as <-.
    + exfalso. unfold encode_multipart_formdata, submit_fields in Henc.
      cbn [encode_fields encode_field rbind] in Henc. rewrite Hfile in Henc.
      discriminate.
Qed.

(** C7 at a concrete input: three fields, and a submission of two bytes. *)
Lemma multipart_fields_in_iteration_order_witness :
  (exists body ct,
     encode_multipart_formdata zero_entropy
       [("a", Scalar "1"); ("b", Scalar "2"); ("c", Scalar "3")]
     = Ok (body, ct)
     /\ body
        = crlf_lines
            [encode_utf8 "--00000000000000000000000000000000";
             encode_utf8 ("Content-Disposition: form-data;name=" +:+ DQ +:+ "a"
                          +:+ DQ);
             []; encode_utf8 "1";
             encode_utf8 "--00000000000000000000000000000000";
             encode_utf8 ("Content-Disposition: form-data;name=" +:+ DQ +:+ "b"
                          +:+ DQ);
             []; encode_utf8 "2";
             encode_utf8 "--00000000000000000000000000000000";
             encode_utf8 ("Content-Disposition: form-data;name=" +:+ DQ +:+ "c"
                          +:+ DQ);
             []; encode_utf8 "3";
             encode_utf8 "--00000000000000000000000000000000--"])
  /\ exists r,
       snd (submit_sample_file demo_version Json.loads Json.dumps
              (net_const (Reply 200 (encode_utf8 "{}"))) demo_client
              zero_entropy "a.exe" (FileBytes (encode_utf8 "MZ")) false
              (JArr []) [])
       = [] ++ [r]
       /\ method r = "POST"
       /\ full_url r = root_url demo_client +:+ "/v0/samples"
       /\ data r
          = Some (BytesBody
                    (crlf_lines
                       [encode_utf8 ("--" +:+ new_boundary zero_entropy);
                        encode_utf8 ("Content-Disposition: form-data;name="
                                     +:+ DQ +:+ "_json" +:+ DQ);
                        [];
                        encode_utf8
                          (Json.dumps
                             (JObj [("kind", JStr "file");
                                    ("interactive", JBool false);
                                    ("profiles", JArr [])]));
                        encode_utf8 ("--" +:+ new_boundary zero_entropy);
                        encode_utf8
                          ("Content-Disposition: form-data; filename="
                           +:+ DQ +:+ "a.exe" +:+ DQ +:+ "; name="
                           +:+ DQ +:+ "file" +:+ DQ);
                        [];
                        encode_utf8 "MZ";
                        encode_utf8 ("--" +:+ new_boundary zero_entropy
                                     +:+ "--")])).
Proof.
  split.
  - destruct (proj1 (proj2 multipart_fields_in_iteration_order) zero_entropy
                [("a", Scalar "1"); ("b", Scalar "2"); ("c", Scalar "3")])
      as (body & ct & Henc).
    { repeat constructor; intros filename s; discriminate. }
    exists body, ct. split; [exact Henc|].
    exact (proj1 (proj1 multipart_fields_in_iteration_order _ _ _ _ Henc)).
  - apply (proj2 (proj2 multipart_fields_in_iteration_order)). reflexivity.
Defined.

(** ** Line-delimited streams *)

Section Streams.

Variable json_loads : bytes -> option json.

(** The log stream of [kernel_report] stops at the first blank entry:
    what follows it plays no part in the run. *)
Lemma kernel_entries_stop_at_blank pre blank post :
  is_nil (strip blank) = true ->
  kernel_entries json_loads (pre ++ blank :: post)
  = kernel_entries json_loads pre.
Proof.
  intros Hblank. induction pre as [|entry pre IH]; cbn [app kernel_entries].
  - now rewrite Hblank.
  - destruct (is_nil (strip entry)); [reflexivity|].
    destruct (json_loads entry); [|reflexivity]. now rewrite IH.
Qed.

Lemma kernel_entries_decoded pre vs blank post :
  Forall2 (fun entry v => is_nil (strip entry) = false
                          /\ json_loads entry = Some v) pre vs ->
  is_nil (strip blank) = true ->
  kernel_entries json_loads (pre ++ blank :: post) = (vs, None).
Proof.
  intros Hpre Hblank. rewrite kernel_entries_stop_at_blank by assumption.
  induction Hpre as [|entry v pre vs [Hne Hv] _ IH]; [reflexivity|].
  cbn [kernel_entries]. now rewrite Hne, Hv, IH.
Qed.

(** [sample_events] hands every line to the decoder, the blank one too:
    when the decoder rejects it, as [json.loads] does for a document
    without a value, the run ends there with the decoding error. *)
Lemma event_lines_blank_raises pre vs blank post :
  Forall2 (fun line v => json_loads line = Some v) pre vs ->
  json_loads blank = None ->
  event_lines json_loads (pre ++ blank :: post)
  = (vs, Some EJSONDecodeError).
Proof.
  intros Hpre Hblank.
  induction Hpre as [|line v pre vs Hv _ IH]; cbn [app event_lines].
  - now rewrite Hblank.
  - now rewrite Hv, IH.
Qed.

End Streams.

(** C1, evaluated on a stream of two events, a blank line and a third
    event. [sample_events] yields the two events and then raises the
    decoding error of the blank line, where the framing asks for a plain end
    of the sequence; on the same bytes the loop of [kernel_report] yields
    the two events and ends. Neither decodes the third event. *)
Theorem sample_events_blank_line_raises :
  fst (sample_events demo_version Json.loads
         (net_const (Reply 200 events_body)) demo_client
         "200923-hb5gvebega" [])
  = ([event "pending"; event "static_analysis"], Some EJSONDecodeError)
  /\ kernel_entries Json.loads (split_lf events_body)
     = ([event "pending"; event "static_analysis"], None).
Proof. split; vm_compute; reflexivity. Qed.

(** ** Paginator *)

Lemma take_cons_pos {A} (n : nat) (x : A) (l : list A) :
  0 < n -> take n (x :: l) = x :: take (n - 1) l.
Proof.
  destruct n as [|n]; [lia|]. intros _.
  replace (S n - 1) with n by lia. reflexivity.
Qed.

Section PaginatorOverListing.

Context {item : Type}.
Variable items : list item.
Variable page_size : nat.
Variable max : nat.
Hypothesis page_size_pos : 0 < page_size.

Let fetch := listing items page_size.

Lemma pg_at_eq k q buffer next :
  buffer = take (q * page_size + page_size - k) (drop k items) ->
  next = (if Nat.ltb (q * page_size + page_size) (length items)
          then Some (q * page_size + page_size) else None) ->
  {| pg_buffer := buffer; pg_cursor := next;
     pg_done := negb (bool_decide (is_Some next));
     pg_emitted := k; pg_requests := S q |}
  = pg_at items page_size k q.
Proof. intros -> ->. reflexivity. Qed.

Lemma pg_next_first :
  0 < length items -> 0 < max ->
  exists x,
    items = x :: drop 1 items
    /\ pg_next fetch max pg_init = (Some x, pg_at items page_size 1 0).
Proof.
  intros Hlen Hmax.
  destruct (lookup_lt_is_Some_2 items 0 Hlen) as [x Hx].
  pose proof (drop_S _ _ _ Hx) as Hdrop. rewrite drop_0 in Hdrop.
  exists x. split; [exact Hdrop|].
  unfold pg_next. cbn [pg_init pg_emitted pg_buffer pg_done].
  destruct (Nat.leb_spec max 0) as [|_]; [lia|].
  unfold fetch, listing. cbn [pg_cursor default page_data page_next].
  rewrite drop_0. rewrite Hdrop at 1.
  rewrite take_cons_pos by exact page_size_pos.
  reflexivity.
Qed.

Lemma pg_next_step k q :
  q * page_size < k <= q * page_size + page_size ->
  k < length items -> k < max ->
  exists q' x,
    q' * page_size < S k <= q' * page_size + page_size
    /\ drop k items = x :: drop (S k) items
    /\ pg_next fetch max (pg_at items page_size k q)
       = (Some x, pg_at items page_size (S k) q').
Proof.
  intros Hq Hk Hmax.
  destruct (lookup_lt_is_Some_2 items k Hk) as [x Hx].
  pose proof (drop_S _ _ _ Hx) as Hdrop.
  unfold pg_next. cbn [pg_at pg_emitted pg_buffer pg_done pg_cursor pg_requests].
  destruct (Nat.leb_spec max k) as [|_]; [lia|].
  destruct (Nat.eq_dec k (q * page_size + page_size)) as [Hedge|Hin].
  - (* the page is used up: the next one is fetched *)
    exists (S q), x. split; [cbn [Nat.mul]; lia|]. split; [exact Hdrop|].
    replace (q * page_size + page_size - k) with 0 by lia. rewrite take_0.
    destruct (Nat.ltb_spec (q * page_size + page_size) (length items)) as [_|];
      [|lia].
    cbn [negb bool_decide]. 
    rewrite bool_decide_eq_true_2 by eauto. cbn [negb].
    unfold fetch, listing. cbn [default page_data page_next]. unfold id.
    rewrite <- Hedge, Hdrop.
    rewrite take_cons_pos by exact page_size_pos.
    f_equal. apply pg_at_eq.
    + f_equal. cbn [Nat.mul]. lia.
    + replace (S q * page_size + page_size) with (k + page_size)
        by (cbn [Nat.mul]; lia).
      reflexivity.
  - (* the next item is in the buffer *)
    exists q, x. split; [lia|]. split; [exact Hdrop|].
    rewrite Hdrop.
    rewrite take_cons_pos by lia.
    f_equal. apply pg_at_eq; [f_equal; lia | reflexivity].
Qed.

Lemma pg_next_end k q :
  q * page_size < k <= q * page_size + page_size ->
  k = Nat.min (length items) max ->
  pg_next fetch max (pg_at items page_size k q)
  = (None, pg_at items page_size k q).
Proof.
  intros Hq Hk. unfold pg_next.
  cbn [pg_at pg_emitted pg_buffer pg_done pg_cursor].
  destruct (Nat.leb_spec max k) as [|Hlt]; [reflexivity|].
  assert (k = length items) as HN by lia.
  rewrite drop_ge by lia. rewrite take_nil.
  destruct (Nat.ltb_spec (q * page_size + page_size) (length items)); [lia|].
  reflexivity.
Qed.

Lemma pg_drain_from fuel m k q :
  m = Nat.min (length items) max ->
  q * page_size < k <= q * page_size + page_size ->
  k <= m -> m - k < fuel ->
  exists q',
    q' * page_size < m <= q' * page_size + page_size
    /\ pg_drain fetch max fuel (pg_at items page_size k q)
       = (take (m - k) (drop k items), pg_at items page_size m q').
Proof.
  intros Hm. revert k q.
  induction fuel as [|fuel IH]; intros k q Hq Hk Hfuel; [lia|].
  cbn [pg_drain].
  destruct (Nat.eq_dec k m) as [->|Hne].
  - exists q. split; [exact Hq|].
    rewrite (pg_next_end _ _ Hq Hm). now rewrite Nat.sub_diag.
  - destruct (pg_next_step k q Hq) as (q' & x & Hq' & Hdrop & Hnext); [lia..|].
    rewrite Hnext.
    destruct (IH (S k) q' Hq') as (q'' & Hq'' & Hrest); [lia..|].
    exists q''. split; [exact Hq''|]. rewrite Hrest.
    replace (m - k) with (S (m - S k)) by lia.
    now rewrite Hdrop.
Qed.

Lemma ceil_div_page m q :
  q * page_size < m <= q * page_size + page_size ->
  ceil_div m page_size = S q.
Proof.
  intros Hq. unfold ceil_div. symmetry.
  apply (Nat.div_unique _ _ _ (m - 1 - q * page_size)); lia.
Qed.

End PaginatorOverListing.

Lemma expected_requests_pos n page_size max :
  0 < n -> 0 < max ->
  expected_requests n page_size max = ceil_div (Nat.min n max) page_size.
Proof. destruct n, max; intros; try lia; reflexivity. Qed.

(** C9, at an empty listing: with [max = 5] the Paginator yields nothing
    and has issued one page request, where ceil(observed_items / page_size)
    is ceil(0 / 10) = 0. *)
Lemma paginator_empty_listing_one_request :
  fst (pg_run (listing (@nil nat) 10) 5) = []
  /\ pg_requests (snd (pg_run (listing (@nil nat) 10) 5)) = 1
  /\ ceil_div (length (fst (pg_run (listing (@nil nat) 10) 5))) 10 = 0
  /\ pg_requests (snd (pg_run (listing (@nil nat) 10) 5))
     <> ceil_div (length (fst (pg_run (listing (@nil nat) 10) 5))) 10.
Proof. repeat split; vm_compute; congruence. Qed.

(** C9, amended. Over a listing of N items served [page_size > 0] at a
    time, a Paginator with cap [max] yields the first min(N, max) items in
    the order of the listing and then ends; it issues no request when
    [max = 0], one request when the listing is empty and [max > 0], and
    ceil(min(N, max) / page_size) requests otherwise. *)
Theorem paginator_yields_min_items {item : Type} (items : list item)
    (page_size max : nat) :
  0 < page_size ->
  fst (pg_run (listing items page_size) max) = take max items
  /\ length (fst (pg_run (listing items page_size) max))
     = Nat.min (length items) max
  /\ pg_requests (snd (pg_run (listing items page_size) max))
     = expected_requests (length items) page_size max
  /\ pg_next (listing items page_size) max
       (snd (pg_run (listing items page_size) max))
     = (None, snd (pg_run (listing items page_size) max))
  /\ (max = 0 -> pg_run (listing items page_size) max = ([], pg_init)).
Proof.
  intros Hps.
  assert (length (take max items) = Nat.min (length items) max) as Hlen
    by (rewrite length_take; lia).
  destruct max as [|max'] eqn:Hmax.
  { repeat split; vm_compute; reflexivity || (destruct items; reflexivity). }
  rewrite <- Hmax in *.
  assert (0 < max) as Hpos by lia.
  destruct (Nat.eq_dec (length items) 0) as [Hnil|Hne].
  { destruct items; [|discriminate].
    assert (pg_run (listing (@nil item) page_size) max
            = ([], {| pg_buffer := []; pg_cursor := None; pg_done := true;
                      pg_emitted := 0; pg_requests := 1 |})) as ->.
    { rewrite Hmax. unfold pg_run. cbn [pg_drain]. unfold pg_next.
      cbn [pg_init pg_emitted pg_buffer pg_done pg_cursor Nat.leb].
      unfold listing. cbn [page_data default drop length].
      now rewrite take_nil. }
    cbn [fst snd]. rewrite take_nil. repeat split; try (rewrite Hmax; reflexivity).
    lia. }
  unfold pg_run. cbn [pg_drain].
  destruct (pg_next_first items page_size max Hps) as (x & Hx & ->); [lia..|].
  destruct (pg_drain_from items page_size max Hps max
              (Nat.min (length items) max) 1 0 eq_refl)
    as (q & Hq & ->); [cbn [Nat.mul]; lia | lia | lia |].
  cbn [fst snd].
  assert (x :: take (Nat.min (length items) max - 1) (drop 1 items)
          = take max items) as Htake.
  { transitivity (take max (x :: drop 1 items)); [|now rewrite <- Hx].
    rewrite take_cons_pos by lia.
    destruct (Nat.le_ge_cases max (length items)) as [Hle|Hge].
    - now rewrite Nat.min_r by exact Hle.
    - rewrite Nat.min_l by exact Hge.
      rewrite (take_ge (drop 1 items)); [|rewrite length_drop; lia].
      f_equal. symmetry. apply take_ge. rewrite length_drop. lia. }
  rewrite Htake. split; [reflexivity|]. split; [exact Hlen|]. split.
  - cbn [pg_at pg_requests].
    rewrite expected_requests_pos by lia.
    symmetry. now apply ceil_div_page.
  - split; [|lia]. now apply pg_next_end.
Qed.

(** C9 amended, at a concrete input: five items, pages of two, cap three. *)
Lemma paginator_yields_min_items_witness :
  fst (pg_run (listing [10; 20; 30; 40; 50] 2) 3) = [10; 20; 30]
  /\ pg_requests (snd (pg_run (listing [10; 20; 30; 40; 50] 2) 3)) = 2.
Proof.
  destruct (paginator_yields_min_items [10; 20; 30; 40; 50] 2 3
              ltac:(lia)) as (H1 & _ & H3 & _).
  split; [exact H1 | exact H3].
Defined.

(** ** Reading back what the encoder wrote *)

Lemma starts_with_app p s : starts_with p (p ++ s) = Some s.
Proof.
  induction p as [|a p IH]; [now destruct s|].
  cbn [app starts_with]. now rewrite Ascii.eqb_refl.
Qed.

Lemma starts_with_head_differs a b p s :
  differs a b = true -> starts_with (a :: p) (b :: s) = None.
Proof.
  unfold differs. intros H. cbn [starts_with].
  rewrite Ascii.eqb_sym. now apply negb_true_iff in H as ->.
Qed.

(** A match that starts in [x] and ends in [y] either lies in [x] or cuts
    the pattern in two at the end of [x]. *)
Lemma starts_with_across p x y r :
  starts_with p (x ++ y) = Some r ->
  (exists r', starts_with p x = Some r')
  \/ (exists q, p = x ++ q /\ starts_with q y = Some r).
Proof.
  revert p. induction x as [|c x IH]; intros p H.
  - right. now exists p.
  - destruct p as [|a p]; [left; now exists (c :: x)|].
    cbn [app starts_with] in *.
    destruct (Ascii.eqb_spec a c) as [->|]; [|discriminate].
    destruct (IH p H) as [[r' Hr']|(q & -> & Hq)]; [left; eauto|].
    right. now exists q.
Qed.

Lemma infixb_cons pat c a :
  infixb pat (c :: a) = false ->
  starts_with pat (c :: a) = None /\ infixb pat a = false.
Proof.
  cbn [infixb]. destruct (starts_with pat (c :: a)); [discriminate|]. auto.
Qed.

Lemma forallb_differs_In c l :
  forallb (differs c) l = true -> ~ In c l.
Proof.
  intros H Hin. rewrite forallb_forall in H. specialize (H c Hin).
  unfold differs in H. now rewrite Ascii.eqb_refl in H.
Qed.

(** The first occurrence of a pattern whose first byte does not come back
    in it is the one written after a text that is free of the pattern. *)
Lemma split_at_free c0 pat' a b :
  forallb (differs c0) pat' = true ->
  infixb (c0 :: pat') a = false ->
  split_at (c0 :: pat') (a ++ (c0 :: pat') ++ b) = Some (a, b).
Proof.
  intros Hc0 Hfree. induction a as [|c a IH].
  - cbn [app split_at].
    change (c0 :: pat' ++ b) with ((c0 :: pat') ++ b).
    now rewrite starts_with_app.
  - apply infixb_cons in Hfree as [Hhere Hfree].
    change ((c :: a) ++ (c0 :: pat') ++ b)
      with (c :: (a ++ (c0 :: pat') ++ b)).
    cbn [split_at].
    destruct (starts_with (c0 :: pat') (c :: a ++ (c0 :: pat') ++ b))
      as [r|] eqn:Hm.
    + exfalso.
      change (c :: a ++ (c0 :: pat') ++ b)
        with ((c :: a) ++ ((c0 :: pat') ++ b)) in Hm.
      apply starts_with_across in Hm as [[r' Hr']|(q & Hq & Hm)];
        [congruence|].
      destruct q as [|d q].
      * rewrite app_nil_r in Hq. rewrite Hq in Hhere.
        pose proof (starts_with_app (c :: a) []) as H.
        rewrite app_nil_r in H. congruence.
      * cbn [app starts_with] in Hm.
        destruct (Ascii.eqb_spec d c0) as [->|]; [|discriminate].
        injection Hq as _ Hq.
        apply (forallb_differs_In _ _ Hc0). rewrite Hq.
        apply in_or_app. right. now left.
    + now rewrite (IH Hfree).
Qed.

(** A pattern is first found after a text that lacks its first byte. *)
Lemma split_at_fresh c0 pat' a b :
  forallb (differs c0) a = true ->
  split_at (c0 :: pat') (a ++ (c0 :: pat') ++ b) = Some (a, b).
Proof.
  intros Ha. induction a as [|c a IH].
  - cbn [app split_at].
    change (c0 :: pat' ++ b) with ((c0 :: pat') ++ b).
    now rewrite starts_with_app.
  - cbn [forallb] in Ha. apply andb_true_iff in Ha as [Hc Ha].
    change ((c :: a) ++ (c0 :: pat') ++ b)
      with (c :: (a ++ (c0 :: pat') ++ b)).
    cbn [split_at]. rewrite starts_with_head_differs.
    + now rewrite (IH Ha).
    + exact Hc.
Qed.

Lemma split_crlf_one_line s :
  forallb (differs CR) s = true -> split_crlf s = [s].
Proof.
  induction s as [|c s IH]; [reflexivity|].
  cbn [forallb]. intros [Hc Hs]%andb_true_iff.
  cbn [split_crlf]. unfold CRLF. cbn [encode_utf8 list_ascii_of_string].
  rewrite starts_with_head_differs.
  - now rewrite (IH Hs).
  - exact Hc.
Qed.

(** ** The header line *)

Lemma clean_name_spec s :
  clean_name s = true ->
  forallb (differs DQc) (encode_utf8 s) = true
  /\ forallb (differs BSc) (encode_utf8 s) = true
  /\ forallb (differs CR) (encode_utf8 s) = true.
Proof.
  unfold clean_name. induction (encode_utf8 s) as [|c l IH]; [auto|].
  cbn [forallb]. intros [Hc Hl]%andb_true_iff.
  destruct (IH Hl) as (H1 & H2 & H3). rewrite H1, H2, H3.
  unfold differs.
  destruct (Ascii.eqb c DQc), (Ascii.eqb c BSc), (Ascii.eqb c CR);
    try discriminate; auto.
Qed.

(** Between its quotes a clean value is read byte for byte. *)
Lemma params_from_quoted k v acc text s :
  forallb (differs DQc) text = true ->
  forallb (differs BSc) text = true ->
  params_from (PQuoted k v) acc (text ++ s)
  = params_from (PQuoted k (rev text ++ v)) acc s.
Proof.
  revert v. induction text as [|c text IH]; intros v Hq Hb; [reflexivity|].
  cbn [forallb] in Hq, Hb.
  apply andb_true_iff in Hq as [Hc1 Hq]. apply andb_true_iff in Hb as [Hc2 Hb].
  unfold differs in Hc1, Hc2.
  apply negb_true_iff in Hc1. apply negb_true_iff in Hc2.
  cbn [app params_from]. rewrite Hc1, Hc2.
  rewrite (IH _ Hq Hb). cbn [rev]. now rewrite <- app_assoc.
Qed.

Lemma bytes_eqb_refl a : bytes_eqb a a = true.
Proof.
  induction a as [|c a IH]; [reflexivity|].
  cbn [bytes_eqb]. now rewrite Ascii.eqb_refl.
Qed.

Lemma disposition_scalar field v :
  clean_name field = true ->
  disposition (header_of field (Scalar v)) = Some (encode_utf8 field, None).
Proof.
  intros (Hq & Hb & _)%clean_name_spec.
  unfold disposition, header_of. simpl.
  rewrite (params_from_quoted _ _ _ _ _ Hq Hb). simpl.
  now rewrite app_nil_r, rev_involutive.
Qed.

Lemma disposition_upload field filename file :
  clean_name field = true -> clean_name filename = true ->
  disposition (header_of field (Upload filename file))
  = Some (encode_utf8 field, Some (encode_utf8 filename)).
Proof.
  intros (Hq & Hb & _)%clean_name_spec (Hq' & Hb' & _)%clean_name_spec.
  unfold disposition, header_of. simpl.
  rewrite (params_from_quoted _ _ _ _ _ Hq' Hb'). simpl.
  rewrite (params_from_quoted _ _ _ _ _ Hq Hb). simpl.
  now rewrite !app_nil_r, !rev_involutive.
Qed.

Lemma header_of_no_CR field value :
  field_names_clean (field, value) = true ->
  forallb (differs CR) (header_of field value) = true.
Proof.
  unfold field_names_clean. cbn [fst snd].
  intros [Hf Hv]%andb_true_iff.
  apply clean_name_spec in Hf as (_ & _ & Hf).
  destruct value as [v|filename file]; unfold header_of.
  - rewrite !forallb_app, Hf. reflexivity.
  - apply clean_name_spec in Hv as (_ & _ & Hv).
    rewrite !forallb_app, Hf, Hv. reflexivity.
Qed.

Lemma parse_head_header_of field value :
  field_names_clean (field, value) = true ->
  parse_head (header_of field value)
  = Some (part_name (part_of (field, value)),
          part_filename (part_of (field, value))).
Proof.
  intros Hclean. unfold parse_head.
  rewrite (split_crlf_one_line _ (header_of_no_CR _ _ Hclean)).
  cbn [first_some]. unfold field_names_clean in Hclean. cbn [fst snd] in Hclean.
  apply andb_true_iff in Hclean as [Hf Hv].
  destruct value as [v|filename file].
  - now rewrite (disposition_scalar _ _ Hf).
  - now rewrite (disposition_upload _ _ _ Hf Hv).
Qed.

(** ** The body *)

Section Body.

Variable boundary : string.
Hypothesis boundary_no_CR : forallb (differs CR) (encode_utf8 boundary) = true.

Let delim : bytes := encode_utf8 ("--" +:+ boundary).

Lemma delimiter_bytes :
  encode_utf8 (CRLF +:+ "--" +:+ boundary) = CR :: LF :: delim.
Proof. reflexivity. Qed.

Lemma delimiter_tail_no_CR : forallb (differs CR) (LF :: delim) = true.
Proof.
  unfold delim. rewrite encode_utf8_app. cbn [forallb].
  rewrite forallb_app, boundary_no_CR. reflexivity.
Qed.

Lemma file_bytes_content filename file b :
  file_bytes file = Ok b -> b = field_content (Upload filename file).
Proof.
  destruct file as [b'|s]; cbn [file_bytes field_content].
  - congruence.
  - unfold encode_ascii, encode_utf8.
    destruct (forallb is_ascii (list_ascii_of_string s)); congruence.
Qed.

Lemma encode_field_bytes field value part :
  encode_field boundary field value = Ok part ->
  part = delim ++ encode_utf8 CRLF ++ header_of field value
         ++ encode_utf8 (CRLF +:+ CRLF) ++ field_content value
         ++ encode_utf8 CRLF.
Proof.
  destruct value as [v|filename file]; cbn [encode_field].
  - intros [= <-]. unfold scalar_part, header_of, delim, DQ.
    rewrite !encode_utf8_app. cbn [field_content].
    rewrite <- !app_assoc. reflexivity.
  - destruct (file_bytes file) as [b|] eqn:Hb; [|discriminate].
    cbn [rbind]. intros [= <-]. rewrite (file_bytes_content filename _ _ Hb).
    unfold file_head, header_of, delim, DQ.
    rewrite !encode_utf8_app. rewrite <- !app_assoc. reflexivity.
Qed.

Lemma encode_fields_bytes fields body :
  encode_fields boundary fields = Ok body ->
  body ++ trailer boundary = delim ++ after_delimiter delim fields.
Proof.
  revert body. induction fields as [|[field value] fields IH]; intros body.
  - intros [= <-]. unfold trailer, delim. cbn [after_delimiter app].
    now rewrite !encode_utf8_app, <- !app_assoc.
  - cbn [encode_fields].
    destruct (encode_field boundary field value) as [part|] eqn:Hpart;
      [|discriminate].
    destruct (encode_fields boundary fields) as [rest|]; [|discriminate].
    cbn [rbind]. intros [= <-].
    rewrite (encode_field_bytes _ _ _ Hpart). cbn [after_delimiter].
    rewrite <- !app_assoc. rewrite (IH rest eq_refl).
    rewrite <- ?app_assoc. reflexivity.
Qed.

Lemma parse_parts_field fuel field value rest :
  field_names_clean (field, value) = true ->
  field_free boundary (field, value) = true ->
  parse_parts (S fuel) delim (after_delimiter delim ((field, value) :: rest))
  = match parse_parts fuel delim (after_delimiter delim rest) with
    | Some ps => Some (part_of (field, value) :: ps)
    | None => None
    end.
Proof.
  intros Hclean Hfree. cbn [after_delimiter parse_parts].
  change (encode_utf8 CRLF) with [CR; LF].
  change (encode_utf8 (CRLF +:+ CRLF)) with [CR; LF; CR; LF].
  change (encode_utf8 "--") with ["-"%char; "-"%char].
  cbn [app starts_with]. 
  change (Ascii.eqb "-" CR) with false.
  rewrite !Ascii.eqb_refl.
  change (header_of field value ++ CR :: LF :: CR :: LF :: ?x)
    with (header_of field value ++ [CR; LF; CR; LF] ++ x).
  rewrite (split_at_fresh CR [LF; CR; LF]) by now apply header_of_no_CR.
  change (field_content value ++ CR :: LF :: delim ++ ?x)
    with (field_content value ++ (CR :: LF :: delim) ++ x).
  rewrite (split_at_free CR (LF :: delim)).
  - rewrite (parse_head_header_of _ _ Hclean).
    destruct (parse_parts fuel delim _); reflexivity.
  - apply delimiter_tail_no_CR.
  - unfold field_free in Hfree. cbn [snd] in Hfree.
    rewrite delimiter_bytes in Hfree. now apply negb_true_iff in Hfree.
Qed.

Lemma parse_parts_fields fuel fields :
  forallb field_names_clean fields = true ->
  forallb (field_free boundary) fields = true ->
  length fields < fuel ->
  parse_parts fuel delim (after_delimiter delim fields)
  = Some (map part_of fields).
Proof.
  revert fuel. induction fields as [|[field value] fields IH];
    intros fuel Hclean Hfree Hfuel.
  - destruct fuel as [|fuel]; [cbn [length] in Hfuel; lia|]. reflexivity.
  - cbn [forallb] in Hclean, Hfree.
    apply andb_true_iff in Hclean as [Hc Hclean].
    apply andb_true_iff in Hfree as [Hf Hfree].
    destruct fuel as [|fuel]; [cbn [length] in Hfuel; lia|].
    rewrite (parse_parts_field _ _ _ _ Hc Hf).
    rewrite IH; [reflexivity|assumption|assumption|cbn [length] in Hfuel; lia].
Qed.

Lemma after_delimiter_length fields :
  length fields < length (after_delimiter delim fields).
Proof.
  induction fields as [|[field value] fields IH].
  - cbn [after_delimiter length].
    change (length (encode_utf8 ("--" +:+ CRLF))) with 4. lia.
  - cbn [after_delimiter length]. rewrite !length_app. cbn [length] in *.
    change (length (encode_utf8 CRLF)) with 2. lia.
Qed.

Lemma parse_encoded fields body :
  encode_fields boundary fields = Ok body ->
  forallb field_names_clean fields = true ->
  forallb (field_free boundary) fields = true ->
  parse_multipart boundary (body ++ trailer boundary)
  = Some (map part_of fields).
Proof.
  intros Henc Hclean Hfree. unfold parse_multipart. fold delim.
  rewrite (encode_fields_bytes _ _ Henc), starts_with_app.
  apply parse_parts_fields; [assumption..|].
  rewrite length_app. pose proof (after_delimiter_length fields). lia.
Qed.

End Body.

(** ** The boundary *)

Lemma hex_digit_no_CR n : differs CR (hex_digit n) = true.
Proof.
  do 16 (destruct n as [|n]; [reflexivity|]). destruct n; reflexivity.
Qed.

Lemma hexlify_no_CR b : forallb (differs CR) (hexlify b) = true.
Proof.
  unfold hexlify. induction b as [|c b IH]; [reflexivity|].
  cbn [flat_map app forallb]. now rewrite !hex_digit_no_CR, IH.
Qed.

Lemma new_boundary_no_CR entropy :
  forallb (differs CR) (encode_utf8 (new_boundary entropy)) = true.
Proof.
  unfold new_boundary, encode_utf8.
  rewrite list_ascii_of_string_of_list_ascii. apply hexlify_no_CR.
Qed.

Lemma boundary_of_content_type boundary :
  boundary_of ("multipart/form-data; boundary=" +:+ boundary) = Some boundary.
Proof.
  unfold boundary_of. rewrite encode_utf8_app, starts_with_app.
  unfold encode_utf8. now rewrite string_of_list_ascii_of_string.
Qed.

(** C4, as stated, fails on two inputs. A double quote in the filename is
    written unescaped and the header no longer reads back; a file that
    contains the closing delimiter is cut there and comes back as its first
    two bytes. *)
Lemma multipart_round_trip_fails :
  round_trip zero_entropy quoted_fields = None
  /\ round_trip zero_entropy quoted_fields <> Some (map part_of quoted_fields)
  /\ option_map (map part_content) (round_trip zero_entropy colliding_fields)
     = Some [encode_utf8 ("{" +:+ json_pair "kind" "file" +:+ "}");
             encode_utf8 "MZ"]
  /\ round_trip zero_entropy colliding_fields
     <> Some (map part_of colliding_fields).
Proof.
  split; [vm_compute; reflexivity|]. split; [vm_compute; discriminate|].
  split; [vm_compute; reflexivity|]. vm_compute. discriminate.
Qed.

(** C4, amended. When the field names and the filename hold no double
    quote, backslash, CR or LF, and no value or file content contains the
    delimiter CRLF "--" boundary, then reading the encoded body with the
    boundary of the returned content type gives back, in order, the name of
    every field, its filename when it is an upload, and its value. *)
Theorem multipart_round_trip (entropy : bytes)
    (fields : list (string * field_value)) (body : bytes) (ct : string) :
  encode_multipart_formdata entropy fields = Ok (body, ct) ->
  forallb field_names_clean fields = true ->
  forallb (field_free (new_boundary entropy)) fields = true ->
  boundary_of ct = Some (new_boundary entropy)
  /\ parse_multipart (new_boundary entropy) body = Some (map part_of fields)
  /\ round_trip entropy fields = Some (map part_of fields).
Proof.
  intros Henc Hclean Hfree.
  assert (boundary_of ct = Some (new_boundary entropy)
          /\ parse_multipart (new_boundary entropy) body
             = Some (map part_of fields)) as [Hb Hp].
  { unfold encode_multipart_formdata in Henc.
    destruct (encode_fields (new_boundary entropy) fields) as [parts|] eqn:Hparts;
      [|discriminate].
    cbn [rbind] in Henc. injection Henc as <- <-.
    split; [apply boundary_of_content_type|].
    now apply parse_encoded; [apply new_boundary_no_CR|..]. }
  repeat split; [exact Hb | exact Hp |].
  unfold round_trip. now rewrite Henc, Hb.
Qed.

(** C4 amended, at the fields of the property: a [_json] scalar and the
    file a.exe. *)
Lemma multipart_round_trip_witness :
  round_trip zero_entropy sample_fields = Some (map part_of sample_fields).
Proof.
  refine (proj2 (proj2 (multipart_round_trip zero_entropy sample_fields
                          (match encode_multipart_formdata zero_entropy
                                   sample_fields with
                           | Ok (b, _) => b
                           | Raise _ => []
                           end)
                          ("multipart/form-data; boundary="
                           +:+ new_boundary zero_entropy) _ _ _)));
    vm_compute; reflexivity.
Defined.

(** * Further properties of the client *)

(** ** The root url *)

Lemma string_of_list_ascii_app (a b : bytes) :
  string_of_list_ascii (a ++ b)
  = string_of_list_ascii a +:+ string_of_list_ascii b.
Proof. induction a as [|c a IH]; cbn; [reflexivity|]. now rewrite IH. Qed.

Lemma lstrip_by_split {A} (p : A -> bool) (l : list A) :
  exists pre, l = pre ++ lstrip_by p l /\ forallb p pre = true.
Proof.
  induction l as [|c l (pre & Hl & Hpre)]; [now exists []|].
  cbn [lstrip_by]. destruct (p c) eqn:Hc.
  - exists (c :: pre). cbn [app forallb]. rewrite Hc, Hpre. now rewrite <- Hl.
  - now exists [].
Qed.

Lemma lstrip_by_head {A} (p : A -> bool) (l : list A) c rest :
  lstrip_by p l = c :: rest -> p c = false.
Proof.
  induction l as [|d l IH]; [discriminate|].
  cbn [lstrip_by]. destruct (p d) eqn:Hd; [exact IH|]. now intros [= <- _].
Qed.

Lemma forallb_eqb_repeat (c : ascii) (l : bytes) :
  forallb (Ascii.eqb c) l = true -> l = repeat c (length l).
Proof.
  induction l as [|d l IH]; [reflexivity|].
  cbn [forallb]. intros [Hd Hl]%andb_true_iff.
  apply Ascii.eqb_eq in Hd as <-. cbn [length repeat]. now rewrite <- IH.
Qed.

(** X1. [Client.__init__] removes the slashes at the end of the root url and
    nothing else: the url given is the stored one followed by slashes only,
    the stored one does not end with a slash, and the token is kept. *)
Theorem Client_init_root_url (tok url : string) :
  (exists n,
     url = root_url (Client_init tok url)
           +:+ string_of_list_ascii (repeat "/"%char n))
  /\ (forall s, root_url (Client_init tok url) <> s +:+ "/")
  /\ token (Client_init tok url) = tok.
Proof.
  cbn [Client_init root_url token]. unfold rstrip_slash, rstrip_by.
  destruct (lstrip_by_split (Ascii.eqb "/") (rev (list_ascii_of_string url)))
    as (pre & Hsplit & Hpre).
  split; [|split; [|reflexivity]].
  - exists (length pre).
    rewrite <- (string_of_list_ascii_of_string url) at 1.
    rewrite <- (rev_involutive (list_ascii_of_string url)), Hsplit at 1.
    rewrite rev_app_distr, string_of_list_ascii_app. f_equal. f_equal.
    rewrite (forallb_eqb_repeat _ _ Hpre) at 1.
    now rewrite rev_repeat.
  - intros s Hs.
    apply (f_equal list_ascii_of_string) in Hs.
    rewrite list_ascii_of_string_of_list_ascii in Hs.
    change (list_ascii_of_string (s +:+ "/")) with (encode_utf8 (s +:+ "/")) in Hs.
    rewrite encode_utf8_app in Hs.
    apply (f_equal (@rev ascii)) in Hs.
    rewrite rev_involutive, rev_app_distr in Hs. cbn [encode_utf8 list_ascii_of_string rev app] in Hs.
    now apply lstrip_by_head in Hs.
Qed.

(** ** One attempt per call *)

Section Attempts.

Variable sys_version : string.
Variable json_loads : bytes -> option json.
Variable json_dumps : json -> string.
Variable net : list Request -> Request -> reply.
Variable self : Client.

Lemma sample_events_log sample_id log :
  snd (sample_events sys_version json_loads net self sample_id log)
  = log ++ [events_request sys_version self sample_id].
Proof.
  unfold sample_events. fold (events_request sys_version self sample_id).
  pose proof (urlopen_log net (events_request sys_version self sample_id) log)
    as H.
  destruct (urlopen _ _ _) as [[b|e] l]; exact H.
Qed.

Lemma submit_sample_file_log entropy filename file interactive profiles log :
  exists sent,
    snd (submit_sample_file sys_version json_loads json_dumps net self entropy
           filename file interactive profiles log) = log ++ sent
    /\ match file_bytes file with
       | Ok _ => length sent = 1
       | Raise _ => length sent = 0
       end.
Proof.
  unfold submit_sample_file, encode_multipart_formdata, submit_fields.
  cbn [encode_fields encode_field rbind].
  destruct (file_bytes file) as [b|e]; cbn [rbind].
  - eexists. split; [apply open_json_log|reflexivity].
  - exists []. now rewrite app_nil_r.
Qed.

Lemma create_profile_log name tags network timeout log :
  snd (create_profile sys_version json_loads json_dumps net self name tags
         network timeout log)
  = log ++ [json_request sys_version json_dumps self "POST" "/v0/profiles"
              (Some (JObj [("name", JStr name); ("tags", tags);
                           ("network", network); ("timeout", timeout)]))].
Proof. unfold create_profile. apply _req_json_log. Qed.

End Attempts.

(** X2. No operation retries. Whatever the remote end answers, building a
    Paginator sends nothing, [kernel_report] sends one or two requests, a
    file submission sends one request (none when the file cannot be
    encoded), and every other operation sends exactly one. *)
Theorem one_attempt_per_call
    (sys_version : string) (json_loads : bytes -> option json)
    (json_dumps : json -> string) (net : list Request -> Request -> reply)
    (self : Client) (o : op) (log : list Request) :
  exists sent,
    op_log sys_version json_loads json_dumps net self o log = log ++ sent
    /\ request_count o (length sent).
Proof.
  assert (forall meth path d,
            exists sent,
              snd (_req_json sys_version json_loads json_dumps net self meth
                     path d log) = log ++ sent /\ length sent = 1) as Hjson.
  { intros. eexists. split; [apply _req_json_log|reflexivity]. }
  assert (forall meth path,
            exists sent,
              snd (_req_file sys_version net self meth path log) = log ++ sent
              /\ length sent = 1) as Hfile.
  { intros. eexists. split; [apply urlopen_log|reflexivity]. }
  destruct o; cbn [op_log request_count];
    try apply Hjson; try apply Hfile;
    try (exists []; split; [now rewrite app_nil_r | reflexivity]).
  - apply submit_sample_file_log.
  - destruct (kernel_report_log sys_version json_loads json_dumps net self
                sample_id task_id log) as [H|[file H]];
      eexists; (split; [exact H|]); cbn [length]; auto.
  - eexists. split; [apply sample_events_log|reflexivity].
Qed.

(** ** The outcome of a JSON call *)

(** X3. A JSON call answered with a 2xx status returns the decoded body, and
    raises the decoding error when the body is not JSON (an empty body, for
    one); a call that gets no answer raises the URLError of the transport.
    Neither case produces a ServerError. *)
Theorem json_call_outcome
    (sys_version : string) (json_loads : bytes -> option json)
    (json_dumps : json -> string) (net : list Request -> Request -> reply)
    (self : Client) (meth path : string) (d : option json)
    (log : list Request) :
  (forall code body,
     net log (json_request sys_version json_dumps self meth path d)
       = Reply code body ->
     is_2xx code = true ->
     fst (_req_json sys_version json_loads json_dumps net self meth path d log)
     = match json_loads body with
       | Some v => Ok v
       | None => Raise EJSONDecodeError
       end)
  /\ (net log (json_request sys_version json_dumps self meth path d) = NoReply ->
      fst (_req_json sys_version json_loads json_dumps net self meth path d log)
      = Raise EURLError).
Proof.
  rewrite _req_json_open. unfold open_json, urlopen. split.
  - intros code body -> ->. reflexivity.
  - intros ->. reflexivity.
Qed.

(** X3 at a concrete input: a 204 with an empty body on a delete. *)
Lemma json_call_outcome_witness :
  fst (delete_sample demo_version Json.loads Json.dumps
         (net_const (Reply 204 [])) demo_client "200923-hb5gvebega" [])
  = Raise EJSONDecodeError.
Proof.
  exact (proj1 (json_call_outcome demo_version Json.loads Json.dumps
                  (net_const (Reply 204 [])) demo_client "DELETE"
                  "/v0/samples/200923-hb5gvebega" None [])
           204%Z [] eq_refl eq_refl).
Defined.

(** ** Text-mode files *)

(** X4. A file opened in text mode is sent as its ASCII encoding. When it
    holds a byte above 127 the submission raises UnicodeEncodeError and
    sends no request; when it is ASCII the submission behaves as for the
    same content read in binary mode. *)
Theorem submit_text_mode_file
    (sys_version : string) (json_loads : bytes -> option json)
    (json_dumps : json -> string) (net : list Request -> Request -> reply)
    (self : Client) (entropy : bytes) (filename text : string)
    (interactive : bool) (profiles : json) (log : list Request) :
  (forallb is_ascii (list_ascii_of_string text) = false ->
   submit_sample_file sys_version json_loads json_dumps net self entropy
     filename (FileText text) interactive profiles log
   = (Raise EUnicodeEncodeError, log))
  /\ (forallb is_ascii (list_ascii_of_string text) = true ->
      submit_sample_file sys_version json_loads json_dumps net self entropy
        filename (FileText text) interactive profiles log
      = submit_sample_file sys_version json_loads json_dumps net self entropy
          filename (FileBytes (encode_utf8 text)) interactive profiles log).
Proof.
  unfold submit_sample_file, encode_multipart_formdata, submit_fields.
  cbn [encode_fields encode_field rbind file_bytes]. unfold encode_ascii.
  split; intros ->; reflexivity.
Qed.

(** X4 at a concrete input: a text file holding the two bytes of an
    e-acute. *)
Lemma submit_text_mode_file_witness :
  submit_sample_file demo_version Json.loads Json.dumps
    (net_const (Reply 200 (encode_utf8 "{}"))) demo_client zero_entropy
    "notes.txt" (FileText (String "195" (String "169" ""))) false (JArr []) []
  = (Raise EUnicodeEncodeError, []).
Proof.
  exact (proj1 (submit_text_mode_file demo_version Json.loads Json.dumps
                  (net_const (Reply 200 (encode_utf8 "{}"))) demo_client
                  zero_entropy "notes.txt"
                  (String "195" (String "169" "")) false (JArr []) [])
           eq_refl).
Defined.

(** ** Framing of the multipart body *)

Lemma string_length_of_list (l : bytes) :
  String.length (string_of_list_ascii l) = length l.
Proof. induction l as [|c l IH]; cbn; [reflexivity|]. now rewrite IH. Qed.

Lemma hexlify_length b : length (hexlify b) = 2 * length b.
Proof.
  unfold hexlify. induction b as [|c b IH]; [reflexivity|].
  cbn [flat_map app length]. rewrite IH. lia.
Qed.

Lemma hex_digit_is_hex n : is_hex_lower (hex_digit n) = true.
Proof.
  do 16 (destruct n as [|n]; [reflexivity|]). destruct n; reflexivity.
Qed.

Lemma hexlify_is_hex b : forallb is_hex_lower (hexlify b) = true.
Proof.
  unfold hexlify. induction b as [|c b IH]; [reflexivity|].
  cbn [flat_map app forallb]. now rewrite !hex_digit_is_hex, IH.
Qed.

(** X5. Whatever the fields, the encoder returns a body that ends with the
    closing delimiter "--" boundary "--" CRLF and, when there is a field,
    starts with "--" boundary CRLF; the content type names that boundary; the
    boundary is two lowercase hexadecimal digits per byte of entropy, 32
    digits for the 16 bytes drawn. *)
Theorem multipart_framing (entropy : bytes)
    (fields : list (string * field_value)) (body : bytes) (ct : string) :
  encode_multipart_formdata entropy fields = Ok (body, ct) ->
  ct = "multipart/form-data; boundary=" +:+ new_boundary entropy
  /\ String.length (new_boundary entropy) = 2 * length entropy
  /\ (length entropy = 16 -> String.length (new_boundary entropy) = 32)
  /\ forallb is_hex_lower (encode_utf8 (new_boundary entropy)) = true
  /\ (exists parts,
        body = parts
               ++ encode_utf8 ("--" +:+ new_boundary entropy +:+ "--" +:+ CRLF))
  /\ (fields <> [] ->
      exists rest,
        body = encode_utf8 ("--" +:+ new_boundary entropy +:+ CRLF) ++ rest).
Proof.
  intros Henc.
  assert (String.length (new_boundary entropy) = 2 * length entropy) as Hlen.
  { unfold new_boundary. now rewrite string_length_of_list, hexlify_length. }
  split; [now apply (encode_multipart_content_type entropy fields body)|].
  split; [exact Hlen|]. split; [intros H16; rewrite Hlen, H16; reflexivity|].
  split.
  { unfold new_boundary, encode_utf8.
    rewrite list_ascii_of_string_of_list_ascii. apply hexlify_is_hex. }
  unfold encode_multipart_formdata in Henc.
  destruct (encode_fields (new_boundary entropy) fields) as [parts|] eqn:Hparts;
    [|discriminate].
  cbn [rbind] in Henc. injection Henc as <- _. split.
  - exists parts. reflexivity.
  - intros Hne. rewrite (encode_fields_bytes _ _ _ Hparts).
    destruct fields as [|[field value] fields]; [congruence|].
    cbn [after_delimiter]. eexists.
    rewrite !encode_utf8_app, <- !app_assoc. reflexivity.
Qed.

(** X5 at the fields of a submission. *)
Lemma multipart_framing_witness :
  String.length (new_boundary zero_entropy) = 32
  /\ exists parts,
       fst (match encode_multipart_formdata zero_entropy sample_fields with
            | Ok r => r
            | Raise _ => ([], "")
            end)
       = parts ++ encode_utf8 ("--" +:+ new_boundary zero_entropy +:+ "--"
                               +:+ CRLF).
Proof.
  destruct (multipart_framing zero_entropy sample_fields
              (fst (match encode_multipart_formdata zero_entropy
                            sample_fields with
                    | Ok r => r
                    | Raise _ => ([], "")
                    end))
              ("multipart/form-data; boundary=" +:+ new_boundary zero_entropy)
              ltac:(vm_compute; reflexivity))
    as (_ & _ & H16 & _ & Hend & _).
  split; [apply H16; reflexivity | exact Hend].
Defined.

(** ** The search query *)

Lemma quote_plus_char_safe c : forallb is_url_safe (quote_plus_char c) = true.
Proof. destruct c as [[] [] [] [] [] [] [] []]; reflexivity. Qed.

Lemma unquote_plus_char c s :
  unquote_plus_bytes (quote_plus_char c ++ s) = c :: unquote_plus_bytes s.
Proof. destruct c as [[] [] [] [] [] [] [] []]; reflexivity. Qed.

(** X6. [search] puts the query into the path through [urlencode]: the path
    is "/v0/search?query=" followed by letters, digits, "_.-~", "+" and
    "%XX" escapes only, so a query cannot add a parameter or a fragment,
    and unquoting that text gives the query back. *)
Theorem search_query_quoted (self : Client) (query : string) (max : nat) :
  pg_path (search self query max) = "/v0/search?query=" +:+ quote_plus query
  /\ forallb is_url_safe (encode_utf8 (quote_plus query)) = true
  /\ unquote_plus_bytes (encode_utf8 (quote_plus query)) = encode_utf8 query
  /\ pg_client (search self query max) = self
  /\ pg_max (search self query max) = max.
Proof.
  split; [reflexivity|]. split; [|split; [|split; reflexivity]].
  - unfold quote_plus, encode_utf8.
    rewrite list_ascii_of_string_of_list_ascii.
    induction (list_ascii_of_string query) as [|c l IH]; [reflexivity|].
    cbn [flat_map]. now rewrite forallb_app, quote_plus_char_safe, IH.
  - unfold quote_plus, encode_utf8.
    rewrite list_ascii_of_string_of_list_ascii.
    induction (list_ascii_of_string query) as [|c l IH]; [reflexivity|].
    cbn [flat_map]. now rewrite unquote_plus_char, IH.
Qed.

(** ** Failures of kernel_report *)

Section KernelFailures.

Variable sys_version : string.
Variable json_loads : bytes -> option json.
Variable json_dumps : json -> string.
Variable net : list Request -> Request -> reply.
Variable self : Client.

Lemma overview_report_log sample_id log :
  snd (overview_report sys_version json_loads json_dumps net self sample_id log)
  = log ++ [overview_request sys_version self sample_id].
Proof. unfold overview_report. now rewrite _req_json_log. Qed.

Lemma kernel_report_decoded sample_id task_id log code body overview :
  net log (overview_request sys_version self sample_id) = Reply code body ->
  is_2xx code = true -> json_loads body = Some overview ->
  forall e,
    rbind (rbind (getitem overview "tasks") py_iter)
      (fun tasks => rbind (find_task tasks task_id)
                      (kernel_log_request sys_version self sample_id task_id))
    = Raise e ->
    kernel_report sys_version json_loads json_dumps net self sample_id task_id
      log
    = (([], Some e), log ++ [overview_request sys_version self sample_id]).
Proof.
  intros Hnet Hcode Hb e He. unfold kernel_report.
  rewrite (overview_fetched _ _ _ _ _ _ _ _ _ _ Hnet Hcode Hb).
  now rewrite He.
Qed.

End KernelFailures.

(** X7. When the overview call of [kernel_report] raises, for a ServerError
    of the API as for any other exception, the generator ends with that
    exception and the overview request is the only one sent. *)
Theorem kernel_report_overview_failure
    (sys_version : string) (json_loads : bytes -> option json)
    (json_dumps : json -> string) (net : list Request -> Request -> reply)
    (self : Client) (sample_id task_id : string) (log : list Request)
    (e : exn) :
  fst (overview_report sys_version json_loads json_dumps net self sample_id log)
    = Raise e ->
  kernel_report sys_version json_loads json_dumps net self sample_id task_id log
  = (([], Some e), log ++ [overview_request sys_version self sample_id]).
Proof.
  intros He. unfold kernel_report.
  pose proof (overview_report_log sys_version json_loads json_dumps net self
                sample_id log) as Hlog.
  destruct (overview_report _ _ _ _ _ _ log) as [r log1].
  cbn [fst snd] in *. now subst.
Qed.

(** X7 at a concrete input: the overview is answered with a 404. *)
Lemma kernel_report_overview_failure_witness :
  kernel_report demo_version Json.loads Json.dumps
    (net_const (Reply 404 not_found_body)) demo_client "200923-hb5gvebega"
    "behavioral1" []
  = (([], Some (EServerError {| status := 404; kind := JStr "not_found";
                                message := JStr "sample missing" |})),
     [overview_request demo_version demo_client "200923-hb5gvebega"]).
Proof.
  apply (kernel_report_overview_failure demo_version Json.loads Json.dumps
           (net_const (Reply 404 not_found_body)) demo_client
           "200923-hb5gvebega" "behavioral1" []).
  vm_compute. reflexivity.
Defined.

(** X8. With the overview fetched and decoded to an object: if it has no
    "tasks" key, [kernel_report] ends with KeyError('tasks'); if the task
    found has no "platform" key, as a task that did not run on a platform,
    it ends with KeyError('platform'). In both cases no log request is
    sent. *)
Theorem kernel_report_missing_keys
    (sys_version : string) (json_loads : bytes -> option json)
    (json_dumps : json -> string) (net : list Request -> Request -> reply)
    (self : Client) (sample_id task_id : string) (log : list Request)
    (code : Z) (body : bytes) (members : list (string * json)) :
  net log (overview_request sys_version self sample_id) = Reply code body ->
  is_2xx code = true ->
  json_loads body = Some (JObj members) ->
  (assoc "tasks" members = None ->
   kernel_report sys_version json_loads json_dumps net self sample_id task_id
     log
   = (([], Some (EKeyError "tasks")),
      log ++ [overview_request sys_version self sample_id]))
  /\ (forall tasks task,
        assoc "tasks" members = Some (JArr tasks) ->
        find_task tasks task_id = Ok (JObj task) ->
        assoc "platform" task = None ->
        kernel_report sys_version json_loads json_dumps net self sample_id
          task_id log
        = (([], Some (EKeyError "platform")),
           log ++ [overview_request sys_version self sample_id])).
Proof.
  intros Hnet Hcode Hb. split.
  - intros Hnone.
    apply (kernel_report_decoded _ _ _ _ _ _ _ _ _ _ _ Hnet Hcode Hb).
    cbn [getitem]. now rewrite Hnone.
  - intros tasks task Htasks Hfind Hnone.
    apply (kernel_report_decoded _ _ _ _ _ _ _ _ _ _ _ Hnet Hcode Hb).
    cbn [getitem]. rewrite Htasks. cbn [rbind py_iter]. rewrite Hfind.
    cbn [rbind]. unfold kernel_log_request. cbn [getitem].
    now rewrite Hnone.
Qed.

(** X8 at a concrete input: the task static1 has no platform. *)
Lemma kernel_report_missing_keys_witness :
  kernel_report demo_version Json.loads Json.dumps
    (net_const (Reply 200 static_overview_body)) demo_client
    "200923-hb5gvebega" "static1" []
  = (([], Some (EKeyError "platform")),
     [overview_request demo_version demo_client "200923-hb5gvebega"]).
Proof.
  refine (proj2 (kernel_report_missing_keys demo_version Json.loads Json.dumps
                   (net_const (Reply 200 static_overview_body)) demo_client
                   "200923-hb5gvebega" "static1" [] 200 static_overview_body
                   [("tasks", JArr [JObj [("name", JStr "static1");
                                          ("kind", JStr "static")]])]
                   eq_refl eq_refl _)
            [JObj [("name", JStr "static1"); ("kind", JStr "static")]]
            [("name", JStr "static1"); ("kind", JStr "static")]
            eq_refl eq_refl eq_refl).
  vm_compute. reflexivity.
Defined.

(** X9. When the overview lists its tasks as a JSON object, the loop of
    [kernel_report] visits the keys: with a member in it the generator ends
    with TypeError, with none it ends with "Task does not exist"; no log
    request is sent. *)
Theorem kernel_report_tasks_object
    (sys_version : string) (json_loads : bytes -> option json)
    (json_dumps : json -> string) (net : list Request -> Request -> reply)
    (self : Client) (sample_id task_id : string) (log : list Request)
    (code : Z) (body : bytes) (members tasks : list (string * json)) :
  net log (overview_request sys_version self sample_id) = Reply code body ->
  is_2xx code = true ->
  json_loads body = Some (JObj members) ->
  assoc "tasks" members = Some (JObj tasks) ->
  kernel_report sys_version json_loads json_dumps net self sample_id task_id log
  = (([], Some (match tasks with
                | [] => EValueError "Task does not exist"
                | _ :: _ => ETypeError
                end)),
     log ++ [overview_request sys_version self sample_id]).
Proof.
  intros Hnet Hcode Hb Htasks.
  apply (kernel_report_decoded _ _ _ _ _ _ _ _ _ _ _ Hnet Hcode Hb).
  cbn [getitem]. rewrite Htasks. cbn [rbind py_iter].
  now destruct tasks as [|[k v] tasks].
Qed.

(** X9 at a concrete input: tasks keyed by their name. *)
Lemma kernel_report_tasks_object_witness :
  kernel_report demo_version Json.loads Json.dumps
    (net_const (Reply 200 keyed_overview_body)) demo_client
    "200923-hb5gvebega" "behavioral1" []
  = (([], Some ETypeError),
     [overview_request demo_version demo_client "200923-hb5gvebega"]).
Proof.
  refine (kernel_report_tasks_object demo_version Json.loads Json.dumps
            (net_const (Reply 200 keyed_overview_body)) demo_client
            "200923-hb5gvebega" "behavioral1" [] 200 keyed_overview_body
            [("tasks", JObj [("behavioral1",
                              JObj [("name", JStr "behavioral1");
                                    ("platform", JStr "windows10_x64")])])]
            [("behavioral1", JObj [("name", JStr "behavioral1");
                                   ("platform", JStr "windows10_x64")])]
            eq_refl eq_refl _ eq_refl).
  vm_compute. reflexivity.
Defined.

(** X10. The log request of [kernel_report] is opened without the error
    translation of the JSON calls: a non-2xx answer to it ends the generator
    with the HTTPError of [urlopen], after the two requests, and an
    unanswered one with URLError. *)
Theorem kernel_report_log_failure
    (sys_version : string) (json_loads : bytes -> option json)
    (json_dumps : json -> string) (net : list Request -> Request -> reply)
    (self : Client) (sample_id task_id : string) (log : list Request)
    (code : Z) (body : bytes) (overview : json) (tasks : list json)
    (task : json) (r : Request) :
  net log (overview_request sys_version self sample_id) = Reply code body ->
  is_2xx code = true ->
  json_loads body = Some overview ->
  getitem overview "tasks" = Ok (JArr tasks) ->
  find_task tasks task_id = Ok task ->
  kernel_log_request sys_version self sample_id task_id task = Ok r ->
  (forall code' body',
     net (log ++ [overview_request sys_version self sample_id]) r
       = Reply code' body' ->
     is_2xx code' = false ->
     kernel_report sys_version json_loads json_dumps net self sample_id
       task_id log
     = (([], Some (EHTTPError code' body')),
        log ++ [overview_request sys_version self sample_id; r]))
  /\ (net (log ++ [overview_request sys_version self sample_id]) r = NoReply ->
      kernel_report sys_version json_loads json_dumps net self sample_id
        task_id log
      = (([], Some EURLError),
         log ++ [overview_request sys_version self sample_id; r])).
Proof.
  intros Hnet Hcode Hb Htasks Hfind Hr.
  rewrite (kernel_report_found _ _ _ _ _ _ _ _ _ _ _ _ _ Hnet Hcode Hb Htasks
             Hfind), Hr.
  cbn zeta. unfold urlopen. cbn [fst]. rewrite <- app_assoc. cbn [app]. split.
  - intros code' body' -> ->. reflexivity.
  - intros ->. reflexivity.
Qed.

(** X10 at a concrete input: the log of a windows task is refused with a
    403. *)
Lemma kernel_report_log_failure_witness :
  kernel_report demo_version Json.loads Json.dumps net_overview_then_403
    demo_client "200923-hb5gvebega" "behavioral1" []
  = (([], Some (EHTTPError 403 html_body)),
     [overview_request demo_version demo_client "200923-hb5gvebega";
      log_request demo_version demo_client "200923-hb5gvebega" "behavioral1"
        "onemon.json"]).
Proof.
  refine (proj1 (kernel_report_log_failure demo_version Json.loads Json.dumps
                   net_overview_then_403 demo_client "200923-hb5gvebega"
                   "behavioral1" [] 200 overview_body
                   (JObj [("tasks", JArr overview_tasks)]) overview_tasks
                   (JObj [("name", JStr "behavioral1");
                          ("platform", JStr "windows10_x64")])
                   (log_request demo_version demo_client "200923-hb5gvebega"
                      "behavioral1" "onemon.json")
                   eq_refl eq_refl _ eq_refl eq_refl eq_refl)
            403%Z html_body eq_refl eq_refl).
  vm_compute. reflexivity.
Defined.

(** ** Complete streams *)

Lemma split_lf_no_LF l : no_LF l = true -> split_lf l = [l].
Proof.
  unfold no_LF. induction l as [|c l IH]; [reflexivity|].
  cbn [forallb]. intros [Hc Hl]%andb_true_iff.
  cbn [split_lf]. unfold differs in Hc. apply negb_true_iff in Hc.
  now rewrite Hc, (IH Hl).
Qed.

Lemma split_lf_line l rest :
  no_LF l = true -> split_lf (l ++ LF :: rest) = l :: split_lf rest.
Proof.
  unfold no_LF. induction l as [|c l IH]; intros Hl.
  - cbn [app split_lf]. now rewrite Ascii.eqb_refl.
  - cbn [forallb] in Hl. apply andb_true_iff in Hl as [Hc Hl].
    cbn [app split_lf]. unfold differs in Hc. apply negb_true_iff in Hc.
    now rewrite Hc, (IH Hl).
Qed.

Lemma join_lf_cons l rest :
  rest <> [] -> join_lf (l :: rest) = l ++ LF :: join_lf rest.
Proof. destruct rest; [congruence|reflexivity]. Qed.

Lemma split_lf_join_app lines rest :
  Forall (fun l => no_LF l = true) lines -> rest <> [] ->
  split_lf (join_lf (lines ++ rest)) = lines ++ split_lf (join_lf rest).
Proof.
  intros Hlines Hrest. induction Hlines as [|l lines Hl _ IH]; [reflexivity|].
  cbn [app]. rewrite join_lf_cons by (destruct lines; [assumption|discriminate]).
  now rewrite (split_lf_line _ _ Hl), IH.
Qed.

Lemma split_lf_join lines :
  Forall (fun l => no_LF l = true) lines -> lines <> [] ->
  split_lf (join_lf lines) = lines.
Proof.
  intros Hlines Hne. rewrite <- (app_nil_r lines) at 1.
  destruct (exists_last Hne) as (init & last & ->).
  apply Forall_app in Hlines as [Hinit Hlast].
  rewrite app_nil_r, split_lf_join_app by (assumption || discriminate).
  cbn [join_lf]. inversion Hlast; subst. now rewrite split_lf_no_LF.
Qed.

Lemma join_lf_snoc_blank lines :
  lines <> [] -> join_lf (lines ++ [[]]) = join_lf lines ++ [LF].
Proof.
  induction lines as [|l lines IH]; [congruence|]. intros _.
  destruct lines as [|l' lines]; [reflexivity|].
  cbn [app] in *.
  rewrite (join_lf_cons l (l' :: lines ++ [[]])) by discriminate.
  rewrite (join_lf_cons l (l' :: lines)) by discriminate.
  rewrite IH by discriminate. now rewrite <- app_assoc.
Qed.

Lemma readlines_line l rest :
  no_LF l = true -> readlines ((l ++ [LF]) ++ rest) = (l ++ [LF]) :: readlines rest.
Proof.
  unfold no_LF. induction l as [|c l IH]; intros Hl.
  - cbn [app readlines]. now rewrite Ascii.eqb_refl.
  - cbn [forallb] in Hl. apply andb_true_iff in Hl as [Hc Hl].
    cbn [app readlines]. unfold differs in Hc. apply negb_true_iff in Hc.
    rewrite Hc. cbn [app] in IH. now rewrite (IH Hl).
Qed.

Section CompleteStreams.

Variable json_loads : bytes -> option json.

(** A line of a kernel log that decodes to [v]. *)
Let entry_ok (l : bytes) (v : json) : Prop :=
  no_LF l = true /\ is_nil (strip l) = false /\ json_loads l = Some v.

(** A line of an event stream that decodes to [v], its line feed included. *)
Let line_ok (l : bytes) (v : json) : Prop :=
  no_LF l = true /\ json_loads (l ++ [LF]) = Some v.

Lemma kernel_entries_app pre vs rest :
  Forall2 entry_ok pre vs ->
  kernel_entries json_loads (pre ++ rest)
  = (vs ++ fst (kernel_entries json_loads rest),
     snd (kernel_entries json_loads rest)).
Proof.
  induction 1 as [|l v pre vs (_ & Hne & Hv) _ IH]; cbn [app kernel_entries].
  - now destruct (kernel_entries json_loads rest).
  - now rewrite Hne, Hv, IH.
Qed.

Lemma entry_ok_no_LF pre vs :
  Forall2 entry_ok pre vs -> Forall (fun l => no_LF l = true) pre.
Proof. induction 1 as [|l v pre vs (Hl & _) _ IH]; constructor; auto. Qed.

Lemma event_lines_app pre vs rest :
  Forall2 (fun l v => json_loads l = Some v) pre vs ->
  event_lines json_loads (pre ++ rest)
  = (vs ++ fst (event_lines json_loads rest),
     snd (event_lines json_loads rest)).
Proof.
  induction 1 as [|l v pre vs Hv _ IH]; cbn [app event_lines].
  - now destruct (event_lines json_loads rest).
  - now rewrite Hv, IH.
Qed.

Lemma readlines_terminated lines rest :
  Forall (fun l => no_LF l = true) lines ->
  readlines (terminated lines ++ rest)
  = map (fun l => l ++ [LF]) lines ++ readlines rest.
Proof.
  unfold terminated. induction 1 as [|l lines Hl _ IH]; [reflexivity|].
  cbn [map concat]. rewrite <- app_assoc, (readlines_line _ _ Hl), IH.
  reflexivity.
Qed.

(** X11. The loop of [kernel_report] over a log whose lines all decode
    yields every entry, in order, and ends, whether the log ends with a line
    feed or not; a line that does not decode ends the generator with the
    decoding error after the entries before it, and nothing after it is
    yielded. *)
Theorem kernel_log_read_in_full (lines : list bytes) (vs : list json) :
  Forall2 entry_ok lines vs ->
  kernel_entries json_loads (split_lf (join_lf lines)) = (vs, None)
  /\ kernel_entries json_loads (split_lf (join_lf lines ++ [LF])) = (vs, None)
  /\ (forall bad post,
        no_LF bad = true -> is_nil (strip bad) = false ->
        json_loads bad = None ->
        kernel_entries json_loads (split_lf (join_lf (lines ++ bad :: post)))
        = (vs, Some EJSONDecodeError)).
Proof.
  intros Hlines. pose proof (entry_ok_no_LF _ _ Hlines) as HnoLF.
  assert (kernel_entries json_loads lines = (vs, None)) as Hall.
  { rewrite <- (app_nil_r lines), (kernel_entries_app _ _ _ Hlines).
    cbn. now rewrite app_nil_r. }
  assert (kernel_entries json_loads (lines ++ [[]]) = (vs, None)) as Hblank.
  { rewrite (kernel_entries_app _ _ _ Hlines). cbn. now rewrite app_nil_r. }
  split; [|split].
  - destruct lines as [|l lines]; [inversion Hlines; reflexivity|].
    now rewrite split_lf_join by (assumption || discriminate).
  - destruct lines as [|l lines]; [inversion Hlines; reflexivity|].
    rewrite <- join_lf_snoc_blank by discriminate.
    rewrite split_lf_join_app by (assumption || discriminate).
    exact Hblank.
  - intros bad post Hbad Hne Hnone.
    rewrite split_lf_join_app by (assumption || discriminate).
    rewrite (kernel_entries_app _ _ _ Hlines).
    assert (exists tail, split_lf (join_lf (bad :: post)) = bad :: tail)
      as [tail ->].
    { destruct post as [|p post].
      - exists []. apply (split_lf_no_LF _ Hbad).
      - eexists. rewrite join_lf_cons by discriminate.
        apply (split_lf_line _ _ Hbad). }
    cbn [kernel_entries]. rewrite Hne, Hnone. cbn. now rewrite app_nil_r.
Qed.

End CompleteStreams.

(** X11 at a concrete input: a log of two entries. *)
Lemma kernel_log_read_in_full_witness :
  kernel_entries Json.loads (split_lf (join_lf log_lines)) = (log_values, None)
  /\ kernel_entries Json.loads (split_lf (join_lf log_lines ++ [LF]))
     = (log_values, None).
Proof.
  destruct (kernel_log_read_in_full Json.loads log_lines log_values) as (H1 & H2 & _).
  - repeat constructor; vm_compute; reflexivity.
  - split; [exact H1 | exact H2].
Defined.

(** X12. [sample_events], answered with a 2xx status and a stream of lines
    that each decode, yields every event in order and ends with the stream;
    a line that does not decode ends the generator with the decoding error
    after the events before it. One request is sent in either case. *)
Theorem sample_events_read_in_full
    (sys_version : string) (json_loads : bytes -> option json)
    (net : list Request -> Request -> reply) (self : Client)
    (sample_id : string) (log : list Request) (code : Z)
    (lines : list bytes) (vs : list json) :
  is_2xx code = true ->
  Forall2 (fun l v => no_LF l = true /\ json_loads (l ++ [LF]) = Some v)
    lines vs ->
  (net log (events_request sys_version self sample_id)
     = Reply code (terminated lines) ->
   sample_events sys_version json_loads net self sample_id log
   = ((vs, None), log ++ [events_request sys_version self sample_id]))
  /\ (forall bad post,
        no_LF bad = true -> json_loads (bad ++ [LF]) = None ->
        net log (events_request sys_version self sample_id)
          = Reply code (terminated (lines ++ bad :: post)) ->
        sample_events sys_version json_loads net self sample_id log
        = ((vs, Some EJSONDecodeError),
           log ++ [events_request sys_version self sample_id])).
Proof.
  intros Hcode Hlines.
  assert (Forall (fun l => no_LF l = true) lines) as HnoLF.
  { induction Hlines as [|l v ls vs' [Hl _] _ IH]; constructor; auto. }
  assert (Forall2 (fun l v => json_loads l = Some v)
            (map (fun l => l ++ [LF]) lines) vs) as Hdec.
  { induction Hlines as [|l v ls vs' [_ Hv] _ IH]; cbn [map]; constructor;
      auto. inversion HnoLF; auto. }
  split.
  - intros Hnet. unfold sample_events, urlopen.
    fold (events_request sys_version self sample_id).
    rewrite Hnet, Hcode. f_equal.
    rewrite <- (app_nil_r (terminated lines)), readlines_terminated by assumption.
    rewrite (event_lines_app _ _ _ _ Hdec). cbn. now rewrite app_nil_r.
  - intros bad post Hbad Hnone Hnet. unfold sample_events, urlopen.
    fold (events_request sys_version self sample_id).
    rewrite Hnet, Hcode. f_equal.
    unfold terminated. rewrite map_app, concat_app.
    fold (terminated lines). rewrite readlines_terminated by assumption.
    cbn [map concat]. rewrite (readlines_line _ _ Hbad).
    rewrite (event_lines_app _ _ _ _ Hdec). cbn [event_lines].
    rewrite Hnone. cbn. now rewrite app_nil_r.
Qed.

(** X12 at a concrete input: two events, each on its line. *)
Lemma sample_events_read_in_full_witness :
  sample_events demo_version Json.loads
    (net_const (Reply 200 (terminated log_lines))) demo_client
    "200923-hb5gvebega" []
  = ((log_values, None),
     [events_request demo_version demo_client "200923-hb5gvebega"]).
Proof.
  refine (proj1 (sample_events_read_in_full demo_version Json.loads
                   (net_const (Reply 200 (terminated log_lines))) demo_client
                   "200923-hb5gvebega" [] 200 log_lines log_values
                   eq_refl _) eq_refl).
  repeat constructor; vm_compute; reflexivity.
Defined.

(** X13. [sample_events] opens its request without the error translation
    of the JSON calls: a non-2xx answer ends the generator with the
    HTTPError of [urlopen], whatever the body, and an unanswered request
    with URLError; nothing is yielded and one request is sent. *)
Theorem sample_events_open_failure
    (sys_version : string) (json_loads : bytes -> option json)
    (net : list Request -> Request -> reply) (self : Client)
    (sample_id : string) (log : list Request) :
  (forall code body,
     net log (events_request sys_version self sample_id) = Reply code body ->
     is_2xx code = false ->
     sample_events sys_version json_loads net self sample_id log
     = (([], Some (EHTTPError code body)),
        log ++ [events_request sys_version self sample_id]))
  /\ (net log (events_request sys_version self sample_id) = NoReply ->
      sample_events sys_version json_loads net self sample_id log
      = (([], Some EURLError),
         log ++ [events_request sys_version self sample_id])).
Proof.
  unfold sample_events, urlopen.
  fold (events_request sys_version self sample_id). split.
  - intros code body -> ->. reflexivity.
  - intros ->. reflexivity.
Qed.

(** X13 at a concrete input: a 404 with the API's error body. *)
Lemma sample_events_open_failure_witness :
  sample_events demo_version Json.loads (net_const (Reply 404 not_found_body))
    demo_client "200923-hb5gvebega" []
  = (([], Some (EHTTPError 404 not_found_body)),
     [events_request demo_version demo_client "200923-hb5gvebega"]).
Proof.
  exact (proj1 (sample_events_open_failure demo_version Json.loads
                  (net_const (Reply 404 not_found_body)) demo_client
                  "200923-hb5gvebega" [])
           404%Z not_found_body eq_refl eq_refl).
Defined.

(** * Properties of the command line *)

Module CliFacts.
Import Cli.

(** ** str methods *)

Lemma graphic_code c : is_graphic c = true -> 33 <= code c <= 126.
Proof.
  unfold is_graphic. intros [H1 H2]%andb_true_iff.
  apply Nat.leb_le in H1. apply Nat.leb_le in H2. lia.
Qed.

Lemma graphic_not_space c :
  is_graphic c = true ->
  space1 c = false /\ (forall b, space2 c b = false)
  /\ (forall a, space2 a c = false)
  /\ (forall a b, space3 c a b = false) /\ (forall a b, space3 a b c = false).
Proof.
  intros Hc%graphic_code. unfold space1, space2, space3.
  assert (forall n, n <> code c -> Nat.eqb (code c) n = false) as Hne
    by (intros n Hn; apply Nat.eqb_neq; lia).
  repeat split; intros;
    rewrite ?(Hne 194), ?(Hne 225), ?(Hne 226), ?(Hne 227), ?(Hne 133),
      ?(Hne 160), ?(Hne 128), ?(Hne 159), ?(Hne 168), ?(Hne 169), ?(Hne 175)
      by lia;
    rewrite ?andb_false_r, ?andb_false_l, ?orb_false_r; cbn [andb orb];
    try reflexivity.
  - destruct (Nat.leb_spec 9 (code c)), (Nat.leb_spec (code c) 13),
      (Nat.leb_spec 28 (code c)), (Nat.leb_spec (code c) 32);
      cbn; try reflexivity; lia.
  - destruct (Nat.leb_spec 128 (code c)); cbn; [lia|].
    now rewrite ?andb_false_r.
Qed.

Lemma str_lstrip_graphic c s :
  is_graphic c = true -> str_lstrip (c :: s) = c :: s.
Proof.
  intros (H1 & H2 & _ & H3 & _)%graphic_not_space. cbn [str_lstrip].
  rewrite H1. destruct s as [|b s]; [reflexivity|]. rewrite H2.
  destruct s as [|d s]; [reflexivity|]. now rewrite H3.
Qed.

Lemma str_rstrip_rev_graphic c s :
  is_graphic c = true -> str_rstrip_rev (c :: s) = c :: s.
Proof.
  intros (H1 & _ & H2 & _ & H3)%graphic_not_space. cbn [str_rstrip_rev].
  rewrite H1. destruct s as [|b s]; [reflexivity|]. rewrite H2.
  destruct s as [|d s]; [reflexivity|]. now rewrite H3.
Qed.

(** A text that starts and ends with a visible character is its own
    [strip]. *)
Lemma str_strip_graphic_ends a mid z :
  is_graphic a = true -> is_graphic z = true ->
  str_strip (a :: mid ++ [z]) = a :: mid ++ [z].
Proof.
  intros Ha Hz. unfold str_strip. rewrite (str_lstrip_graphic _ _ Ha).
  change (a :: mid ++ [z]) with ((a :: mid) ++ [z]).
  rewrite rev_app_distr. cbn [rev app].
  rewrite (str_rstrip_rev_graphic _ _ Hz).
  change (z :: rev mid ++ [a]) with ([z] ++ rev (a :: mid)).
  now rewrite rev_app_distr, rev_involutive.
Qed.

Lemma split_on_absent sep l :
  forallb (differs sep) l = true -> split_on sep l = [l].
Proof.
  induction l as [|c l IH]; [reflexivity|].
  cbn [forallb]. intros [Hc Hl]%andb_true_iff.
  cbn [split_on]. unfold differs in Hc. apply negb_true_iff in Hc.
  now rewrite Hc, (IH Hl).
Qed.

Lemma split_on_first sep l rest :
  forallb (differs sep) l = true ->
  split_on sep (l ++ sep :: rest) = l :: split_on sep rest.
Proof.
  induction l as [|c l IH]; intros Hl.
  - cbn [app split_on]. now rewrite Ascii.eqb_refl.
  - cbn [forallb] in Hl. apply andb_true_iff in Hl as [Hc Hl].
    cbn [app split_on]. unfold differs in Hc. apply negb_true_iff in Hc.
    now rewrite Hc, (IH Hl).
Qed.

Lemma split_on_nonempty sep s : split_on sep s <> [].
Proof.
  induction s as [|c s IH]; [discriminate|]. cbn [split_on].
  destruct (Ascii.eqb c sep); [discriminate|].
  destruct (split_on sep s); [congruence|discriminate].
Qed.

Lemma join_on_split_on sep s : join_on sep (split_on sep s) = s.
Proof.
  induction s as [|c s IH]; [reflexivity|]. cbn [split_on].
  destruct (Ascii.eqb_spec c sep) as [->|].
  - pose proof (split_on_nonempty sep s).
    destruct (split_on sep s) as [|h t] eqn:Hs; [congruence|].
    cbn [join_on app]. cbn [join_on] in IH. now rewrite IH.
  - pose proof (split_on_nonempty sep s).
    destruct (split_on sep s) as [|h t] eqn:Hs; [congruence|].
    destruct t as [|h' t]; cbn [join_on app] in *; now rewrite <- IH.
Qed.

Lemma split_on_parts sep s :
  Forall (fun p => forallb (differs sep) p = true) (split_on sep s).
Proof.
  induction s as [|c s IH]; [repeat constructor|]. cbn [split_on].
  destruct (Ascii.eqb c sep) eqn:Hc.
  - constructor; [reflexivity|exact IH].
  - destruct (split_on sep s) as [|h t]; [repeat constructor|].
    + cbn. unfold differs. now rewrite Hc.
    + inversion IH; subst. constructor; [|assumption].
      cbn [forallb]. unfold differs at 1. now rewrite Hc.
Qed.

Lemma split_on_length sep s :
  length (split_on sep s) = S (count_occ ascii_dec s sep).
Proof.
  induction s as [|c s IH]; [reflexivity|]. cbn [split_on count_occ].
  destruct (Ascii.eqb_spec c sep) as [->|Hne].
  - destruct (ascii_dec sep sep); [|congruence]. cbn [length]. now rewrite IH.
  - destruct (ascii_dec c sep); [congruence|].
    pose proof (split_on_nonempty sep s).
    destruct (split_on sep s); [congruence|]. exact IH.
Qed.

Lemma graphic_differs c sep :
  is_graphic c = true -> is_graphic sep = false -> differs sep c = true.
Proof.
  intros Hc Hs. unfold differs. apply negb_true_iff.
  destruct (Ascii.eqb_spec c sep); [congruence|reflexivity].
Qed.

Lemma forallb_graphic_differs l sep :
  forallb is_graphic l = true -> is_graphic sep = false ->
  forallb (differs sep) l = true.
Proof.
  intros Hl Hs. induction l as [|c l IH]; [reflexivity|].
  cbn [forallb] in *. apply andb_true_iff in Hl as [Hc Hl].
  now rewrite (graphic_differs _ _ Hc Hs), IH.
Qed.

Lemma text_lines_one_line l :
  l <> [] -> forallb (differs LF) l = true -> forallb (differs CR) l = true ->
  text_lines l = [l].
Proof.
  induction l as [|c l IH]; [congruence|]. intros _.
  cbn [forallb]. intros [H1 Hl1]%andb_true_iff [H2 Hl2]%andb_true_iff.
  unfold differs in H1, H2. apply negb_true_iff in H1, H2.
  cbn [text_lines]. rewrite H1, H2.
  destruct l as [|d l]; [reflexivity|]. now rewrite IH.
Qed.

(** ** The token file *)

Lemma plain_bytes s :
  plain s = true ->
  exists c l, list_ascii_of_string s = c :: l /\ is_graphic c = true
              /\ forallb is_graphic l = true.
Proof.
  unfold plain. destruct (list_ascii_of_string s) as [|c l]; [discriminate|].
  cbn [is_nil negb andb forallb]. intros [Hc Hl]%andb_true_iff. eauto.
Qed.

Lemma graphic_last c l :
  is_graphic c = true -> forallb is_graphic l = true ->
  exists init z, c :: l = init ++ [z] /\ is_graphic z = true.
Proof.
  intros Hc Hl.
  destruct (exists_last (l := c :: l)) as (init & z & Heq); [discriminate|].
  exists init, z. split; [exact Heq|].
  assert (forallb is_graphic (c :: l) = true) as Hall
    by (cbn [forallb]; now rewrite Hc, Hl).
  rewrite Heq, forallb_app in Hall. cbn [forallb] in Hall.
  now destruct (is_graphic z); [|rewrite andb_false_r in Hall].
Qed.

(** The line [authenticate] writes, read back by the loop of
    [client_from_env]. *)
Lemma first_client_written url token :
  plain url = true -> plain token = true ->
  starts_with_hash (list_ascii_of_string url) = false ->
  first_client (text_lines (list_ascii_of_string (url +:+ " " +:+ token)))
  = Some (Ok (Client_init token url)).
Proof.
  intros Hu Ht Hhash.
  destruct (plain_bytes _ Hu) as (a & u & Hurl & Ha & Hus).
  destruct (plain_bytes _ Ht) as (b & t & Htok & Hb & Hts).
  destruct (graphic_last _ _ Hb Hts) as (init & z & Hlast & Hz).
  assert (forallb is_graphic (a :: u) = true) as Hua
    by (cbn [forallb]; now rewrite Ha, Hus).
  assert (forallb is_graphic (b :: t) = true) as Htb
    by (cbn [forallb]; now rewrite Hb, Hts).
  change (list_ascii_of_string (url +:+ " " +:+ token))
    with (encode_utf8 (url +:+ " " +:+ token)).
  rewrite !encode_utf8_app. unfold encode_utf8. rewrite Hurl, Htok.
  change (list_ascii_of_string " ") with [" "%char].
  set (line := (a :: u) ++ [" "%char] ++ b :: t).
  assert (forallb (differs LF) line = true /\ forallb (differs CR) line = true)
    as [HLF HCR].
  { unfold line. rewrite !forallb_app.
    rewrite !(forallb_graphic_differs (a :: u)), !(forallb_graphic_differs (b :: t))
      by (assumption || reflexivity).
    split; reflexivity. }
  rewrite text_lines_one_line by (assumption || discriminate).
  cbn [first_client].
  assert (str_strip line = line) as ->.
  { unfold line. rewrite Hlast. cbn [app].
    replace (u ++ " "%char :: init ++ [z])
      with ((u ++ " "%char :: init) ++ [z]) by now rewrite <- app_assoc.
    now apply str_strip_graphic_ends. }
  rewrite Hurl in Hhash. unfold line at 1 2. cbn [app is_nil orb].
  cbn [starts_with_hash] in Hhash |- *. rewrite Hhash.
  unfold line.
  change ((a :: u) ++ [" "%char] ++ b :: t) with ((a :: u) ++ " "%char :: b :: t).
  rewrite split_on_first by (apply forallb_graphic_differs; [assumption|reflexivity]).
  rewrite split_on_absent by (apply forallb_graphic_differs; [assumption|reflexivity]).
  rewrite <- Hurl, <- Htok. now rewrite !string_of_list_ascii_of_string.
Qed.

(** X14. [authenticate] followed by [client_from_env]: when there is no
    token file, the url and the token are written on one line and read back
    as the client of that token and url (trailing slashes removed), for a
    url and a token made of visible ASCII characters, the url not starting
    with "#". When the token file exists, [authenticate] writes nothing. *)
Theorem token_file_round_trip (tokenfile url token : string) :
  plain url = true -> plain token = true ->
  starts_with_hash (list_ascii_of_string url) = false ->
  client_from_env tokenfile
    (text_after tokenfile None (authenticate tokenfile None token url))
  = (Returned (Client_init token url), [])
  /\ (forall existing token' url',
        text_after tokenfile (Some existing)
          (authenticate tokenfile (Some existing) token' url')
        = Some existing).
Proof.
  intros Hu Ht Hhash. split; [|reflexivity].
  cbn [authenticate text_after]. rewrite String.eqb_refl.
  cbn [client_from_env]. now rewrite first_client_written.
Qed.

(** X14 at a concrete input. *)
Lemma token_file_round_trip_witness :
  client_from_env "/home/u/.config/triage.conf"
    (text_after "/home/u/.config/triage.conf" None
       (authenticate "/home/u/.config/triage.conf" None "s3cr3t"
          "https://api.tria.ge/"))
  = (Returned {| token := "s3cr3t"; root_url := "https://api.tria.ge" |}, []).
Proof.
  exact (proj1 (token_file_round_trip "/home/u/.config/triage.conf"
                  "https://api.tria.ge/" "s3cr3t" eq_refl eq_refl eq_refl)).
Defined.

Lemma first_client_skip pre rest :
  Forall (fun l => significant l = false) pre ->
  first_client (pre ++ rest) = first_client rest.
Proof.
  induction 1 as [|l pre Hl _ IH]; [reflexivity|].
  cbn [app first_client]. unfold significant in Hl.
  apply negb_false_iff in Hl. now rewrite Hl.
Qed.

(** X15. [client_from_env] is decided by the first line of the token file
    that is neither blank nor a comment, whatever follows it: two fields
    separated by one space give the client of the second field as token and
    the first as url; any other number of fields, as with two spaces between
    url and token, raises ValueError; and a file without such a line prints
    that it is not formatted correctly and exits. *)
Theorem client_from_env_first_line (tokenfile text : string)
    (pre : list bytes) :
  Forall (fun l => significant l = false) pre ->
  (forall line post,
     text_lines (list_ascii_of_string text) = pre ++ line :: post ->
     significant line = true ->
     (forall url token,
        split_on " " (str_strip line) = [url; token] ->
        client_from_env tokenfile (Some text)
        = (Returned (Client_init (string_of_list_ascii token)
                       (string_of_list_ascii url)), []))
     /\ (length (split_on " " (str_strip line)) <> 2 ->
         exists msg,
           client_from_env tokenfile (Some text)
           = (Raised (EValueError msg), [])))
  /\ (text_lines (list_ascii_of_string text) = pre ->
      client_from_env tokenfile (Some text)
      = (Exited, [Print (tokenfile +:+ " is not formatted correctly")])).
Proof.
  intros Hpre. split.
  - intros line post Hlines Hsig. cbn [client_from_env]. rewrite Hlines.
    rewrite (first_client_skip _ _ Hpre). cbn [first_client].
    unfold significant in Hsig. apply negb_true_iff in Hsig. rewrite Hsig.
    split.
    + intros url token ->. reflexivity.
    + intros Hlen.
      destruct (split_on " " (str_strip line)) as [|f1 [|f2 [|f3 fs]]];
        cbn [length] in Hlen; try lia; eauto.
  - intros Hlines. cbn [client_from_env]. rewrite Hlines.
    rewrite <- (app_nil_r pre), (first_client_skip _ _ Hpre). reflexivity.
Qed.

(** X15 at a concrete input: a comment, a blank line, then a line with two
    spaces between the url and the token. *)
Lemma client_from_env_first_line_witness :
  exists msg,
    client_from_env "triage.conf"
      (Some ("# my instance" +:+ NL +:+ NL +:+ "https://api.tria.ge  s3cr3t"
             +:+ NL))
    = (Raised (EValueError msg), []).
Proof.
  refine (proj2 (proj1 (client_from_env_first_line "triage.conf"
                          ("# my instance" +:+ NL +:+ NL
                           +:+ "https://api.tria.ge  s3cr3t" +:+ NL)
                          [encode_utf8 ("# my instance" +:+ NL); [LF]] _)
                   (encode_utf8 ("https://api.tria.ge  s3cr3t" +:+ NL)) []
                   eq_refl eq_refl) _).
  - repeat constructor.
  - vm_compute. lia.
Defined.

(** ** Downloads *)

(** X16. The name [get_file] gives the download when no output is asked for
    is the file argument without the characters \ / : * ? < > |, the others
    kept in order: it holds none of them, so no path separator, it is the
    argument itself when the argument holds none, and cleaning it twice
    changes nothing. *)
Theorem default_output_clean (file : string) :
  forallb allowed (list_ascii_of_string (default_output file)) = true
  /\ (forallb allowed (list_ascii_of_string file) = true ->
      default_output file = file)
  /\ default_output (default_output file) = default_output file
  /\ sublist (list_ascii_of_string (default_output file))
       (list_ascii_of_string file).
Proof.
  assert (forall l, forallb allowed l = true -> List.filter allowed l = l)
    as Hid.
  { induction l as [|c l IH]; [reflexivity|]. cbn [forallb].
    intros [Hc Hl]%andb_true_iff. cbn [List.filter]. now rewrite Hc, IH. }
  assert (forall l, forallb allowed (List.filter allowed l) = true) as Hall.
  { induction l as [|c l IH]; [reflexivity|]. cbn [List.filter].
    destruct (allowed c) eqn:Hc; [|exact IH]. cbn [forallb]. now rewrite Hc. }
  unfold default_output.
  rewrite !list_ascii_of_string_of_list_ascii.
  split; [apply Hall|]. split; [|split].
  - intros H. now rewrite Hid, string_of_list_ascii_of_string.
  - now rewrite Hid by apply Hall.
  - induction (list_ascii_of_string file) as [|c l IH]; [constructor|].
    cbn [List.filter]. destruct (allowed c); now constructor.
Qed.

(** X16 at a concrete input: a path that climbs out of the directory. *)
Lemma default_output_clean_witness :
  default_output "../../etc/passwd" = "....etcpasswd"
  /\ default_output "dump.bin" = "dump.bin".
Proof.
  split; [reflexivity|].
  exact (proj1 (proj2 (default_output_clean "dump.bin")) eq_refl).
Defined.

Section Downloads.

Variable sys_version : string.
Variable net : list Request -> Request -> reply.
Variable tokenfile : string.
Variable content : option string.
Variable open_wb : string -> bool.
Variable c : Client.
Hypothesis client_read : client_from_env tokenfile content = (Returned c, []).

Lemma writable_named path :
  path <> "" -> writable open_wb path = open_wb path.
Proof.
  intros Hne. unfold writable. now destruct (String.eqb_spec path "").
Qed.

Lemma given_output o :
  o <> "" -> o <> "-" ->
  is_dash (Some o) = false /\ not_given (Some o) = false.
Proof.
  intros Ho Hdash. cbn [is_dash not_given].
  destruct (String.eqb_spec o "-"); [congruence|].
  now destruct o; [congruence|].
Qed.

(** X17. [get_file] with a client read from the token file. The file is
    downloaded first, with one request in every case. The destination is
    the file name without the characters \/:*?<>| when no output is given,
    and the output otherwise; with the output "-" what was downloaded is
    printed and the destination is a file named "-". When the destination
    can be opened for writing, what was downloaded is written to it; when
    it cannot, the command fails with OSError after the download and writes
    nothing, and this is so on every file system for a file name made of
    the removed characters only, whose cleaned name is empty. When the
    download raises, the exception is passed on and nothing is printed or
    written. *)
Theorem get_file_output (sample task file : string) :
  (forall f log,
     sample_task_file sys_version net c sample task file [] = (Ok f, log) ->
     (forall output,
        not_given output = true ->
        get_file sys_version net tokenfile content open_wb sample task file
          output
        = if writable open_wb (default_output file)
          then (Returned tt, [WriteBytes (default_output file) f], log)
          else (Crashed OSError, [], log))
     /\ (forall output,
           not_given output = true -> default_output file = "" ->
           get_file sys_version net tokenfile content open_wb sample task file
             output
           = (Crashed OSError, [], log))
     /\ get_file sys_version net tokenfile content open_wb sample task file
          (Some "-")
        = (if open_wb "-"
           then (Returned tt, [PrintBytes f; WriteBytes "-" f], log)
           else (Crashed OSError, [PrintBytes f], log))
     /\ (forall o, o <> "" -> o <> "-" ->
         get_file sys_version net tokenfile content open_wb sample task file
           (Some o)
         = if open_wb o
           then (Returned tt, [WriteBytes o f], log)
           else (Crashed OSError, [], log)))
  /\ (forall e log output,
        sample_task_file sys_version net c sample task file [] = (Raise e, log) ->
        get_file sys_version net tokenfile content open_wb sample task file
          output
        = (Raised e, [], log))
  /\ (forall output,
        snd (get_file sys_version net tokenfile content open_wb sample task
               file output)
        = [_new_request sys_version c "GET"
             ("/v0/samples/" +:+ sample +:+ "/" +:+ task +:+ "/" +:+ file)
             None]).
Proof.
  unfold get_file, with_client. rewrite client_read. split; [|split].
  - intros f log ->. cbn [app].
    assert (forall output,
              not_given output = true ->
              is_dash output = false
              /\ match output with
                 | Some o => if not_given output then default_output file else o
                 | None => default_output file
                 end = default_output file) as Hdefault.
    { intros [[|ch o]|]; cbn [not_given is_dash]; try discriminate;
        intros _; split; reflexivity. }
    split; [|split; [|split]].
    + intros output Hout. destruct (Hdefault output Hout) as (-> & ->).
      unfold write_to. now destruct (writable open_wb (default_output file)).
    + intros output Hout Hempty. destruct (Hdefault output Hout) as (-> & ->).
      unfold write_to, writable. now rewrite Hempty.
    + cbn [is_dash not_given String.eqb Ascii.eqb Bool.eqb].
      unfold write_to. rewrite writable_named by discriminate.
      now destruct (open_wb "-").
    + intros o Ho Hdash. destruct (given_output o Ho Hdash) as (-> & ->).
      unfold write_to. rewrite (writable_named o Ho).
      now destruct (open_wb o).
  - intros e log output ->. reflexivity.
  - intros output.
    pose proof (urlopen_log net
                  (_new_request sys_version c "GET"
                     ("/v0/samples/" +:+ sample +:+ "/" +:+ task +:+ "/" +:+ file)
                     None) []) as Hlog.
    unfold sample_task_file, _req_file.
    destruct (urlopen _ _ _) as [[f|e] log]; cbn [snd] in *; subst;
      [|reflexivity].
    unfold write_to. now destruct (writable open_wb _).
Qed.

(** X18. [archive] with a client read from the token file: a format other
    than "tar" and "zip" prints the usage line and sends no request; the tar
    archive is fetched from /v0/samples/{sample}/archive and the zip one
    from /v0/samples/{sample}/archive.zip. What was downloaded is printed
    and not written for the output "-"; otherwise the destination is the
    output when one is given and "{sample}.{format}", the sample id taken as
    it is, when none is: when the destination can be opened for writing the
    archive is written to it, and when it cannot the command fails with
    OSError after the download and writes nothing. *)
Theorem archive_output (sample format : string) :
  (format <> "tar" -> format <> "zip" ->
   forall output,
     archive sys_version net tokenfile content open_wb sample format output
     = (Returned tt, [Print "Use --format zip or tar"], []))
  /\ (forall r log,
        (format = "tar"
         /\ sample_archive_tar sys_version net c sample [] = (Ok r, log))
        \/ (format = "zip"
            /\ sample_archive_zip sys_version net c sample [] = (Ok r, log)) ->
        (forall output,
           not_given output = true ->
           archive sys_version net tokenfile content open_wb sample format
             output
           = if open_wb (sample +:+ "." +:+ format)
             then (Returned tt, [WriteBytes (sample +:+ "." +:+ format) r], log)
             else (Crashed OSError, [], log))
        /\ archive sys_version net tokenfile content open_wb sample format
             (Some "-")
           = (Returned tt, [PrintBytes r], log)
        /\ (forall o, o <> "" -> o <> "-" ->
            archive sys_version net tokenfile content open_wb sample format
              (Some o)
            = if open_wb o
              then (Returned tt, [WriteBytes o r], log)
              else (Crashed OSError, [], log)))
  /\ (forall output,
        snd (archive sys_version net tokenfile content open_wb sample "tar"
               output)
        = [_new_request sys_version c "GET"
             ("/v0/samples/" +:+ sample +:+ "/archive") None])
  /\ (forall output,
        snd (archive sys_version net tokenfile content open_wb sample "zip"
               output)
        = [_new_request sys_version c "GET"
             ("/v0/samples/" +:+ sample +:+ "/archive.zip") None]).
Proof.
  assert (forall f, (sample +:+ "." +:+ f)%string <> "") as Hname.
  { intros f. destruct sample; cbn; discriminate. }
  assert (forall output,
            not_given output = true -> is_dash output = false) as Hnodash.
  { intros [[|ch o]|]; cbn [not_given is_dash]; try discriminate; reflexivity. }
  unfold archive, with_client. rewrite client_read. split; [|split; [|split]].
  - intros Htar Hzip output.
    destruct (String.eqb_spec format "tar"); [congruence|].
    destruct (String.eqb_spec format "zip"); [congruence|]. reflexivity.
  - intros r log [[-> ->]|[-> ->]]; cbn [String.eqb Ascii.eqb Bool.eqb app];
      (split; [|split]);
      try (intros output Hout; rewrite (Hnodash output Hout), Hout;
           unfold write_to; rewrite (writable_named _ (Hname _));
           now destruct (open_wb _));
      try reflexivity;
      (intros o Ho Hdash; destruct (given_output o Ho Hdash) as (-> & ->);
       unfold write_to; rewrite (writable_named o Ho);
       now destruct (open_wb o)).
  - intros output. cbn [String.eqb Ascii.eqb Bool.eqb].
    pose proof (urlopen_log net
                  (_new_request sys_version c "GET"
                     ("/v0/samples/" +:+ sample +:+ "/archive") None) []) as Hlog.
    unfold sample_archive_tar, _req_file.
    destruct (urlopen _ _ _) as [[f|e] log]; cbn [snd] in *; subst;
      [|reflexivity].
    unfold write_to. destruct (is_dash output); [reflexivity|].
    destruct (not_given output); [now destruct (writable _ _)|].
    destruct output; now destruct (writable _ _).
  - intros output. cbn [String.eqb Ascii.eqb Bool.eqb].
    pose proof (urlopen_log net
                  (_new_request sys_version c "GET"
                     ("/v0/samples/" +:+ sample +:+ "/archive.zip") None) [])
      as Hlog.
    unfold sample_archive_zip, _req_file.
    destruct (urlopen _ _ _) as [[f|e] log]; cbn [snd] in *; subst;
      [|reflexivity].
    unfold write_to. destruct (is_dash output); [reflexivity|].
    destruct (not_given output); [now destruct (writable _ _)|].
    destruct output; now destruct (writable _ _).
Qed.

End Downloads.

(** X17 at a concrete input: a dump downloaded without an output where
    every file can be written, and the file "/" whose cleaned name is
    empty. *)
Lemma get_file_output_witness :
  get_file demo_version (net_const (Reply 200 (encode_utf8 "MZ"))) "triage.conf"
    (Some token_text) (fun _ => true) "200923-hb5gvebega" "behavioral1"
    "memory/dump.bin" None
  = (Returned tt, [WriteBytes "memorydump.bin" (encode_utf8 "MZ")],
     [_new_request demo_version demo_client "GET"
        "/v0/samples/200923-hb5gvebega/behavioral1/memory/dump.bin" None])
  /\ get_file demo_version (net_const (Reply 200 (encode_utf8 "MZ")))
       "triage.conf" (Some token_text) (fun _ => true) "200923-hb5gvebega"
       "behavioral1" "/" None
     = (Crashed OSError, [],
        [_new_request demo_version demo_client "GET"
           "/v0/samples/200923-hb5gvebega/behavioral1//" None]).
Proof.
  split.
  - exact (proj1 (proj1 (get_file_output demo_version
                           (net_const (Reply 200 (encode_utf8 "MZ")))
                           "triage.conf" (Some token_text) (fun _ => true)
                           demo_client eq_refl
                           "200923-hb5gvebega" "behavioral1" "memory/dump.bin")
                    (encode_utf8 "MZ") _ eq_refl) None eq_refl).
  - exact (proj1 (proj2 (proj1 (get_file_output demo_version
                                  (net_const (Reply 200 (encode_utf8 "MZ")))
                                  "triage.conf" (Some token_text)
                                  (fun _ => true) demo_client eq_refl
                                  "200923-hb5gvebega" "behavioral1" "/")
                           (encode_utf8 "MZ") _ eq_refl)) None eq_refl eq_refl).
Defined.

(** X18 at a concrete input: a format that is neither tar nor zip, and an
    output that is a directory. *)
Lemma archive_output_witness :
  archive demo_version (net_const (Reply 200 (encode_utf8 "PK"))) "triage.conf"
    (Some token_text) (fun path => negb (String.eqb path "."))
    "200923-hb5gvebega" "rar" None
  = (Returned tt, [Print "Use --format zip or tar"], [])
  /\ archive demo_version (net_const (Reply 200 (encode_utf8 "PK")))
       "triage.conf" (Some token_text) (fun path => negb (String.eqb path "."))
       "200923-hb5gvebega" "zip" (Some ".")
     = (Crashed OSError, [],
        [_new_request demo_version demo_client "GET"
           "/v0/samples/200923-hb5gvebega/archive.zip" None]).
Proof.
  split.
  - refine (proj1 (archive_output demo_version
                     (net_const (Reply 200 (encode_utf8 "PK"))) "triage.conf"
                     (Some token_text) (fun path => negb (String.eqb path "."))
                     demo_client eq_refl "200923-hb5gvebega" "rar") _ _ None);
      discriminate.
  - refine (proj2 (proj2 (proj1 (proj2
              (archive_output demo_version
                 (net_const (Reply 200 (encode_utf8 "PK"))) "triage.conf"
                 (Some token_text) (fun path => negb (String.eqb path "."))
                 demo_client eq_refl "200923-hb5gvebega" "zip"))
              (encode_utf8 "PK") _ (or_intror (conj eq_refl eq_refl))))
              "." _ _); discriminate.
Defined.

(** ** Profiles *)

Section Profiles.

Variable sys_version : string.
Variable json_loads : bytes -> option json.
Variable json_dumps : json -> string.
Variable net : list Request -> Request -> reply.
Variable tokenfile : string.
Variable content : option string.
Variable c : Client.
Hypothesis client_read : client_from_env tokenfile content = (Returned c, []).

(** X19. The create-profile command sends the tags option split at its
    commas: joining the tags sent with commas gives the option back, no tag
    holds a comma, and there is one tag more than there are commas, so that
    an empty option sends the single tag "". The request is a POST to
    /v0/profiles whose body is the dump of {name, tags, network, timeout},
    network being null when the option is left out. *)
Theorem create_profile_tags (name tags : string) (network : option string)
    (timeout : Z) :
  join_on "," (map list_ascii_of_string (tag_list tags))
    = list_ascii_of_string tags
  /\ Forall (fun t => forallb (differs ","%char) (list_ascii_of_string t) = true)
       (tag_list tags)
  /\ length (tag_list tags)
     = S (count_occ ascii_dec (list_ascii_of_string tags) ","%char)
  /\ tag_list "" = [""]
  /\ snd (create_profile sys_version json_loads json_dumps net tokenfile
            content name tags network timeout)
     = [json_request sys_version json_dumps c "POST" "/v0/profiles"
          (Some (JObj [("name", JStr name);
                       ("tags", JArr (map JStr (tag_list tags)));
                       ("network", optional_str network);
                       ("timeout", JInt timeout)]))].
Proof.
  assert (map list_ascii_of_string (tag_list tags)
          = split_on "," (list_ascii_of_string tags)) as Hparts.
  { unfold tag_list. rewrite map_map.
    erewrite map_ext; [apply map_id|].
    intros a. apply list_ascii_of_string_of_list_ascii. }
  split; [now rewrite Hparts, join_on_split_on|]. split; [|split; [|split]].
  - apply (proj1 (List.Forall_map list_ascii_of_string
                    (fun p => forallb (differs ","%char) p = true)
                    (tag_list tags))).
    rewrite Hparts. apply split_on_parts.
  - unfold tag_list. now rewrite length_map, split_on_length.
  - reflexivity.
  - unfold create_profile, with_client. rewrite client_read.
    pose proof (create_profile_log sys_version json_loads json_dumps net c
                  name (JArr (map JStr (tag_list tags)))
                  (optional_str network) (JInt timeout) []) as Hlog.
    destruct (_ sys_version json_loads json_dumps net c name
                (JArr (map JStr (tag_list tags))) (optional_str network)
                (JInt timeout) []) as [[r|e] log];
      cbn [snd] in *; now subst.
Qed.

End Profiles.

(** X19 at a concrete input: two tags, no network. *)
Lemma create_profile_tags_witness :
  tag_list "windows,short" = ["windows"; "short"]
  /\ length (snd (create_profile demo_version Json.loads Json.dumps
                    (net_const (Reply 200 (encode_utf8 "{}"))) "triage.conf"
                    (Some token_text) "w7" "windows,short" None 60)) = 1.
Proof.
  split; [reflexivity|].
  now rewrite (proj2 (proj2 (proj2 (proj2
                (create_profile_tags demo_version Json.loads Json.dumps
                   (net_const (Reply 200 (encode_utf8 "{}"))) "triage.conf"
                   (Some token_text) demo_client eq_refl "w7" "windows,short"
                   None 60))))).
Defined.

End CliFacts.

(** ** Interactive selection *)

Module CliInteractive.
Import Cli.

Section Selection.

Variable sys_version : string.
Variable json_loads : bytes -> option json.
Variable json_dumps : json -> string.
Variable net : list Request -> Request -> reply.
Variable render : json -> string.
Variable prompt_select_options : list effect -> json -> string -> list Z.
Variable all_profiles : Client -> M (list json).

Lemma wait_events_pending pendings rest final fx log :
  Forall (has_status "pending") pendings ->
  wait_events (pendings ++ rest) final fx log
  = wait_events rest final (fx ++ waiting pendings) log.
Proof.
  intros Hp. revert fx. induction Hp as [|ev pendings Hev _ IH]; intros fx.
  - cbn [app waiting map]. now rewrite app_nil_r.
  - cbn [app wait_events]. unfold bind at 1, eval at 1. rewrite Hev.
    cbn [eq_str String.eqb Ascii.eqb Bool.eqb]. unfold bind at 1, emit at 1.
    rewrite IH. cbn [waiting map]. now rewrite <- app_assoc.
Qed.

(** X20. The loop of [prompt_select_profile] over the events prints one
    line per pending event and is decided by the first event with another
    status, whatever the stream holds after it, a line that does not decode
    included: "static_analysis" lets the selection go on, "failed" and any
    other status end it with a message. A stream that ends before such an
    event also lets the selection go on, and the exception that ends the
    generator before such an event is passed on. *)
Theorem wait_events_decided (pendings : list json) (fx : list effect)
    (log : list Request) :
  Forall (has_status "pending") pendings ->
  (forall ev rest final,
     has_status "static_analysis" ev ->
     wait_events (pendings ++ ev :: rest) final fx log
     = (Returned Proceed, fx ++ waiting pendings, log))
  /\ (forall ev rest final,
        has_status "failed" ev ->
        wait_events (pendings ++ ev :: rest) final fx log
        = (Returned Stop,
           fx ++ waiting pendings ++ [Print "the sample is in a failed state"],
           log))
  /\ (forall ev st rest final,
        getitem ev "status" = Ok st ->
        eq_str st "pending" = false -> eq_str st "static_analysis" = false ->
        eq_str st "failed" = false ->
        wait_events (pendings ++ ev :: rest) final fx log
        = (Returned Stop,
           fx ++ waiting pendings
           ++ [Print "the sample does not need a profile to be selected"],
           log))
  /\ wait_events pendings None fx log
     = (Returned Proceed, fx ++ waiting pendings, log)
  /\ (forall e,
        wait_events pendings (Some e) fx log
        = (Raised e, fx ++ waiting pendings, log)).
Proof.
  intros Hp. repeat split.
  - intros ev rest final Hev. rewrite (wait_events_pending _ _ _ _ _ Hp).
    cbn [wait_events]. unfold bind, eval. rewrite Hev. reflexivity.
  - intros ev rest final Hev. rewrite (wait_events_pending _ _ _ _ _ Hp).
    cbn [wait_events]. unfold bind, eval, emit, ret. rewrite Hev.
    cbn [eq_str String.eqb Ascii.eqb Bool.eqb]. now rewrite <- app_assoc.
  - intros ev st rest final Hev H1 H2 H3.
    rewrite (wait_events_pending _ _ _ _ _ Hp).
    cbn [wait_events]. unfold bind, eval, emit, ret. rewrite Hev, H1, H2, H3.
    now rewrite <- app_assoc.
  - rewrite <- (app_nil_r pendings) at 1.
    now rewrite (wait_events_pending _ _ _ _ _ Hp).
  - intros e. rewrite <- (app_nil_r pendings) at 1.
    now rewrite (wait_events_pending _ _ _ _ _ Hp).
Qed.

Variable c : Client.
Variable sample : string.
Variable fx fx1 : list effect.
Variable log log1 log2 log3 : list Request.
Variable events : list json.
Variable final : option exn.
Variable static : json.
Variable profiles : list json.

Hypothesis events_streamed :
  sample_events sys_version json_loads net c sample log
  = ((events, final), log1).
Hypothesis selection_goes_on :
  wait_events events final fx log1 = (Returned Proceed, fx1, log1).
Hypothesis static_fetched :
  static_report sys_version json_loads json_dumps net c sample log1
  = (Ok static, log2).

(** X21. When the static report lists no file, [prompt_select_profile]
    skips the file prompt, lists the profiles and then fails with
    UnboundLocalError on [defaultSelection]: no profile is set for the
    sample, by hand or automatically. When the report has null for its
    files, it fails with TypeError before the profiles are listed. *)
Theorem prompt_select_profile_without_files :
  (forall files,
     getitem static "files" = Ok files -> py_len files = Ok 0 ->
     all_profiles c log2 = (Ok profiles, log3) ->
     prompt_select_profile sys_version json_loads json_dumps net render
       prompt_select_options all_profiles c sample fx log
     = (Crashed (UnboundLocalError "defaultSelection"), fx1, log3))
  /\ (getitem static "files" = Ok JNull ->
      prompt_select_profile sys_version json_loads json_dumps net render
        prompt_select_options all_profiles c sample fx log
      = (Raised ETypeError, fx1, log2)).
Proof.
  split.
  - intros files Hfiles Hlen Hprofiles. unfold prompt_select_profile.
    rewrite events_streamed. cbn [fst snd]. unfold bind at 1.
    rewrite selection_goes_on.
    unfold bind at 1, call at 1. rewrite static_fetched.
    unfold bind at 1, eval at 1. rewrite Hfiles.
    unfold bind at 1, eval at 1. rewrite Hlen.
    cbn [Nat.leb]. unfold bind at 1, ret at 1.
    unfold bind at 1, call at 1. rewrite Hprofiles. reflexivity.
  - intros Hfiles. unfold prompt_select_profile.
    rewrite events_streamed. cbn [fst snd]. unfold bind at 1.
    rewrite selection_goes_on.
    unfold bind at 1, call at 1. rewrite static_fetched.
    unfold bind at 1, eval at 1. rewrite Hfiles.
    unfold bind at 1, eval at 1. reflexivity.
Qed.

(** What the file prompt prints before it asks. *)
Let asked (items : list json) : list effect :=
  [Print "Please select the files from the archive to analyize/";
   Print ("Leave blank to continue with the emphasized files and "
          +:+ "automatic profiles.")].

(** X22. When the file prompt is left blank, [prompt_select_profile] sets
    the profile automatically for the files the static report marks as
    selected, in the order of the report: it sends the automatic request
    with their relpaths as pick, whatever profiles exist, and never shows
    the profile prompt. *)
Theorem prompt_select_profile_default_selection (items pick : list json) :
  getitem static "files" = Ok (JArr items) ->
  items <> [] ->
  prompt_select_options (fx1 ++ asked items) (JArr items) "filename" = [] ->
  selected_relpaths items = Ok pick ->
  all_profiles c log2 = (Ok profiles, log3) ->
  prompt_select_profile sys_version json_loads json_dumps net render
    prompt_select_options all_profiles c sample fx log
  = (match fst (set_sample_profile_automatically sys_version json_loads
                  json_dumps net c sample (JArr pick) log3) with
     | Ok _ => Returned tt
     | Raise e => Raised e
     end,
     fx1 ++ asked items
     ++ [Prompt (JArr items) "filename"; Print "Using default selection"]
     ++ (if Nat.eqb (length profiles) 0
         then [Print ("No profiles are available, using automatic profiles "
                      +:+ "instead.")]
         else []),
     snd (set_sample_profile_automatically sys_version json_loads json_dumps
            net c sample (JArr pick) log3)).
Proof.
  intros Hfiles Hne Hblank Hpick Hprofiles. unfold prompt_select_profile.
  rewrite events_streamed. cbn [fst snd].
  cbv [bind emit eval ask ret stop call set_automatically prompt_select_files].
  rewrite selection_goes_on, static_fetched, Hfiles. cbn [py_len].
  destruct items as [|item items']; [congruence|]. cbn [length Nat.leb].
  set (items := item :: items') in *.
  rewrite <- (app_assoc fx1). change ([?a] ++ [?b]) with [a; b].
  fold (asked items). rewrite Hblank. cbn [length Nat.eqb py_iter].
  rewrite Hpick, Hprofiles. cbn [orb].
  destruct (Nat.eqb (length profiles) 0);
    destruct (set_sample_profile_automatically _ _ _ _ _ _ _ _) as [[r|e] l];
    cbn [fst snd]; rewrite <- ?app_assoc; reflexivity.
Qed.

End Selection.

(** X20 at a concrete input: one pending event, then a failed one, then a
    line that would not decode. *)
Lemma wait_events_decided_witness :
  wait_events [event "pending"; event "failed"] (Some EJSONDecodeError) [] []
  = (Returned Stop,
     [Print "waiting for static analysis to finish";
      Print "the sample is in a failed state"], []).
Proof.
  exact (proj1 (proj2 (wait_events_decided [event "pending"] [] []
                         ltac:(repeat constructor)))
           (event "failed") [] (Some EJSONDecodeError) eq_refl).
Defined.

(** X21 at a concrete input: a static report whose file list is empty. *)
Lemma prompt_select_profile_without_files_witness :
  prompt_select_profile demo_version Json.loads Json.dumps
    (net_selection no_files_body) plain_render blank_prompt no_profiles
    demo_client "200923-hb5gvebega" [] []
  = (Crashed (UnboundLocalError "defaultSelection"), [],
     [events_request demo_version demo_client "200923-hb5gvebega";
      json_request demo_version Json.dumps demo_client "GET"
        "/v0/samples/200923-hb5gvebega/reports/static" None]).
Proof.
  refine (proj1 (prompt_select_profile_without_files demo_version Json.loads
                   Json.dumps (net_selection no_files_body) plain_render
                   blank_prompt no_profiles demo_client "200923-hb5gvebega"
                   [] [] [] _ _ _ [event "static_analysis"] None
                   (JObj [("files", JArr [])]) [] _ _ _)
            (JArr []) eq_refl eq_refl eq_refl);
    vm_compute; reflexivity.
Defined.

(** X22 at a concrete input: two files, the first one emphasized, and no
    profile on the account. *)
Lemma prompt_select_profile_default_selection_witness :
  snd (prompt_select_profile demo_version Json.loads Json.dumps
         (net_selection two_files_body) plain_render blank_prompt no_profiles
         demo_client "200923-hb5gvebega" [] [])
  = [events_request demo_version demo_client "200923-hb5gvebega";
     json_request demo_version Json.dumps demo_client "GET"
       "/v0/samples/200923-hb5gvebega/reports/static" None;
     json_request demo_version Json.dumps demo_client "POST"
       "/v0/samples/200923-hb5gvebega/profile"
       (Some (JObj [("auto", JBool true); ("pick", JArr [JStr "a.exe"])]))].
Proof.
  rewrite (prompt_select_profile_default_selection demo_version Json.loads
             Json.dumps (net_selection two_files_body) plain_render
             blank_prompt no_profiles demo_client "200923-hb5gvebega"
             [] []
             [] [events_request demo_version demo_client "200923-hb5gvebega"]
             [events_request demo_version demo_client "200923-hb5gvebega";
              json_request demo_version Json.dumps demo_client "GET"
                "/v0/samples/200923-hb5gvebega/reports/static" None]
             [events_request demo_version demo_client "200923-hb5gvebega";
              json_request demo_version Json.dumps demo_client "GET"
                "/v0/samples/200923-hb5gvebega/reports/static" None]
             [event "static_analysis"] None
             (JObj [("files", JArr two_files)]) []
             ltac:(vm_compute; reflexivity) ltac:(vm_compute; reflexivity)
             ltac:(vm_compute; reflexivity)
             two_files [JStr "a.exe"] eq_refl ltac:(discriminate) eq_refl
             eq_refl eq_refl).
  vm_compute. reflexivity.
Defined.

Section Submit.

Variable sys_version : string.
Variable json_loads : bytes -> option json.
Variable json_dumps : json -> string.
Variable net : list Request -> Request -> reply.
Variable render : json -> string.
Variable prompt_select_options : list effect -> json -> string -> list Z.
Variable all_profiles : Client -> M (list json).
Variable path_exists : string -> bool.
Variable open_rb : string -> option bytes.
Variable basename : string -> string.
Variable entropy : bytes.
Variable tokenfile : string.
Variable content : option string.

(** X23. [submit] refuses --interactive together with --profile before it
    does anything else: it prints that they are mutually exclusive and
    returns, without reading the token file and without a request. With
    an empty target it reads the token file, prints the usage line and
    sends nothing. *)
Theorem submit_guards (target : string) (interactive : bool)
    (profile : list string) :
  (interactive = true -> profile <> [] ->
   submit sys_version json_loads json_dumps net render prompt_select_options
     all_profiles path_exists open_rb basename entropy tokenfile content
     target interactive profile
   = (Returned tt,
      [Print "--interactive and --profile are mutually exclusive"], []))
  /\ (forall c,
        client_from_env tokenfile content = (Returned c, []) ->
        interactive && negb (is_nil profile) = false ->
        submit sys_version json_loads json_dumps net render
          prompt_select_options all_profiles path_exists open_rb basename
          entropy tokenfile content "" interactive profile
        = (Returned tt, [Print "Please specify -f file or -u url"], [])).
Proof.
  split.
  - intros -> Hp. unfold submit. now destruct profile.
  - intros c Hc Hx. unfold submit. rewrite Hx, Hc.
    cbn [non_empty String.eqb negb]. rewrite !andb_false_r. reflexivity.
Qed.

Variable c : Client.
Hypothesis client_read : client_from_env tokenfile content = (Returned c, []).

(** X24. A submission that is not interactive sends one request and prints
    four lines. A target that exists is read in binary mode and submitted
    as a file under its base name, any other target is submitted as a url;
    the profiles sent are one {"profile": x} per --profile option, in
    order; the lines show the id, the status and the filename or url of
    the answer. *)
Theorem submit_prints_answer (target : string) (profile : list string)
    (r : json) (log : list Request) (id st what : json) :
  non_empty target = true ->
  getitem r "id" = Ok id -> getitem r "status" = Ok st ->
  (forall b,
     path_exists target = true -> open_rb target = Some b ->
     submit_sample_file sys_version json_loads json_dumps net c entropy
       (basename target) (FileBytes b) false (profile_list profile) []
     = (Ok r, log) ->
     getitem r "filename" = Ok what ->
     submit sys_version json_loads json_dumps net render prompt_select_options
       all_profiles path_exists open_rb basename entropy tokenfile content
       target false profile
     = (Returned tt,
        [Print "Sample submitted";
         Print ("  ID:       " +:+ format_value render id);
         Print ("  Status:   " +:+ format_value render st);
         Print ("  Filename: " +:+ format_value render what)], log))
  /\ (path_exists target = false ->
      submit_sample_url sys_version json_loads json_dumps net c target false
        (profile_list profile) []
      = (Ok r, log) ->
      getitem r "url" = Ok what ->
      submit sys_version json_loads json_dumps net render prompt_select_options
        all_profiles path_exists open_rb basename entropy tokenfile content
        target false profile
      = (Returned tt,
         [Print "Sample submitted";
          Print ("  ID:       " +:+ format_value render id);
          Print ("  Status:   " +:+ format_value render st);
          Print ("  URL:      " +:+ format_value render what)], log)).
Proof.
  intros Hne Hid Hst. split.
  - intros b Hex Hopen Hcall Hwhat. unfold submit.
    cbn [andb]. rewrite client_read, Hex, Hne, Hopen. cbn [andb].
    cbv [bind call submitted emit eval ret stop].
    rewrite Hcall, Hid, Hst, Hwhat. reflexivity.
  - intros Hex Hcall Hwhat. unfold submit.
    cbn [andb]. rewrite client_read, Hex, Hne. cbn [andb negb].
    cbv [bind call submitted emit eval ret stop].
    rewrite Hcall, Hid, Hst, Hwhat. reflexivity.
Qed.

End Submit.

(** X23 at a concrete input. *)
Lemma submit_guards_witness :
  submit demo_version Json.loads Json.dumps
    (net_const (Reply 200 (encode_utf8 "{}"))) plain_render blank_prompt
    no_profiles (fun _ => false) (fun _ => None) (fun p => p) zero_entropy
    "triage.conf" None "http://example.com" true ["w7_long"]
  = (Returned tt,
     [Print "--interactive and --profile are mutually exclusive"], []).
Proof.
  refine (proj1 (submit_guards demo_version Json.loads Json.dumps
                   (net_const (Reply 200 (encode_utf8 "{}"))) plain_render
                   blank_prompt no_profiles (fun _ => false) (fun _ => None)
                   (fun p => p) zero_entropy "triage.conf" None
                   "http://example.com" true ["w7_long"]) eq_refl _).
  discriminate.
Defined.

(** X24 at a concrete input: a url submitted with one profile. *)
Lemma submit_prints_answer_witness :
  submit demo_version Json.loads Json.dumps (net_const (Reply 200 url_answer))
    plain_render blank_prompt no_profiles (fun _ => false) (fun _ => None)
    (fun p => p) zero_entropy "triage.conf" (Some token_text)
    "http://example.com" false ["w7_long"]
  = (Returned tt,
     [Print "Sample submitted";
      Print "  ID:       200923-esktrbc2a6";
      Print "  Status:   pending";
      Print "  URL:      http://example.com"],
     [json_request demo_version Json.dumps demo_client "POST" "/v0/samples"
        (Some (JObj [("kind", JStr "url"); ("url", JStr "http://example.com");
                     ("interactive", JBool false);
                     ("profiles",
                      JArr [JObj [("profile", JStr "w7_long")]])]))]).
Proof.
  refine (proj2 (submit_prints_answer demo_version Json.loads Json.dumps
                   (net_const (Reply 200 url_answer)) plain_render
                   blank_prompt no_profiles (fun _ => false) (fun _ => None)
                   (fun p => p) zero_entropy "triage.conf" (Some token_text)
                   demo_client eq_refl "http://example.com" ["w7_long"]
                   (JObj [("id", JStr "200923-esktrbc2a6");
                          ("status", JStr "pending");
                          ("url", JStr "http://example.com")])
                   _ (JStr "200923-esktrbc2a6") (JStr "pending")
                   (JStr "http://example.com") eq_refl eq_refl eq_refl)
            eq_refl _ eq_refl).
  vm_compute. reflexivity.
Defined.

End CliInteractive.
(** ** Profiles chosen by hand *)

Module CliProfiles.
Import Cli.

Section Profiles.

Variable render : json -> string.
Variable prompt_select_options : list effect -> json -> string -> list Z.
Variable profiles : list json.

(** An index [profiles[i]] accepts. *)
Let listed (i : Z) : Prop :=
  (- Z.of_nat (length profiles) <= i < Z.of_nat (length profiles))%Z.

Let has_id (p : json) : Prop := exists id, getitem p "id" = Ok id.

(** An entry that pairs one of the files with the id of a listed profile. *)
Let pairs (pick : list json) (entry : json) : Prop :=
  exists i p id,
    In i pick /\ In p profiles /\ getitem p "id" = Ok id
    /\ entry = JObj [("profile", id); ("pick", i)].

Lemma list_index_listed (i : Z) :
  listed i -> exists p, list_index profiles i = Some p /\ In p profiles.
Proof.
  unfold listed, list_index. intros Hi.
  destruct (Z.leb_spec 0 i) as [H0|H0].
  - destruct (Z.ltb_spec i (Z.of_nat (length profiles))) as [H1|H1]; [|lia].
    cbn [andb].
    destruct (nth_error profiles (Z.to_nat i)) as [p|] eqn:Hn.
    + exists p. split; [reflexivity|]. eapply nth_error_In, Hn.
    + apply nth_error_None in Hn. lia.
  - cbn [andb].
    destruct (Z.leb_spec (- Z.of_nat (length profiles)) i) as [H1|H1]; [|lia].
    destruct (Z.ltb_spec i 0) as [H2|H2]; [|lia]. cbn [andb].
    destruct (nth_error profiles (Z.to_nat (Z.of_nat (length profiles) + i)))
      as [p|] eqn:Hn.
    + exists p. split; [reflexivity|]. eapply nth_error_In, Hn.
    + apply nth_error_None in Hn. lia.
Qed.

Lemma list_index_nil (i : Z) : list_index (@nil json) i = None.
Proof.
  unfold list_index. cbn [length].
  repeat match goal with
         | |- context [if ?b then _ else _] => destruct b
         end;
    try reflexivity;
    match goal with |- nth_error [] ?n = None => now destruct n end.
Qed.

Lemma chosen_profiles_entries (i : json) (selection : list Z) :
  Forall has_id profiles -> Forall listed selection ->
  exists chosen,
    chosen_profiles profiles i selection = Returned chosen
    /\ Forall (pairs [i]) chosen.
Proof.
  intros Hid Hsel. induction Hsel as [|choice rest Hc _ IH].
  - exists []. split; [reflexivity|constructor].
  - destruct IH as (chosen & Hrest & Hall).
    destruct (list_index_listed _ Hc) as (p & Hp & Hin).
    destruct (proj1 (List.Forall_forall _ _) Hid p Hin) as (id & Hget).
    exists (JObj [("profile", id); ("pick", i)] :: chosen).
    cbn [chosen_profiles]. rewrite Hp, Hget, Hrest. split; [reflexivity|].
    constructor; [|exact Hall].
    exists i, p, id. cbn [In]. auto.
Qed.

Lemma pairs_more (i : json) (pick : list json) (entries : list json) :
  Forall (pairs pick) entries -> Forall (pairs (i :: pick)) entries.
Proof.
  apply List.Forall_impl. intros e (j & p & id & Hj & H).
  exists j, p, id. cbn [In]. tauto.
Qed.

Lemma pairs_first (i : json) (pick : list json) (entries : list json) :
  Forall (pairs [i]) entries -> Forall (pairs (i :: pick)) entries.
Proof.
  apply List.Forall_impl. intros e (j & p & id & Hj & H).
  exists j, p, id. cbn [In] in *. tauto.
Qed.

Lemma prompts_app (a b : list effect) :
  prompts (a ++ b) = prompts a + prompts b.
Proof. unfold prompts. now rewrite List.filter_app, List.length_app. Qed.

Lemma profiles_for_files (pick : list json) (fx : list effect)
    (log : list Request) :
  Forall has_id profiles ->
  (forall fx', Forall listed (prompt_select_options fx' (JArr profiles) "name")) ->
  exists selections more,
    prompt_select_profiles_for_files render prompt_select_options profiles
      pick fx log
    = (Returned selections, fx ++ more, log)
    /\ Forall (pairs pick) selections
    /\ prompts more = length pick.
Proof.
  intros Hid Hsel. revert fx. induction pick as [|i pick IH]; intros fx.
  - exists [], []. cbn. rewrite app_nil_r. repeat split. constructor.
  - cbn [prompt_select_profiles_for_files].
    cbv [bind emit ask stop ret].
    set (fx' := fx ++ [Print _]).
    destruct (chosen_profiles_entries i _ Hid (Hsel fx')) as (chosen & Hc & Hp).
    rewrite Hc.
    destruct (IH (fx' ++ [Prompt (JArr profiles) "name"]))
      as (selections & more & Hrun & Hall & Hn).
    rewrite Hrun.
    exists (chosen ++ selections),
      ([Print ("Please select the profiles to use for " +:+ " "
               +:+ format_value render i);
        Prompt (JArr profiles) "name"] ++ more).
    repeat split.
    + subst fx'. now rewrite <- !app_assoc.
    + apply List.Forall_app. split; [now apply pairs_first|now apply pairs_more].
    + rewrite prompts_app, Hn. reflexivity.
Qed.

Lemma profile_id_listed (j : Z) (p id : json) :
  list_index profiles j = Some p -> getitem p "id" = Ok id ->
  profile_id profiles j = id.
Proof.
  intros Hp Hid. unfold profile_id. rewrite Hp.
  destruct p as [| | | | | |kv]; try discriminate.
  cbn [getitem] in Hid. destruct (assoc "id" kv); [|discriminate].
  now injection Hid as ->.
Qed.

Lemma chosen_profiles_exact (i : json) (selection : list Z) :
  Forall has_id profiles -> Forall listed selection ->
  chosen_profiles profiles i selection
  = Returned (map (fun j => JObj [("profile", profile_id profiles j);
                                  ("pick", i)]) selection).
Proof.
  intros Hid Hsel. induction Hsel as [|choice rest Hc _ IH]; [reflexivity|].
  destruct (list_index_listed _ Hc) as (p & Hp & Hin).
  destruct (proj1 (List.Forall_forall _ _) Hid p Hin) as (id & Hget).
  cbn [chosen_profiles map]. rewrite Hp, Hget, IH.
  now rewrite (profile_id_listed _ _ _ Hp Hget).
Qed.

Lemma prompts_print (fx : list effect) (line : string) :
  prompts (fx ++ [Print line]) = prompts fx.
Proof. rewrite prompts_app. cbn. lia. Qed.

Lemma prompts_prompt (fx : list effect) (options : json) (key : string) :
  prompts (fx ++ [Prompt options key]) = S (prompts fx).
Proof. rewrite prompts_app. cbn. lia. Qed.

Lemma profiles_for_files_exact (answer : nat -> list Z) (pick : list json)
    (fx : list effect) (log : list Request) :
  Forall has_id profiles ->
  (forall n, Forall listed (answer n)) ->
  (forall fx', prompt_select_options fx' (JArr profiles) "name"
               = answer (prompts fx')) ->
  prompt_select_profiles_for_files render prompt_select_options profiles
    pick fx log
  = (Returned (entries_from profiles answer (prompts fx) pick),
     fx ++ questions render profiles pick, log).
Proof.
  intros Hid Hrange Hanswer. revert fx.
  induction pick as [|i pick IH]; intros fx.
  - cbn. now rewrite app_nil_r.
  - cbn [prompt_select_profiles_for_files entries_from questions flat_map].
    cbv [bind emit ask stop ret].
    rewrite Hanswer, prompts_print.
    rewrite (chosen_profiles_exact i _ Hid (Hrange (prompts fx))).
    rewrite IH, prompts_prompt, prompts_print.
    fold (questions render profiles pick).
    now rewrite <- !app_assoc.
Qed.

Lemma entries_from_nil (answer : nat -> list Z) (n : nat) (pick : list json) :
  entries_from profiles answer n pick = []
  <-> forall k, k < length pick -> answer (n + k) = [].
Proof.
  revert n. induction pick as [|i pick IH]; intros n.
  - cbn. split; [intros _ k Hk; lia|reflexivity].
  - cbn [entries_from length]. split.
    + intros H. apply app_eq_nil in H as [H0 Hrest].
      apply map_eq_nil in H0.
      intros [|k] Hk; [now rewrite Nat.add_0_r|].
      rewrite Nat.add_succ_r. apply (proj1 (IH (S n)) Hrest k). lia.
    + intros H. rewrite (proj2 (IH (S n))).
      * specialize (H 0 ltac:(lia)). rewrite Nat.add_0_r in H.
        now rewrite H.
      * intros k Hk. specialize (H (S k) ltac:(lia)).
        now rewrite Nat.add_succ_r in H.
Qed.

(** X25. [prompt_select_profiles_for_files], when every listed profile has
    an id and the terminal answers with indices of the list: it returns,
    it asks once for each picked file and sends no request, and every entry
    it returns pairs one of the picked files with the id of a listed
    profile. *)
Theorem prompt_select_profiles_for_files_entries (pick : list json)
    (fx : list effect) (log : list Request) :
  Forall (fun p => exists id, getitem p "id" = Ok id) profiles ->
  (forall fx',
     Forall (fun i => (- Z.of_nat (length profiles) <= i
                       < Z.of_nat (length profiles))%Z)
       (prompt_select_options fx' (JArr profiles) "name")) ->
  exists selections more,
    prompt_select_profiles_for_files render prompt_select_options profiles
      pick fx log
    = (Returned selections, fx ++ more, log)
    /\ Forall (fun entry =>
                 exists i p id,
                   In i pick /\ In p profiles /\ getitem p "id" = Ok id
                   /\ entry = JObj [("profile", id); ("pick", i)])
         selections
    /\ prompts more = length pick.
Proof. intros Hid Hsel. exact (profiles_for_files pick fx log Hid Hsel). Qed.

Variable sys_version : string.
Variable json_loads : bytes -> option json.
Variable json_dumps : json -> string.
Variable net : list Request -> Request -> reply.
Variable all_profiles : Client -> M (list json).
Variable c : Client.
Variable sample : string.
Variable fx fx1 : list effect.
Variable log log1 log2 log3 : list Request.
Variable events : list json.
Variable final : option exn.
Variable static : json.

Hypothesis events_streamed :
  sample_events sys_version json_loads net c sample log
  = ((events, final), log1).
Hypothesis selection_goes_on :
  wait_events events final fx log1 = (Returned Proceed, fx1, log1).
Hypothesis static_fetched :
  static_report sys_version json_loads json_dumps net c sample log1
  = (Ok static, log2).
Hypothesis profiles_listed : all_profiles c log2 = (Ok profiles, log3).

(** What the file prompt prints before it asks. *)
Let asked : list effect :=
  [Print "Please select the files from the archive to analyize/";
   Print ("Leave blank to continue with the emphasized files and "
          +:+ "automatic profiles.")].

(** The request that ends a selection by hand. *)
Let decided (pick selections : list json) : M json :=
  if is_nil selections
  then set_sample_profile_automatically sys_version json_loads json_dumps net
         c sample (JArr pick)
  else set_sample_profile sys_version json_loads json_dumps net c sample
         (JArr selections).

(** X26. When files are chosen at the file prompt and the account has
    profiles, [prompt_select_profile] asks for the profiles once per chosen
    file, in order, and ends with one request that the answers decide:
    [answer n] being what the terminal answers after [n] questions, the
    entries are, for each chosen file in turn, one {profile, pick} per
    profile chosen at its question, with the id of that profile and the
    file. If no profile was chosen at any of the questions, the automatic
    request is sent for the chosen files after the line "Skipping profile
    selection.. choosing automatically"; otherwise the request with auto
    false and these entries is sent. *)
Theorem prompt_select_profile_by_hand (items pick : list json)
    (answer : nat -> list Z) :
  getitem static "files" = Ok (JArr items) ->
  prompt_select_options (fx1 ++ asked) (JArr items) "filename" <> [] ->
  chosen_relpaths (JArr items)
    (prompt_select_options (fx1 ++ asked) (JArr items) "filename")
  = Returned pick ->
  profiles <> [] ->
  Forall (fun p => exists id, getitem p "id" = Ok id) profiles ->
  (forall fx', prompt_select_options fx' (JArr profiles) "name"
               = answer (prompts fx')) ->
  (forall n,
     Forall (fun i => (- Z.of_nat (length profiles) <= i
                       < Z.of_nat (length profiles))%Z) (answer n)) ->
  let selections := entries_from profiles answer (S (prompts fx1)) pick in
  (selections = []
   <-> forall k, k < length pick -> answer (S (prompts fx1) + k) = [])
  /\ prompt_select_profile sys_version json_loads json_dumps net render
       prompt_select_options all_profiles c sample fx log
     = (match fst (decided pick selections log3) with
        | Ok _ => Returned tt
        | Raise e => Raised e
        end,
        fx1 ++ asked ++ [Prompt (JArr items) "filename"]
        ++ questions render profiles pick
        ++ (if is_nil selections
            then [Print ("Skipping profile selection.. choosing "
                         +:+ "automatically")]
            else []),
        snd (decided pick selections log3)).
Proof.
  intros Hfiles Hsel Hpick Hne Hid Hanswer Hrange selections.
  split; [apply entries_from_nil|].
  pose proof (profiles_for_files_exact answer pick
                (fx1 ++ asked ++ [Prompt (JArr items) "filename"]) log3
                Hid Hrange Hanswer) as Hrun.
  assert (prompts (fx1 ++ asked ++ [Prompt (JArr items) "filename"])
          = S (prompts fx1)) as Hcount.
  { rewrite !prompts_app. cbn. lia. }
  rewrite Hcount in Hrun. fold selections in Hrun.
  unfold prompt_select_profile. rewrite events_streamed. cbn [fst snd].
  cbv [bind emit eval ask ret stop call set_automatically prompt_select_files].
  rewrite selection_goes_on, static_fetched, Hfiles. cbn [py_len].
  destruct items as [|item items'].
  { exfalso. destruct (prompt_select_options _ _ _) as [|i sel]; [congruence|].
    cbn [chosen_relpaths relpath_at] in Hpick.
    rewrite list_index_nil in Hpick. discriminate. }
  cbn [length Nat.leb]. set (items := item :: items') in *.
  rewrite <- (app_assoc fx1). change ([?a] ++ [?b]) with [a; b].
  fold asked.
  destruct (prompt_select_options (fx1 ++ asked) (JArr items) "filename")
    as [|i sel] eqn:Hanswered; [congruence|].
  cbn [length Nat.eqb]. rewrite Hpick, profiles_listed. cbn [orb].
  destruct profiles as [|p ps] eqn:Hprofiles; [congruence|].
  cbn [length Nat.eqb]. rewrite <- Hprofiles in *.
  rewrite <- app_assoc in Hrun |- *. rewrite Hrun.
  unfold decided.
  destruct selections as [|s ss]; cbn [length Nat.eqb is_nil].
  - destruct (set_sample_profile_automatically _ _ _ _ _ _ _ _) as [[r|e] l];
      cbn [fst snd]; rewrite <- ?app_assoc; reflexivity.
  - destruct (set_sample_profile _ _ _ _ _ _ _ _) as [[r|e] l];
      cbn [fst snd]; rewrite <- ?app_assoc, ?app_nil_r; reflexivity.
Qed.

End Profiles.

(** X25 at a concrete input: two picked files and one profile, the first
    profile chosen for each. *)
Lemma prompt_select_profiles_for_files_entries_witness :
  exists selections more,
    prompt_select_profiles_for_files plain_render pick_prompt one_profile
      [JStr "a.exe"; JStr "b.txt"] [] []
    = (Returned selections, [] ++ more, [])
    /\ Forall (fun entry =>
                 exists i p id,
                   In i [JStr "a.exe"; JStr "b.txt"] /\ In p one_profile
                   /\ getitem p "id" = Ok id
                   /\ entry = JObj [("profile", id); ("pick", i)])
         selections
    /\ prompts more = 2.
Proof.
  apply (prompt_select_profiles_for_files_entries plain_render pick_prompt
           one_profile [JStr "a.exe"; JStr "b.txt"] [] []).
  - constructor; [now exists (JStr "w10")|constructor].
  - intros fx'. cbn. constructor; [lia|constructor].
Defined.

(** X26 at a concrete input: the second of two files and the only profile
    are chosen. *)
Lemma prompt_select_profile_by_hand_witness :
  prompt_select_profile demo_version Json.loads Json.dumps
    (net_selection two_files_body) plain_render pick_prompt
    one_profile_account demo_client "200923-hb5gvebega" [] []
  = (Returned tt,
     [Print "Please select the files from the archive to analyize/";
      Print ("Leave blank to continue with the emphasized files and "
             +:+ "automatic profiles.");
      Prompt (JArr two_files) "filename";
      Print "Please select the profiles to use for  b.txt";
      Prompt (JArr one_profile) "name"],
     [events_request demo_version demo_client "200923-hb5gvebega";
      json_request demo_version Json.dumps demo_client "GET"
        "/v0/samples/200923-hb5gvebega/reports/static" None;
      json_request demo_version Json.dumps demo_client "POST"
        "/v0/samples/200923-hb5gvebega/profile"
        (Some (JObj [("auto", JBool false);
                     ("profiles",
                      JArr [JObj [("profile", JStr "w10");
                                  ("pick", JStr "b.txt")]])]))]).
Proof.
  rewrite (proj2 (prompt_select_profile_by_hand plain_render pick_prompt
             one_profile
             demo_version Json.loads Json.dumps (net_selection two_files_body)
             one_profile_account demo_client "200923-hb5gvebega" [] []
             [] [events_request demo_version demo_client "200923-hb5gvebega"]
             [events_request demo_version demo_client "200923-hb5gvebega";
              json_request demo_version Json.dumps demo_client "GET"
                "/v0/samples/200923-hb5gvebega/reports/static" None]
             [events_request demo_version demo_client "200923-hb5gvebega";
              json_request demo_version Json.dumps demo_client "GET"
                "/v0/samples/200923-hb5gvebega/reports/static" None]
             [event "static_analysis"] None
             (JObj [("files", JArr two_files)])
             ltac:(vm_compute; reflexivity) ltac:(vm_compute; reflexivity)
             ltac:(vm_compute; reflexivity) eq_refl
             two_files [JStr "b.txt"] (fun _ => [0%Z]) eq_refl
             ltac:(discriminate) eq_refl ltac:(discriminate)
             ltac:(constructor; [now exists (JStr "w10")|constructor])
             ltac:(reflexivity)
             ltac:(intros n; cbn; constructor; [lia|constructor]))).
  vm_compute. reflexivity.
Defined.

End CliProfiles.
